(** * The Digital Mirror: scoring, tracking and challenge controller

    A shallow embedding of [script.js] (class [DigitalMirror]).  The
    last parts add the trigger phrase, the error handling of the speech
    listener, and the challenge controllers of the two earlier revisions
    of the file.

    Numbers.  JavaScript numbers are modelled by rationals [Q] with exact
    arithmetic; rounding error and overflow are outside the model.  Values
    that can be [undefined] or [NaN] in the tracking pipeline are modelled
    by [jsval].  The facial metrics and the score, where a division by
    zero can give an infinity or [NaN], are modelled by [jsnum], which
    adds the special values of IEEE doubles; the sign of zero is not
    modelled, and it only decides which of the two infinities a division
    by zero gives.  [toFixed1] rounds the exact rational, so its last
    digit can differ from the one the code prints for the nearest double.
    Integer-valued fields ([smileLevel], [humanityPercentage], video
    dimensions, timestamps) are [Z].

    Host functions.  [Math.sin], [Math.cos] and [Math.sqrt] are section
    variables; [Math.random] is a stream read by the callback that draws
    from it; the detector is an input of each animation frame.

    Left out.  Everything that only touches the page (messages, overlays,
    buttons, drawing on the canvas), the speech recogniser itself (what it
    reports is an event of the listener), and the fields [lastTriggerTime]
    and [isProcessing], which are written but never read.
    [triggerSmileVerification] awaits
    [generateSmileScore], which awaits nothing itself, so its continuation
    runs before any other timer or event and the call is one step; an
    animation frame, which awaits the detector, is one step too. *)

From Stdlib Require Import QArith Qminmax Qround Qabs ZArith List Bool.
From Stdlib Require Import Lia Lqa.
From Stdlib Require Ascii String.
Import ListNotations.

Open Scope Q_scope.

(* ================================================================== *)
(** ** Host arithmetic *)

Definition Math_min (a b : Q) : Q := Qmin a b.
Definition Math_max (a b : Q) : Q := Qmax a b.

(** [Number.prototype.toFixed(1)], read back as a number: the nearest
    multiple of 1/10, ties going to the larger magnitude. *)
Definition toFixed1 (x : Q) : Q :=
  if Qlt_le_dec x 0
  then - (Qfloor ((- x) * 10 + (1 # 2)) # 10)
  else Qfloor (x * 10 + (1 # 2)) # 10.

(* ================================================================== *)
(** ** Scoring engine *)

Record SubMetrics : Type := mkSubMetrics {
  mouthCurvature : Q;
  eyeSymmetry : Q;
  smileIntensity : Q;
  mouthWidth : Q;
  facialTension : Q
}.

(** The weighted sum both score functions start from. *)
Definition weightedBase (metrics : SubMetrics) : Q :=
  mouthCurvature metrics * 0.3 +
  eyeSymmetry metrics * 0.2 +
  smileIntensity metrics * 0.3 +
  mouthWidth metrics * 0.1 +
  (100 - facialTension metrics) * 0.1.

Definition calculateRealisticScore (metrics : SubMetrics) (level : Z) : Q :=
  let baseScore := weightedBase metrics in
  match level with
  | 1%Z => Math_max (Math_min baseScore 75) 55
  | 2%Z => Math_max (Math_min baseScore 65) 40
  | 3%Z => Math_max (Math_min baseScore 45) 25
  | _ => baseScore
  end.

Definition calculateSimulatedScore (metrics : SubMetrics) (level : Z) : Q :=
  let baseScore := weightedBase metrics in
  match level with
  | 1%Z => Math_max (Math_min baseScore 75) 55
  | 2%Z => Math_max (Math_min baseScore 65) 40
  | 3%Z => Math_max (Math_min baseScore 45) 25
  | _ => baseScore
  end.

(** [generateSimulatedMetrics]: five draws of [Math.random], in source
    order. *)
Definition generateSimulatedMetrics (random : nat -> Q) : SubMetrics :=
  {| mouthCurvature := random 0%nat * 30 + 40;
     eyeSymmetry := random 1%nat * 25 + 60;
     smileIntensity := random 2%nat * 35 + 45;
     mouthWidth := random 3%nat * 20 + 70;
     facialTension := random 4%nat * 40 + 30 |}.

(** The variance and the final clamp of [generateSmileScore]. *)
Definition finalScoreOf (baseScore rnd : Q) : Q :=
  let variance := (rnd - 0.5) * 6 in
  Math_max 5 (Math_min 79 (baseScore + variance)).

(* ================================================================== *)
(** ** JavaScript values of the tracking pipeline *)

(** A coordinate slot holds a number, [NaN] or [undefined]. *)
Inductive jsval : Type :=
| Num (q : Q)
| NaN
| Undefined.

Definition lift2 (f : Q -> Q -> Q) (a b : jsval) : jsval :=
  match a, b with
  | Num x, Num y => Num (f x y)
  | _, _ => NaN
  end.

Definition jadd : jsval -> jsval -> jsval := lift2 Qplus.
Definition jsub : jsval -> jsval -> jsval := lift2 Qminus.
Definition jmul : jsval -> jsval -> jsval := lift2 Qmult.

(** Division in the tracking pipeline, where every divisor is non-zero
    (a literal, or a video dimension behind a guard), so the infinities
    of JavaScript are not needed; the divisions of the facial metrics
    are [xdiv] below. *)
Definition jdiv (a b : jsval) : jsval :=
  match a, b with
  | Num x, Num y => if Qeq_bool y 0 then NaN else Num (x / y)
  | _, _ => NaN
  end.

(** [a <= b]: false as soon as one side is not a number. *)
Definition jle (a b : jsval) : bool :=
  match a, b with
  | Num x, Num y => Qle_bool x y
  | _, _ => false
  end.

(** [v !== undefined] *)
Definition defined (v : jsval) : bool :=
  match v with
  | Undefined => false
  | _ => true
  end.

(** [v || 0] *)
Definition orZero (v : jsval) : jsval :=
  match v with
  | Num q => if Qeq_bool q 0 then Num 0 else Num q
  | NaN => Num 0
  | Undefined => Num 0
  end.

Definition jmin : jsval -> jsval -> jsval := lift2 Qmin.
Definition jmax : jsval -> jsval -> jsval := lift2 Qmax.

(** [Math.min(...xs)] and [Math.max(...xs)] for a non-empty argument list
    [x :: rest]: every argument is converted to a number, and one [NaN]
    makes the result [NaN]. *)
Definition toNumber (v : jsval) : jsval :=
  match v with
  | Num q => Num q
  | _ => NaN
  end.

Definition spreadMin (x : jsval) (rest : list jsval) : jsval :=
  fold_left jmin rest (toNumber x).
Definition spreadMax (x : jsval) (rest : list jsval) : jsval :=
  fold_left jmax rest (toNumber x).

Definition isNum (v : jsval) : bool :=
  match v with
  | Num _ => true
  | _ => false
  end.

(* ================================================================== *)
(** ** Numbers with their special values *)

(** The values arithmetic on measurements can produce: a finite number,
    an infinity, or [NaN].  Zero is not signed: a division by zero takes
    the sign of its dividend. *)
Inductive jsnum : Type :=
| Fin (q : Q)
| PosInf
| NegInf
| NotNumber.

(** The number a slot is read as. *)
Definition ofVal (v : jsval) : jsnum :=
  match v with
  | Num q => Fin q
  | NaN => NotNumber
  | Undefined => NotNumber
  end.

Definition xadd (a b : jsnum) : jsnum :=
  match a, b with
  | Fin x, Fin y => Fin (x + y)
  | NotNumber, _ => NotNumber
  | _, NotNumber => NotNumber
  | PosInf, NegInf => NotNumber
  | NegInf, PosInf => NotNumber
  | PosInf, _ => PosInf
  | _, PosInf => PosInf
  | NegInf, _ => NegInf
  | _, NegInf => NegInf
  end.

Definition xsub (a b : jsnum) : jsnum :=
  match a, b with
  | Fin x, Fin y => Fin (x - y)
  | NotNumber, _ => NotNumber
  | _, NotNumber => NotNumber
  | PosInf, PosInf => NotNumber
  | NegInf, NegInf => NotNumber
  | PosInf, _ => PosInf
  | _, NegInf => PosInf
  | NegInf, _ => NegInf
  | _, PosInf => NegInf
  end.

(** An infinity times, or over, a finite number of the given sign. *)
Definition signed (inf : jsnum) (q : Q) : jsnum :=
  match q ?= 0 with
  | Gt => inf
  | Lt => match inf with
          | PosInf => NegInf
          | NegInf => PosInf
          | other => other
          end
  | Eq => NotNumber
  end.

Definition xmul (a b : jsnum) : jsnum :=
  match a, b with
  | Fin x, Fin y => Fin (x * y)
  | NotNumber, _ => NotNumber
  | _, NotNumber => NotNumber
  | PosInf, Fin y => signed PosInf y
  | NegInf, Fin y => signed NegInf y
  | Fin x, PosInf => signed PosInf x
  | Fin x, NegInf => signed NegInf x
  | PosInf, PosInf => PosInf
  | NegInf, NegInf => PosInf
  | PosInf, NegInf => NegInf
  | NegInf, PosInf => NegInf
  end.

Definition xdiv (a b : jsnum) : jsnum :=
  match a, b with
  | Fin x, Fin y => if Qeq_bool y 0 then signed PosInf x else Fin (x / y)
  | NotNumber, _ => NotNumber
  | _, NotNumber => NotNumber
  | Fin _, PosInf => Fin 0
  | Fin _, NegInf => Fin 0
  | PosInf, Fin y => if Qeq_bool y 0 then PosInf else signed PosInf y
  | NegInf, Fin y => if Qeq_bool y 0 then NegInf else signed NegInf y
  | _, _ => NotNumber                 (* an infinity over an infinity *)
  end.

(** [Math.min(a, b)], [Math.max(a, b)], [Math.abs(a)] *)
Definition xmin (a b : jsnum) : jsnum :=
  match a, b with
  | Fin x, Fin y => Fin (Qmin x y)
  | NotNumber, _ => NotNumber
  | _, NotNumber => NotNumber
  | NegInf, _ => NegInf
  | _, NegInf => NegInf
  | PosInf, other => other
  | other, PosInf => other
  end.

Definition xmax (a b : jsnum) : jsnum :=
  match a, b with
  | Fin x, Fin y => Fin (Qmax x y)
  | NotNumber, _ => NotNumber
  | _, NotNumber => NotNumber
  | PosInf, _ => PosInf
  | _, PosInf => PosInf
  | NegInf, other => other
  | other, NegInf => other
  end.

Definition xabs (a : jsnum) : jsnum :=
  match a with
  | Fin x => Fin (Qabs x)
  | PosInf => PosInf
  | NegInf => PosInf
  | NotNumber => NotNumber
  end.

(** [x.toFixed(1)], read back as a number; an infinity and [NaN] print
    as themselves. *)
Definition toFixed (x : jsnum) : jsnum :=
  match x with
  | Fin q => Fin (toFixed1 q)
  | other => other
  end.

(** The scoring functions on every value a metric can hold.  On finite
    metrics they are the functions of the scoring engine above. *)
Module Js.

Record SubMetrics : Type := mkSubMetrics {
  mouthCurvature : jsnum;
  eyeSymmetry : jsnum;
  smileIntensity : jsnum;
  mouthWidth : jsnum;
  facialTension : jsnum
}.

Definition weightedBase (metrics : SubMetrics) : jsnum :=
  xadd (xadd (xadd (xadd (xmul (mouthCurvature metrics) (Fin 0.3))
                         (xmul (eyeSymmetry metrics) (Fin 0.2)))
                   (xmul (smileIntensity metrics) (Fin 0.3)))
             (xmul (mouthWidth metrics) (Fin 0.1)))
       (xmul (xsub (Fin 100) (facialTension metrics)) (Fin 0.1)).

(** [calculateRealisticScore(metrics, level)] *)
Definition calculateRealisticScore (metrics : SubMetrics) (level : Z) : jsnum :=
  let baseScore := weightedBase metrics in
  match level with
  | 1%Z => xmax (xmin baseScore (Fin 75)) (Fin 55)
  | 2%Z => xmax (xmin baseScore (Fin 65)) (Fin 40)
  | 3%Z => xmax (xmin baseScore (Fin 45)) (Fin 25)
  | _ => baseScore
  end.

(** [calculateSimulatedScore(metrics, level)] *)
Definition calculateSimulatedScore (metrics : SubMetrics) (level : Z) : jsnum :=
  let baseScore := weightedBase metrics in
  match level with
  | 1%Z => xmax (xmin baseScore (Fin 75)) (Fin 55)
  | 2%Z => xmax (xmin baseScore (Fin 65)) (Fin 40)
  | 3%Z => xmax (xmin baseScore (Fin 45)) (Fin 25)
  | _ => baseScore
  end.

(** The variance and the final clamp of [generateSmileScore]. *)
Definition finalScoreOf (baseScore : jsnum) (rnd : Q) : jsnum :=
  let variance := Fin ((rnd - 0.5) * 6) in
  xmax (Fin 5) (xmin (Fin 79) (xadd baseScore variance)).

End Js.

(** A record of finite metrics, as a record of values. *)
Definition finiteMetrics (metrics : SubMetrics) : Js.SubMetrics :=
  {| Js.mouthCurvature := Fin (mouthCurvature metrics);
     Js.eyeSymmetry := Fin (eyeSymmetry metrics);
     Js.smileIntensity := Fin (smileIntensity metrics);
     Js.mouthWidth := Fin (mouthWidth metrics);
     Js.facialTension := Fin (facialTension metrics) |}.

(** What [generateSmileScore] returns. *)
Record ScoreData : Type := mkScoreData {
  score : jsnum;           (* value of the string [finalScore.toFixed(1)] *)
  subMetrics : Js.SubMetrics
}.

(** A stored landmark: the array [[x, y, z]]. *)
Record Landmark : Type := mkLandmark {
  l0 : jsval;
  l1 : jsval;
  l2 : jsval
}.

Definition numericPoint (p : Landmark) : bool :=
  isNum (l0 p) && isNum (l1 p) && isNum (l2 p).

(** [faceBoundingBox]: centre and extents. *)
Record Box : Type := mkBox {
  box_x : jsval;
  box_y : jsval;
  box_width : jsval;
  box_height : jsval
}.

(** The [boundingBox] summary a detector may attach to a face. *)
Record RawBox : Type := mkRawBox {
  xCenter : jsval;
  yCenter : jsval;
  raw_width : jsval;
  raw_height : jsval
}.

(** One detector keypoint, by shape. *)
Inductive Keypoint : Type :=
| KObject (x y z : jsval)          (* {x, y, z}; a missing field is [Undefined] *)
| KArray (elems : list jsval)      (* [x, y, z] *)
| KPrimitive                       (* typeof keypoint !== 'object' *)
| KNull.                           (* null: typeof is 'object', reading a field throws *)

(** A detector face record. *)
Record Face : Type := mkFace {
  keypoints : option (list Keypoint);
  landmarks : option (list Keypoint);
  scaledMesh : option (list Keypoint);
  boundingBox : option RawBox
}.

(** What [model.estimateFaces] does on one frame. *)
Inductive Detection : Type :=
| DetThrows
| DetFaces (faces : list Face).

(** What [updateFacialAnalysisOverlay] drew. *)
Inductive FrameOutcome : Type :=
| FrameSkipped
| FrameDetected
| FrameFallback
| FrameScanning.

(* ================================================================== *)
(** ** Timers and the object state *)

(** The callbacks the controller hands to [setTimeout] / [setInterval]
    (timeouts that only touch the page are left out). *)
Inductive Task : Type :=
| TaskPromptSmile                       (* processHumanClaim, 2500 ms *)
| TaskStartMeasuring                    (* processHumanClaim, nested 1500 ms *)
| TaskTrigger                           (* processHumanClaim, 1000 ms *)
| TaskShowFailure                       (* updateHumanityLevel, 1000 ms *)
| TaskAnalysisTick (progress : Q) (stepIndex : nat).
                                        (* startFakeAnalysis, every 1000 ms,
                                           with its closure variables *)

Record Timer : Type := mkTimer {
  timerId : nat;
  due : Z;
  task : Task
}.

(** The fields of [this] that the engine reads or writes, and the host's
    timer queue. *)
Record Mirror : Type := mkMirror {
  smileLevel : Z;
  maxSmileLevel : Z;
  humanityPercentage : Z;
  currentSmileScoreData : option ScoreData;
  isAnalyzing : bool;
  analysisTimer : option nat;
  facialOverlay : bool;                 (* the overlay canvas exists *)
  isTracking : bool;
  failureOverlay : bool;                (* the failure page is displayed *)
  faceCenter : jsval * jsval;
  isModelLoaded : bool;
  model : bool;                         (* [this.model] is not null *)
  videoWidth : Z;
  videoHeight : Z;
  realLandmarks : list Landmark;
  smoothedLandmarks : list Landmark;
  faceBoundingBox : option Box;
  clock : Z;
  timers : list Timer;
  nextTimerId : nat
}.

Definition landmarkSmoothingFactor : Q := 0.7.

(** The state the constructor leaves, for a video of the given size and a
    detector that did or did not load. *)
Definition construct (loaded : bool) (w h : Z) : Mirror :=
  {| smileLevel := 0; maxSmileLevel := 3; humanityPercentage := 100;
     currentSmileScoreData := None;
     isAnalyzing := false; analysisTimer := None;
     facialOverlay := false; isTracking := false; failureOverlay := false;
     faceCenter := (Num 0, Num 0);
     isModelLoaded := loaded; model := loaded;
     videoWidth := w; videoHeight := h;
     realLandmarks := []; smoothedLandmarks := [];
     faceBoundingBox := None;
     clock := 0; timers := []; nextTimerId := 1 |}.

(** Field assignment, one function per field that is ever written. *)
Definition set_smileLevel (v : Z) (m : Mirror) : Mirror :=
  {| smileLevel := v; maxSmileLevel := maxSmileLevel m;
     humanityPercentage := humanityPercentage m;
     currentSmileScoreData := currentSmileScoreData m;
     isAnalyzing := isAnalyzing m; analysisTimer := analysisTimer m;
     facialOverlay := facialOverlay m; isTracking := isTracking m;
     failureOverlay := failureOverlay m; faceCenter := faceCenter m;
     isModelLoaded := isModelLoaded m; model := model m;
     videoWidth := videoWidth m; videoHeight := videoHeight m;
     realLandmarks := realLandmarks m;
     smoothedLandmarks := smoothedLandmarks m;
     faceBoundingBox := faceBoundingBox m; clock := clock m;
     timers := timers m; nextTimerId := nextTimerId m |}.
Definition set_humanityPercentage (v : Z) (m : Mirror) : Mirror :=
  {| smileLevel := smileLevel m; maxSmileLevel := maxSmileLevel m;
     humanityPercentage := v;
     currentSmileScoreData := currentSmileScoreData m;
     isAnalyzing := isAnalyzing m; analysisTimer := analysisTimer m;
     facialOverlay := facialOverlay m; isTracking := isTracking m;
     failureOverlay := failureOverlay m; faceCenter := faceCenter m;
     isModelLoaded := isModelLoaded m; model := model m;
     videoWidth := videoWidth m; videoHeight := videoHeight m;
     realLandmarks := realLandmarks m;
     smoothedLandmarks := smoothedLandmarks m;
     faceBoundingBox := faceBoundingBox m; clock := clock m;
     timers := timers m; nextTimerId := nextTimerId m |}.
Definition set_currentSmileScoreData (v : option ScoreData) (m : Mirror) : Mirror :=
  {| smileLevel := smileLevel m; maxSmileLevel := maxSmileLevel m;
     humanityPercentage := humanityPercentage m;
     currentSmileScoreData := v; isAnalyzing := isAnalyzing m;
     analysisTimer := analysisTimer m; facialOverlay := facialOverlay m;
     isTracking := isTracking m; failureOverlay := failureOverlay m;
     faceCenter := faceCenter m; isModelLoaded := isModelLoaded m;
     model := model m; videoWidth := videoWidth m;
     videoHeight := videoHeight m; realLandmarks := realLandmarks m;
     smoothedLandmarks := smoothedLandmarks m;
     faceBoundingBox := faceBoundingBox m; clock := clock m;
     timers := timers m; nextTimerId := nextTimerId m |}.
Definition set_isAnalyzing (v : bool) (m : Mirror) : Mirror :=
  {| smileLevel := smileLevel m; maxSmileLevel := maxSmileLevel m;
     humanityPercentage := humanityPercentage m;
     currentSmileScoreData := currentSmileScoreData m; isAnalyzing := v;
     analysisTimer := analysisTimer m; facialOverlay := facialOverlay m;
     isTracking := isTracking m; failureOverlay := failureOverlay m;
     faceCenter := faceCenter m; isModelLoaded := isModelLoaded m;
     model := model m; videoWidth := videoWidth m;
     videoHeight := videoHeight m; realLandmarks := realLandmarks m;
     smoothedLandmarks := smoothedLandmarks m;
     faceBoundingBox := faceBoundingBox m; clock := clock m;
     timers := timers m; nextTimerId := nextTimerId m |}.
Definition set_analysisTimer (v : option nat) (m : Mirror) : Mirror :=
  {| smileLevel := smileLevel m; maxSmileLevel := maxSmileLevel m;
     humanityPercentage := humanityPercentage m;
     currentSmileScoreData := currentSmileScoreData m;
     isAnalyzing := isAnalyzing m; analysisTimer := v;
     facialOverlay := facialOverlay m; isTracking := isTracking m;
     failureOverlay := failureOverlay m; faceCenter := faceCenter m;
     isModelLoaded := isModelLoaded m; model := model m;
     videoWidth := videoWidth m; videoHeight := videoHeight m;
     realLandmarks := realLandmarks m;
     smoothedLandmarks := smoothedLandmarks m;
     faceBoundingBox := faceBoundingBox m; clock := clock m;
     timers := timers m; nextTimerId := nextTimerId m |}.
Definition set_facialOverlay (v : bool) (m : Mirror) : Mirror :=
  {| smileLevel := smileLevel m; maxSmileLevel := maxSmileLevel m;
     humanityPercentage := humanityPercentage m;
     currentSmileScoreData := currentSmileScoreData m;
     isAnalyzing := isAnalyzing m; analysisTimer := analysisTimer m;
     facialOverlay := v; isTracking := isTracking m;
     failureOverlay := failureOverlay m; faceCenter := faceCenter m;
     isModelLoaded := isModelLoaded m; model := model m;
     videoWidth := videoWidth m; videoHeight := videoHeight m;
     realLandmarks := realLandmarks m;
     smoothedLandmarks := smoothedLandmarks m;
     faceBoundingBox := faceBoundingBox m; clock := clock m;
     timers := timers m; nextTimerId := nextTimerId m |}.
Definition set_isTracking (v : bool) (m : Mirror) : Mirror :=
  {| smileLevel := smileLevel m; maxSmileLevel := maxSmileLevel m;
     humanityPercentage := humanityPercentage m;
     currentSmileScoreData := currentSmileScoreData m;
     isAnalyzing := isAnalyzing m; analysisTimer := analysisTimer m;
     facialOverlay := facialOverlay m; isTracking := v;
     failureOverlay := failureOverlay m; faceCenter := faceCenter m;
     isModelLoaded := isModelLoaded m; model := model m;
     videoWidth := videoWidth m; videoHeight := videoHeight m;
     realLandmarks := realLandmarks m;
     smoothedLandmarks := smoothedLandmarks m;
     faceBoundingBox := faceBoundingBox m; clock := clock m;
     timers := timers m; nextTimerId := nextTimerId m |}.
Definition set_failureOverlay (v : bool) (m : Mirror) : Mirror :=
  {| smileLevel := smileLevel m; maxSmileLevel := maxSmileLevel m;
     humanityPercentage := humanityPercentage m;
     currentSmileScoreData := currentSmileScoreData m;
     isAnalyzing := isAnalyzing m; analysisTimer := analysisTimer m;
     facialOverlay := facialOverlay m; isTracking := isTracking m;
     failureOverlay := v; faceCenter := faceCenter m;
     isModelLoaded := isModelLoaded m; model := model m;
     videoWidth := videoWidth m; videoHeight := videoHeight m;
     realLandmarks := realLandmarks m;
     smoothedLandmarks := smoothedLandmarks m;
     faceBoundingBox := faceBoundingBox m; clock := clock m;
     timers := timers m; nextTimerId := nextTimerId m |}.
Definition set_faceCenter (v : jsval * jsval) (m : Mirror) : Mirror :=
  {| smileLevel := smileLevel m; maxSmileLevel := maxSmileLevel m;
     humanityPercentage := humanityPercentage m;
     currentSmileScoreData := currentSmileScoreData m;
     isAnalyzing := isAnalyzing m; analysisTimer := analysisTimer m;
     facialOverlay := facialOverlay m; isTracking := isTracking m;
     failureOverlay := failureOverlay m; faceCenter := v;
     isModelLoaded := isModelLoaded m; model := model m;
     videoWidth := videoWidth m; videoHeight := videoHeight m;
     realLandmarks := realLandmarks m;
     smoothedLandmarks := smoothedLandmarks m;
     faceBoundingBox := faceBoundingBox m; clock := clock m;
     timers := timers m; nextTimerId := nextTimerId m |}.
Definition set_realLandmarks (v : list Landmark) (m : Mirror) : Mirror :=
  {| smileLevel := smileLevel m; maxSmileLevel := maxSmileLevel m;
     humanityPercentage := humanityPercentage m;
     currentSmileScoreData := currentSmileScoreData m;
     isAnalyzing := isAnalyzing m; analysisTimer := analysisTimer m;
     facialOverlay := facialOverlay m; isTracking := isTracking m;
     failureOverlay := failureOverlay m; faceCenter := faceCenter m;
     isModelLoaded := isModelLoaded m; model := model m;
     videoWidth := videoWidth m; videoHeight := videoHeight m;
     realLandmarks := v; smoothedLandmarks := smoothedLandmarks m;
     faceBoundingBox := faceBoundingBox m; clock := clock m;
     timers := timers m; nextTimerId := nextTimerId m |}.
Definition set_smoothedLandmarks (v : list Landmark) (m : Mirror) : Mirror :=
  {| smileLevel := smileLevel m; maxSmileLevel := maxSmileLevel m;
     humanityPercentage := humanityPercentage m;
     currentSmileScoreData := currentSmileScoreData m;
     isAnalyzing := isAnalyzing m; analysisTimer := analysisTimer m;
     facialOverlay := facialOverlay m; isTracking := isTracking m;
     failureOverlay := failureOverlay m; faceCenter := faceCenter m;
     isModelLoaded := isModelLoaded m; model := model m;
     videoWidth := videoWidth m; videoHeight := videoHeight m;
     realLandmarks := realLandmarks m; smoothedLandmarks := v;
     faceBoundingBox := faceBoundingBox m; clock := clock m;
     timers := timers m; nextTimerId := nextTimerId m |}.
Definition set_faceBoundingBox (v : option Box) (m : Mirror) : Mirror :=
  {| smileLevel := smileLevel m; maxSmileLevel := maxSmileLevel m;
     humanityPercentage := humanityPercentage m;
     currentSmileScoreData := currentSmileScoreData m;
     isAnalyzing := isAnalyzing m; analysisTimer := analysisTimer m;
     facialOverlay := facialOverlay m; isTracking := isTracking m;
     failureOverlay := failureOverlay m; faceCenter := faceCenter m;
     isModelLoaded := isModelLoaded m; model := model m;
     videoWidth := videoWidth m; videoHeight := videoHeight m;
     realLandmarks := realLandmarks m;
     smoothedLandmarks := smoothedLandmarks m; faceBoundingBox := v;
     clock := clock m; timers := timers m; nextTimerId := nextTimerId m |}.
Definition set_clock (v : Z) (m : Mirror) : Mirror :=
  {| smileLevel := smileLevel m; maxSmileLevel := maxSmileLevel m;
     humanityPercentage := humanityPercentage m;
     currentSmileScoreData := currentSmileScoreData m;
     isAnalyzing := isAnalyzing m; analysisTimer := analysisTimer m;
     facialOverlay := facialOverlay m; isTracking := isTracking m;
     failureOverlay := failureOverlay m; faceCenter := faceCenter m;
     isModelLoaded := isModelLoaded m; model := model m;
     videoWidth := videoWidth m; videoHeight := videoHeight m;
     realLandmarks := realLandmarks m;
     smoothedLandmarks := smoothedLandmarks m;
     faceBoundingBox := faceBoundingBox m; clock := v; timers := timers m;
     nextTimerId := nextTimerId m |}.
Definition set_timers (v : list Timer) (m : Mirror) : Mirror :=
  {| smileLevel := smileLevel m; maxSmileLevel := maxSmileLevel m;
     humanityPercentage := humanityPercentage m;
     currentSmileScoreData := currentSmileScoreData m;
     isAnalyzing := isAnalyzing m; analysisTimer := analysisTimer m;
     facialOverlay := facialOverlay m; isTracking := isTracking m;
     failureOverlay := failureOverlay m; faceCenter := faceCenter m;
     isModelLoaded := isModelLoaded m; model := model m;
     videoWidth := videoWidth m; videoHeight := videoHeight m;
     realLandmarks := realLandmarks m;
     smoothedLandmarks := smoothedLandmarks m;
     faceBoundingBox := faceBoundingBox m; clock := clock m; timers := v;
     nextTimerId := nextTimerId m |}.
Definition set_nextTimerId (v : nat) (m : Mirror) : Mirror :=
  {| smileLevel := smileLevel m; maxSmileLevel := maxSmileLevel m;
     humanityPercentage := humanityPercentage m;
     currentSmileScoreData := currentSmileScoreData m;
     isAnalyzing := isAnalyzing m; analysisTimer := analysisTimer m;
     facialOverlay := facialOverlay m; isTracking := isTracking m;
     failureOverlay := failureOverlay m; faceCenter := faceCenter m;
     isModelLoaded := isModelLoaded m; model := model m;
     videoWidth := videoWidth m; videoHeight := videoHeight m;
     realLandmarks := realLandmarks m;
     smoothedLandmarks := smoothedLandmarks m;
     faceBoundingBox := faceBoundingBox m; clock := clock m;
     timers := timers m; nextTimerId := v |}.

(** [array.map((item, index) => ...)] *)
Fixpoint mapi_from {A B : Type} (f : A -> nat -> B) (index : nat) (l : list A)
  : list B :=
  match l with
  | [] => []
  | a :: rest => f a index :: mapi_from f (S index) rest
  end.

Definition mapi {A B : Type} (f : A -> nat -> B) (l : list A) : list B :=
  mapi_from f 0 l.

(** Calls that may throw run in a state-and-exception monad: a call ends
    with a value, or with an exception that is still propagating; either
    way the object is left in the state shown. *)
Inductive Result (A : Type) : Type :=
| Ok (a : A) (m : Mirror)
| Raise (m : Mirror).
Arguments Ok {A} a m.
Arguments Raise {A} m.

Definition M (A : Type) : Type := Mirror -> Result A.

Definition ret {A : Type} (a : A) : M A := fun m => Ok a m.

Definition bind {A B : Type} (c : M A) (k : A -> M B) : M B :=
  fun m =>
    match c m with
    | Ok a m' => k a m'
    | Raise m' => Raise m'
    end.

Definition throw {A : Type} : M A := fun m => Raise m.

(** [try { c } catch (error) { h }] *)
Definition tryCatch {A : Type} (c : M A) (h : M A) : M A :=
  fun m =>
    match c m with
    | Ok a m' => Ok a m'
    | Raise m' => h m'
    end.

(** A call that cannot throw. *)
Definition run (f : Mirror -> Mirror) : M unit := fun m => Ok tt (f m).

Definition gets {A : Type} (f : Mirror -> A) : M A := fun m => Ok (f m) m.

Notation "x <- c ;; k" := (bind c (fun x => k))
  (at level 61, c at next level, right associativity).
Notation "c ;;; k" := (bind c (fun _ => k))
  (at level 61, right associativity).

Definition stateOf {A : Type} (r : Result A) : Mirror :=
  match r with
  | Ok _ m => m
  | Raise m => m
  end.

(* ================================================================== *)
(** ** Landmark tracker *)

Section Engine.

(** [Math.sin], [Math.cos], [Math.sqrt] of the host. *)
Variable Math_sin : Q -> Q.
Variable Math_cos : Q -> Q.
Variable Math_sqrt : Q -> Q.

Definition jsqrt (v : jsval) : jsval :=
  match v with
  | Num q => if Qlt_le_dec q 0 then NaN else Num (Math_sqrt q)
  | _ => NaN
  end.

(** [distance(point1, point2)] *)
Definition distance (point1 point2 : Landmark) : jsval :=
  let dx := jsub (l0 point1) (l0 point2) in
  let dy := jsub (l1 point1) (l1 point2) in
  let dz := jsub (l2 point1) (l2 point2) in
  jsqrt (jadd (jadd (jmul dx dx) (jmul dy dy)) (jmul dz dz)).

(** [createBasicLandmarksFromBoundingBox(boundingBox)] *)
Definition createBasicLandmarksFromBoundingBox (bb : RawBox) (m : Mirror)
  : Mirror :=
  let centerX := jmul (xCenter bb) (Num (inject_Z (videoWidth m))) in
  let centerY := jmul (yCenter bb) (Num (inject_Z (videoHeight m))) in
  let width := jmul (raw_width bb) (Num (inject_Z (videoWidth m))) in
  let height := jmul (raw_height bb) (Num (inject_Z (videoHeight m))) in
  let basicLandmarks :=
    [ mkLandmark (jsub centerX (jmul width (Num 0.2)))
                 (jsub centerY (jmul height (Num 0.15))) (Num 0);
      mkLandmark (jadd centerX (jmul width (Num 0.2)))
                 (jsub centerY (jmul height (Num 0.15))) (Num 0);
      mkLandmark centerX centerY (Num 0);
      mkLandmark (jsub centerX (jmul width (Num 0.15)))
                 (jadd centerY (jmul height (Num 0.2))) (Num 0);
      mkLandmark (jadd centerX (jmul width (Num 0.15)))
                 (jadd centerY (jmul height (Num 0.2))) (Num 0);
      mkLandmark centerX (jadd centerY (jmul height (Num 0.35))) (Num 0) ] in
  set_smoothedLandmarks basicLandmarks (set_realLandmarks basicLandmarks m).

(** One point of the filter in [smoothLandmarks]. *)
Definition smoothPoint (oldPoint newPoint : Landmark) : Landmark :=
  mkLandmark
    (jadd (l0 oldPoint)
          (jmul (jsub (l0 newPoint) (l0 oldPoint)) (Num landmarkSmoothingFactor)))
    (jadd (l1 oldPoint)
          (jmul (jsub (l1 newPoint) (l1 oldPoint)) (Num landmarkSmoothingFactor)))
    (jadd (l2 oldPoint)
          (jmul (jsub (l2 newPoint) (l2 oldPoint)) (Num landmarkSmoothingFactor))).

(** [smoothLandmarks(newLandmarks)] *)
Definition smoothLandmarks (newLandmarks : list Landmark) (m : Mirror)
  : Mirror :=
  let m1 :=
    match smoothedLandmarks m with
    | [] => set_smoothedLandmarks newLandmarks m
    | _ :: _ =>
        set_smoothedLandmarks
          (mapi (fun newPoint index =>
                   let oldPoint :=
                     match nth_error (smoothedLandmarks m) index with
                     | Some p => p
                     | None => newPoint
                     end in
                   smoothPoint oldPoint newPoint)
                newLandmarks)
          m
    end in
  set_realLandmarks (smoothedLandmarks m1) m1.

(** The body of the [keypoints.map] callback of [extractLandmarks];
    [None] when reading the keypoint throws. *)
Definition convertKeypoint (w h : Z) (keypoint : Keypoint) : option Landmark :=
  let read : option (jsval * jsval * jsval) :=
    match keypoint with
    | KNull => None
    | KPrimitive => Some (Undefined, Undefined, Num 0)
    | KObject kx ky kz =>
        if defined kx && defined ky
        then Some (kx, ky, orZero kz)
        else Some (Undefined, Undefined, Num 0)
    | KArray elems =>
        let k0 := nth 0 elems Undefined in
        let k1 := nth 1 elems Undefined in
        if defined k0 && defined k1
        then Some (k0, k1, orZero (nth 2 elems Undefined))
        else Some (Undefined, Undefined, Num 0)
    end in
  match read with
  | None => None
  | Some (x, y, z) =>
      if jle x (Num 1) && jle y (Num 1) && jle (Num 0) x && jle (Num 0) y
      then Some (mkLandmark (jmul x (Num (inject_Z w)))
                            (jmul y (Num (inject_Z h))) z)
      else Some (mkLandmark x y z)
  end.

(** [keypoints.map(...)]: the first keypoint that throws aborts the map. *)
Fixpoint convertKeypoints (w h : Z) (kps : list Keypoint)
  : option (list Landmark) :=
  match kps with
  | [] => Some []
  | k :: rest =>
      match convertKeypoint w h k with
      | None => None
      | Some p =>
          match convertKeypoints w h rest with
          | None => None
          | Some ps => Some (p :: ps)
          end
      end
  end.

(** [field && field.length > 0] *)
Definition nonEmptyField (field : option (list Keypoint)) : bool :=
  match field with
  | Some (_ :: _) => true
  | _ => false
  end.

(** The keypoint list [extractLandmarks] settles on: the first of
    [face.keypoints], [face.landmarks], [face.scaledMesh] that is
    present and not empty. *)
Definition selectKeypoints (face : Face) : option (list Keypoint) :=
  if nonEmptyField (keypoints face) then keypoints face
  else if nonEmptyField (landmarks face) then landmarks face
  else if nonEmptyField (scaledMesh face) then scaledMesh face
  else None.

(** [extractLandmarks(face)] *)
Definition extractLandmarks (face : Face) : M unit :=
  match selectKeypoints face with
  | Some (k :: ks) =>
      w <- gets videoWidth ;;
      h <- gets videoHeight ;;
      match convertKeypoints w h (k :: ks) with
      | None => throw
      | Some newLandmarks =>
          stored <- gets realLandmarks ;;
          match stored with
          | [] =>
              run (fun m => set_smoothedLandmarks newLandmarks
                              (set_realLandmarks newLandmarks m))
          | _ :: _ => run (smoothLandmarks newLandmarks)
          end
      end
  | _ =>
      (* no keypoint field: basic landmarks from the box summary, if any *)
      match boundingBox face with
      | Some bb => run (createBasicLandmarksFromBoundingBox bb)
      | None => ret tt
      end
  end.

(** The box [newBox] that [updateFaceBoundingBox] computes from the
    landmarks [l :: ls]: the centre and the extents of their min/max
    over x and over y. *)
Definition extentsBox (l : Landmark) (ls : list Landmark) : Box :=
  let xs := map l0 ls in
  let ys := map l1 ls in
  let minX := spreadMin (l0 l) xs in
  let maxX := spreadMax (l0 l) xs in
  let minY := spreadMin (l1 l) ys in
  let maxY := spreadMax (l1 l) ys in
  mkBox (jdiv (jadd minX maxX) (Num 2))
        (jdiv (jadd minY maxY) (Num 2))
        (jsub maxX minX)
        (jsub maxY minY).

(** The four [+=] updates of [updateFaceBoundingBox]. *)
Definition blendBox (b newBox : Box) (smoothingFactor : jsval) : Box :=
  mkBox
    (jadd (box_x b) (jmul (jsub (box_x newBox) (box_x b)) smoothingFactor))
    (jadd (box_y b) (jmul (jsub (box_y newBox) (box_y b)) smoothingFactor))
    (jadd (box_width b)
          (jmul (jsub (box_width newBox) (box_width b)) smoothingFactor))
    (jadd (box_height b)
          (jmul (jsub (box_height newBox) (box_height b)) smoothingFactor)).

(** [updateFaceBoundingBox(face)]; the face is only logged. *)
Definition updateFaceBoundingBox (m : Mirror) : Mirror :=
  match realLandmarks m with
  | [] => m
  | l :: ls =>
      let newBox := extentsBox l ls in
      let box :=
        match faceBoundingBox m with
        | None => newBox
        | Some b => blendBox b newBox (Num 0.3)
        end in
      set_faceCenter (box_x box, box_y box) (set_faceBoundingBox (Some box) m)
  end.

(** [performFallbackFaceDetection()], with [now] the value of
    [Date.now()]. *)
Definition performFallbackFaceDetection (now : Z) (m : Mirror)
  : Mirror * bool :=
  if (videoWidth m =? 0)%Z || (videoHeight m =? 0)%Z then (m, false)
  else
    let w := inject_Z (videoWidth m) in
    let h := inject_Z (videoHeight m) in
    let centerX := w / 2 in
    let centerY := h / 2 in
    let faceWidth := Math_min w h * 0.4 in
    let faceHeight := faceWidth * 1.2 in
    let time := inject_Z now * 0.001 in
    let jitterX := Math_sin (time * 0.5) * 10 in
    let jitterY := Math_cos (time * 0.3) * 5 in
    let bx := centerX + jitterX in
    let by_ := centerY + jitterY in
    let bw := faceWidth + Math_sin (time * 0.2) * 5 in
    let bh := faceHeight + Math_cos (time * 0.15) * 8 in
    let m1 := set_faceBoundingBox (Some (mkBox (Num bx) (Num by_) (Num bw) (Num bh))) m in
    let m2 :=
      createBasicLandmarksFromBoundingBox
        (mkRawBox (Num (bx / w)) (Num (by_ / h)) (Num (bw / w)) (Num (bh / h)))
        m1 in
    (m2, true).

(** [await this.model.estimateFaces(...)] *)
Definition estimateFaces (det : Detection) : M (list Face) :=
  match det with
  | DetThrows => throw
  | DetFaces faces => ret faces
  end.

(** [performContinuousFacialDetection()] *)
Definition performContinuousFacialDetection (det : Detection) : M bool :=
  tryCatch
    (ready <- gets (fun m => isModelLoaded m && model m
                             && (0 <? videoWidth m)%Z
                             && (0 <? videoHeight m)%Z) ;;
     if ready : bool then
       faces <- estimateFaces det ;;
       match faces with
       | face :: _ =>
           run updateFaceBoundingBox ;;;
           extractLandmarks face ;;;
           ret true
       | [] => ret false
       end
     else ret false)
    (ret false).

(** [setupFacialOverlayCanvas()] *)
Definition setupFacialOverlayCanvas (m : Mirror) : Mirror :=
  set_faceCenter
    (Num (inject_Z (videoWidth m) / 2), Num (inject_Z (videoHeight m) / 2))
    (set_facialOverlay true m).

(** [updateFacialAnalysisOverlay()]: one animation frame of the tracker.
    The drawing calls only read the state; the value returned records
    which of them ran. *)
Definition updateFacialAnalysisOverlay (now : Z) (det : Detection)
  : M FrameOutcome :=
  hasOverlay <- gets facialOverlay ;;
  (if hasOverlay : bool then ret tt else run setupFacialOverlayCanvas) ;;;
  analyzing <- gets isAnalyzing ;;
  if negb analyzing then ret FrameSkipped
  else
    faceDetected <- performContinuousFacialDetection det ;;
    box <- gets faceBoundingBox ;;
    match faceDetected, box with
    | true, Some _ => ret FrameDetected
    | _, _ =>
        fallbackDetected <-
          (fun m => let '(m', b) := performFallbackFaceDetection now m in
                    Ok b m') ;;
        if fallbackDetected : bool then ret FrameFallback
        else ret FrameScanning
    end.

(** A run of frames, each with the timestamp and the detector behaviour
    of that frame; the results are listed in order. *)
Fixpoint runFrames (frames : list (Z * Detection)) (m : Mirror)
  : Mirror * list (Result FrameOutcome) :=
  match frames with
  | [] => (m, [])
  | (now, det) :: rest =>
      let r := updateFacialAnalysisOverlay now det m in
      let '(m', rs) := runFrames rest (stateOf r) in
      (m', r :: rs)
  end.

(* ---------------------------------------------------------------- *)
(** ** Scoring from the tracker state *)

(** What a scoring call reads from outside the object: the successive
    results of [Math.random()]. *)
Record Readings : Type := mkReadings {
  Math_random : nat -> Q
}.

(** [landmarks[index]]; every index read below is within the mesh. *)
Definition landmarkAt (landmarks : list Landmark) (index : nat) : Landmark :=
  nth index landmarks (mkLandmark Undefined Undefined Undefined).

(** [calculateRealFacialMetrics()], with the number of random draws it
    made. *)
Definition calculateRealFacialMetrics (rd : Readings) (m : Mirror)
  : Js.SubMetrics * nat :=
  let landmarks := realLandmarks m in
  let leftEyeInner := 133%nat in
  let rightEyeInner := 362%nat in
  let leftMouth := 61%nat in
  let rightMouth := 291%nat in
  let topLip := 13%nat in
  let bottomLip := 14%nat in
  let leftEyeOuter := 33%nat in
  let rightEyeOuter := 263%nat in
  if (length landmarks <? 468)%nat
  then (finiteMetrics (generateSimulatedMetrics (Math_random rd)), 5%nat)
  else
    let mouthWidth :=
      ofVal (distance (landmarkAt landmarks leftMouth)
                      (landmarkAt landmarks rightMouth)) in
    let mouthHeight :=
      ofVal (distance (landmarkAt landmarks topLip)
                      (landmarkAt landmarks bottomLip)) in
    let mouthCurvature := xdiv mouthHeight mouthWidth in
    let leftEyeWidth :=
      ofVal (distance (landmarkAt landmarks leftEyeInner)
                      (landmarkAt landmarks leftEyeOuter)) in
    let rightEyeWidth :=
      ofVal (distance (landmarkAt landmarks rightEyeInner)
                      (landmarkAt landmarks rightEyeOuter)) in
    let eyeSymmetry :=
      xsub (Fin 100)
           (xmul (xdiv (xabs (xsub leftEyeWidth rightEyeWidth))
                       (xmax leftEyeWidth rightEyeWidth))
                 (Fin 100)) in
    let leftMouthY := ofVal (l1 (landmarkAt landmarks leftMouth)) in
    let rightMouthY := ofVal (l1 (landmarkAt landmarks rightMouth)) in
    let noseY := ofVal (l1 (landmarkAt landmarks 1)) in
    let smileIntensity :=
      xmax (Fin 0)
           (xmul (xdiv (xsub noseY
                             (xdiv (xadd leftMouthY rightMouthY) (Fin 2)))
                       noseY)
                 (Fin 100)) in
    ({| Js.mouthCurvature := xmin (Fin 100) (xmul mouthCurvature (Fin 50));
        Js.eyeSymmetry := xmin (Fin 100) eyeSymmetry;
        Js.smileIntensity := xmin (Fin 100) smileIntensity;
        Js.mouthWidth := xmin (Fin 100) (xmul mouthWidth (Fin 10));
        Js.facialTension := Fin (Math_random rd 0%nat * 40 + 30) |}, 1%nat).

(** [generateSmileScore(level)] *)
Definition generateSmileScore (rd : Readings) (level : Z) (m : Mirror)
  : ScoreData :=
  let '(subMetrics, baseScore, drawn) :=
    if isModelLoaded m && (0 <? length (realLandmarks m))%nat
    then
      let '(sm, n) := calculateRealFacialMetrics rd m in
      (sm, Js.calculateRealisticScore sm level, n)
    else
      let sm := finiteMetrics (generateSimulatedMetrics (Math_random rd)) in
      (sm, Js.calculateSimulatedScore sm level, 5%nat) in
  let finalScore := Js.finalScoreOf baseScore (Math_random rd drawn) in
  {| score := toFixed finalScore; subMetrics := subMetrics |}.

(* ---------------------------------------------------------------- *)
(** ** Challenge controller *)

(** [setTimeout] / [setInterval]: queue the callback, return its id. *)
Definition setTimer (t : Task) (delay : Z) (m : Mirror) : Mirror * nat :=
  let id := nextTimerId m in
  (set_nextTimerId (S id)
     (set_timers (timers m ++ [mkTimer id (clock m + delay) t]) m),
   id).

Definition setTimeout (t : Task) (delay : Z) (m : Mirror) : Mirror :=
  fst (setTimer t delay m).

Definition clearInterval (id : nat) (m : Mirror) : Mirror :=
  set_timers (filter (fun t => negb (timerId t =? id)%nat) (timers m)) m.

(** [updateHumanityLevel()] *)
Definition updateHumanityLevel (m : Mirror) : Mirror :=
  if (humanityPercentage m <=? 0)%Z
  then setTimeout TaskShowFailure 1000 m
  else m.

(** [stopOverlayUpdates()] *)
Definition stopOverlayUpdates (m : Mirror) : Mirror :=
  set_facialOverlay false (set_isTracking false m).

(** [createFacialAnalysisOverlay()] *)
Definition createFacialAnalysisOverlay (m : Mirror) : Mirror :=
  if facialOverlay m then m else setupFacialOverlayCanvas m.

(** [startFakeAnalysis()] *)
Definition startFakeAnalysis (m : Mirror) : Mirror :=
  let m1 := set_isAnalyzing true m in
  let m2 := createFacialAnalysisOverlay m1 in
  let m3 := set_isTracking true m2 in                (* startOverlayUpdates *)
  let '(m4, id) := setTimer (TaskAnalysisTick 0 0) 1000 m3 in
  set_analysisTimer (Some id) m4.

(** [triggerSmileVerification()] *)
Definition triggerSmileVerification (rd : Readings) (m : Mirror) : Mirror :=
  let m1 :=
    set_currentSmileScoreData
      (Some (generateSmileScore rd (smileLevel m) m)) m in
  startFakeAnalysis m1.

(** [processHumanClaim()] *)
Definition processHumanClaim (m : Mirror) : Mirror :=
  if (maxSmileLevel m <=? smileLevel m)%Z then m
  else if (smileLevel m =? 0)%Z then
    setTimeout TaskPromptSmile 2500 m
  else
    let m1 := set_smileLevel (smileLevel m + 1) m in
    let m2 :=
      set_humanityPercentage (Z.max 0 (100 - smileLevel m1 * 25)) m1 in
    let m3 := updateHumanityLevel m2 in
    setTimeout TaskTrigger 1000 m3.

(** [resetMirror()] *)
Definition resetMirror (m : Mirror) : Mirror :=
  let m1 := set_smileLevel 0 m in
  let m2 := set_humanityPercentage 100 m1 in
  let m3 := set_isAnalyzing false m2 in
  let m4 :=
    match analysisTimer m3 with
    | Some id => clearInterval id m3
    | None => m3
    end in
  let m5 := stopOverlayUpdates m4 in
  set_failureOverlay false m5.

(** The body of a timer callback; [t] is the timer that fired, already
    taken off the queue. *)
Definition runTask (rd : Readings) (t : Timer) (m : Mirror) : Mirror :=
  match task t with
  | TaskPromptSmile => setTimeout TaskStartMeasuring 1500 m
  | TaskStartMeasuring =>
      let m1 := set_smileLevel (smileLevel m + 1) m in
      let m2 :=
        set_humanityPercentage (Z.max 0 (100 - smileLevel m1 * 25)) m1 in
      let m3 := updateHumanityLevel m2 in
      triggerSmileVerification rd m3
  | TaskTrigger => triggerSmileVerification rd m
  | TaskShowFailure => set_failureOverlay true m     (* showFailurePage *)
  | TaskAnalysisTick progress stepIndex =>
      let progress' := progress + 14.3 in
      let stepIndex' :=
        if (stepIndex <? 3)%nat then S stepIndex else stepIndex in
      (* an interval stays queued, one period later, until cleared *)
      let m1 :=
        set_timers
          (timers m ++ [mkTimer (timerId t) (clock m + 1000)
                                (TaskAnalysisTick progress' stepIndex')])
          m in
      if Qle_bool 100 progress' then
        let m2 :=
          match analysisTimer m1 with
          | Some id => clearInterval id m1
          | None => m1
          end in
        stopOverlayUpdates m2                         (* then showSmileResults *)
      else m1
  end.

(** The queued timer the host runs next: the earliest due, the oldest
    first among equals. *)
Fixpoint nextTimer (queue : list Timer) : option Timer :=
  match queue with
  | [] => None
  | t :: rest =>
      match nextTimer rest with
      | Some t' => if (due t' <? due t)%Z then Some t' else Some t
      | None => Some t
      end
  end.

(** The host runs the next timer if it is due. *)
Definition fireTimer (rd : Readings) (m : Mirror) : Mirror :=
  match nextTimer (timers m) with
  | Some t =>
      if (due t <=? clock m)%Z
      then runTask rd t
             (set_timers
                (filter (fun t' => negb (timerId t' =? timerId t)%nat)
                        (timers m))
                m)
      else m
  | None => m
  end.

(** What can happen to the object: the trigger source, the reset
    button, time passing, a due timer, an animation frame (one can
    still be queued, or wait for the detector, when the tracking is
    stopped). *)
Inductive Event : Type :=
| EvClaim
| EvReset
| EvWait (dt : Z)
| EvTimer (rd : Readings)
| EvFrame (now : Z) (det : Detection).

Definition step (m : Mirror) (e : Event) : Mirror :=
  match e with
  | EvClaim => processHumanClaim m
  | EvReset => resetMirror m
  | EvWait dt => set_clock (clock m + Z.max 0 dt) m
  | EvTimer rd => fireTimer rd m
  | EvFrame now det => stateOf (updateFacialAnalysisOverlay now det m)
  end.

Definition runEvents (es : list Event) (m : Mirror) : Mirror :=
  fold_left step es m.

(** States the object can be in: the constructor's, and those any run
    of events leads to. *)
Definition reachable (m : Mirror) : Prop :=
  exists loaded w h es,
    (0 <= w)%Z /\ (0 <= h)%Z /\ m = runEvents es (construct loaded w h).


(* ---------------------------------------------------------------- *)
(** ** The claims' own wording, to compare the code with *)

Definition specBase (metrics : SubMetrics) : Q :=
  0.3 * mouthCurvature metrics + 0.2 * eyeSymmetry metrics
  + 0.3 * smileIntensity metrics + 0.1 * mouthWidth metrics
  + 0.1 * (100 - facialTension metrics).

Definition specClamp (lo hi x : Q) : Q :=
  if Qlt_le_dec x lo then lo
  else if Qlt_le_dec hi x then hi
  else x.

(** The session fields, and the part of the object no animation frame
    writes. *)
Definition session (m : Mirror) : Z * Z * Z :=
  (smileLevel m, maxSmileLevel m, humanityPercentage m).

Definition fixedPart (m : Mirror)
  : Z * Z * Z * option ScoreData * bool * bool * bool * Z * Z :=
  (smileLevel m, maxSmileLevel m, humanityPercentage m,
   currentSmileScoreData m, isAnalyzing m, isModelLoaded m, model m,
   videoWidth m, videoHeight m).

Definition preserves {A : Type} (c : M A) : Prop :=
  forall m, fixedPart (stateOf (c m)) = fixedPart m.

Definition isAnalysisTick (t : Timer) : bool :=
  match task t with
  | TaskAnalysisTick _ _ => true
  | _ => false
  end.

(** A call that never ends by an exception. *)
Definition total {A : Type} (c : M A) : Prop :=
  forall m, exists a m', c m = Ok a m'.

(** The detector gives nothing on this frame: it is missing, it
    throws, or it returns no face. *)
Definition detectorFails (det : Detection) (m : Mirror) : bool :=
  negb (isModelLoaded m && model m)
  || match det with
     | DetThrows => true
     | DetFaces [] => true
     | DetFaces (_ :: _) => false
     end.

(** Every keypoint [extractLandmarks] will read from the face can be
    read. *)
Definition readable (face : Face) : bool :=
  match selectKeypoints face with
  | Some kps =>
      forallb (fun k => match k with KNull => false | _ => true end) kps
  | None => true
  end.

(** A [z] that is absent or a number. *)
Definition optionalNumber (v : jsval) : bool :=
  match v with
  | Num _ | Undefined => true
  | NaN => false
  end.

(** The keypoint carries an x and a y, as [{x, y, z?}] or [[x, y, z?]]. *)
Definition carriesXY (k : Keypoint) : bool :=
  match k with
  | KObject (Num _) (Num _) z => optionalNumber z
  | KArray [Num _; Num _] => true
  | KArray (Num _ :: Num _ :: z :: _) => optionalNumber z
  | _ => false
  end.

(** The [z] of the keypoint, [Undefined] when it has none. *)
Definition zOf (k : Keypoint) : jsval :=
  match k with
  | KObject _ _ z => z
  | KArray elems => nth 2 elems Undefined
  | _ => Undefined
  end.

Definition numericBox (bb : RawBox) : bool :=
  isNum (xCenter bb) && isNum (yCenter bb)
  && isNum (raw_width bb) && isNum (raw_height bb).

(** A face whose keypoints all carry x and y, and whose box summary,
    when it is what the landmarks are derived from, holds numbers. *)
Definition wellFormedFace (face : Face) : bool :=
  match selectKeypoints face with
  | Some (k :: ks) => forallb carriesXY (k :: ks)
  | _ =>
      match boundingBox face with
      | Some bb => numericBox bb
      | None => true
      end
  end.

(** Only the first face of a detection is read. *)
Definition wellFormedDetection (det : Detection) : bool :=
  match det with
  | DetFaces (face :: _) => wellFormedFace face
  | _ => true
  end.

(** Every stored landmark is a point of three numbers. *)
Definition storedNumeric (m : Mirror) : Prop :=
  Forall (fun p => numericPoint p = true) (realLandmarks m)
  /\ Forall (fun p => numericPoint p = true) (smoothedLandmarks m).

(** Equality of values and of boxes as numbers, whatever the fraction
    that represents them. *)
Definition sameValue (a b : jsval) : bool :=
  match a, b with
  | Num x, Num y => Qeq_bool x y
  | NaN, NaN => true
  | Undefined, Undefined => true
  | _, _ => false
  end.

Definition sameBox (a b : Box) : bool :=
  sameValue (box_x a) (box_x b) && sameValue (box_y a) (box_y b)
  && sameValue (box_width a) (box_width b)
  && sameValue (box_height a) (box_height b).

(** What the claim about the box says of a state: the box is the
    extents box of the current smoothed landmarks and [faceCenter] is
    its centre. *)
Definition boxFollowsLandmarks (m : Mirror) : bool :=
  match smoothedLandmarks m, faceBoundingBox m with
  | l :: ls, Some b =>
      sameBox b (extentsBox l ls)
      && sameValue (fst (faceCenter m)) (box_x b)
      && sameValue (snd (faceCenter m)) (box_y b)
  | _, _ => false
  end.

(** A property of the object that a call keeps, however it ends. *)
Definition keeps {A : Type} (P : Mirror -> Prop) (c : M A) : Prop :=
  forall m, P m -> P (stateOf (c m)).

(** What one event does to the level and to the humanity percentage:
    nothing, or one more level with the percentage recomputed, or the
    reset. *)
Definition levelUp (m m' : Mirror) : Prop :=
  (smileLevel m' = smileLevel m + 1
   /\ maxSmileLevel m' = maxSmileLevel m
   /\ humanityPercentage m' = Z.max 0 (100 - (smileLevel m + 1) * 25))%Z.

(** The invariant of the session: the percentage is recomputed from the
    level, the level is not negative, the maximum stays 3. *)
Definition sessionInvariant (m : Mirror) : Prop :=
  (humanityPercentage m = Z.max 0 (100 - 25 * smileLevel m)
   /\ 0 <= smileLevel m
   /\ maxSmileLevel m = 3)%Z.

(** The number in a slot (0 when the slot holds none). *)
Definition numberOf (v : jsval) : Q :=
  match v with
  | Num q => q
  | _ => 0
  end.

(** The two landmark fields hold the same list. *)
Definition aligned (m : Mirror) : Prop :=
  realLandmarks m = smoothedLandmarks m.

(** Reduce field reads of assigned states, leaving arithmetic alone. *)
Ltac fields :=
  cbn -[Z.add Z.sub Z.mul Z.max Z.leb Z.ltb Z.eqb Z.opp
        Qplus Qmult Qminus Qdiv Qle_bool Qeq_bool inject_Z Qmin Qmax].

(* ================================================================ *)
(** * Scoring *)

Lemma Math_max_cases (a b : Q) :
  (a < b /\ Math_max a b == b) \/ (b <= a /\ Math_max a b == a).
Proof. exact (Q.max_spec a b). Qed.

Lemma Math_min_cases (a b : Q) :
  (a < b /\ Math_min a b == a) \/ (b <= a /\ Math_min a b == b).
Proof. exact (Q.min_spec a b). Qed.

Lemma finalScoreOf_range (baseScore rnd : Q) :
  5 <= finalScoreOf baseScore rnd /\ finalScoreOf baseScore rnd <= 79.
Proof.
  unfold finalScoreOf.
  generalize (baseScore + (rnd - 0.5) * 6). intros x.
  destruct (Math_min_cases 79 x) as [[H1 E1] | [H1 E1]];
    destruct (Math_max_cases 5 (Math_min 79 x)) as [[H2 E2] | [H2 E2]];
    rewrite E2; rewrite E1 in H2; try rewrite E1; split; lra.
Qed.

Lemma toFixed1_range (x : Q) :
  5 <= x -> x <= 79 -> 5 <= toFixed1 x /\ toFixed1 x <= 79.
Proof.
  intros Hlo Hhi. unfold toFixed1.
  destruct (Qlt_le_dec x 0) as [Hneg | _]; [lra |].
  assert (L : (50 <= Qfloor (x * 10 + (1 # 2)))%Z).
  { rewrite <- (Qfloor_Z 50). apply Qfloor_resp_le.
    change (inject_Z 50) with 50. lra. }
  assert (U : (Qfloor (x * 10 + (1 # 2)) <= 790)%Z).
  { change 790%Z with (Qfloor (1581 # 2)). apply Qfloor_resp_le. lra. }
  revert L U. generalize (Qfloor (x * 10 + (1 # 2))). intros z L U.
  unfold Qle; simpl; lia.
Qed.

Lemma clamp_band (b lo hi : Q) :
  lo <= hi ->
  Math_max (Math_min b hi) lo == specClamp lo hi b
  /\ lo <= Math_max (Math_min b hi) lo /\ Math_max (Math_min b hi) lo <= hi.
Proof.
  intros Hband. unfold specClamp.
  destruct (Math_min_cases b hi) as [[H1 E1] | [H1 E1]];
    destruct (Math_max_cases (Math_min b hi) lo) as [[H2 E2] | [H2 E2]];
    rewrite E2; rewrite E1 in H2;
    destruct (Qlt_le_dec b lo); try destruct (Qlt_le_dec hi b);
    repeat split; try rewrite E1; lra.
Qed.

(** On finite metrics the scoring functions on values are the functions
    of the scoring engine. *)
Lemma calculateRealisticScore_finite (metrics : SubMetrics) (level : Z) :
  Js.calculateRealisticScore (finiteMetrics metrics) level
  = Fin (calculateRealisticScore metrics level).
Proof.
  destruct level as [| p |]; [reflexivity | | reflexivity].
  destruct p as [p | p |]; [destruct p | destruct p |]; reflexivity.
Qed.

Lemma calculateSimulatedScore_finite (metrics : SubMetrics) (level : Z) :
  Js.calculateSimulatedScore (finiteMetrics metrics) level
  = Fin (calculateSimulatedScore metrics level).
Proof.
  destruct level as [| p |]; [reflexivity | | reflexivity].
  destruct p as [p | p |]; [destruct p | destruct p |]; reflexivity.
Qed.

Lemma finalScoreOf_finite (baseScore rnd : Q) :
  Js.finalScoreOf (Fin baseScore) rnd = Fin (finalScoreOf baseScore rnd).
Proof. reflexivity. Qed.

(** A score as [generateSmileScore] can return it: a number of [5,79],
    or [NaN]. *)
Definition failingScore (x : jsnum) : Prop :=
  exists q, x = Fin q /\ 5 <= q /\ q <= 79 /\ q < 80.

Lemma finite_score_fails (baseScore rnd : Q) :
  failingScore (toFixed (Js.finalScoreOf (Fin baseScore) rnd)).
Proof.
  rewrite finalScoreOf_finite. cbn [toFixed].
  destruct (finalScoreOf_range baseScore rnd) as [L U].
  destruct (toFixed1_range _ L U) as [L' U'].
  eexists. split; [reflexivity |]. repeat split; lra.
Qed.

Lemma any_score_fails (baseScore : jsnum) (rnd : Q) :
  toFixed (Js.finalScoreOf baseScore rnd) = NotNumber
  \/ failingScore (toFixed (Js.finalScoreOf baseScore rnd)).
Proof.
  destruct baseScore as [b | | |].
  - right. apply finite_score_fails.
  - right. cbn. eexists. split; [reflexivity |].
    assert (L : 5 <= Qmax 5 79) by apply Q.le_max_l.
    assert (U : Qmax 5 79 <= 79) by (apply Q.max_lub; lra).
    destruct (toFixed1_range _ L U). repeat split; lra.
  - right. cbn. eexists. split; [reflexivity |].
    assert (L : 5 <= 5) by lra. assert (U : 5 <= 79) by lra.
    destruct (toFixed1_range _ L U). repeat split; lra.
  - left. reflexivity.
Qed.

(** The base score of a record is [NaN] only when a metric is not
    finite. *)
Lemma generateSmileScore_base (rd : Readings) (level : Z) (m : Mirror) :
  exists baseScore drawn,
    score (generateSmileScore rd level m)
    = toFixed (Js.finalScoreOf baseScore (Math_random rd drawn))
    /\ (baseScore
        = Js.calculateRealisticScore
            (subMetrics (generateSmileScore rd level m)) level
        \/ baseScore
           = Js.calculateSimulatedScore
               (subMetrics (generateSmileScore rd level m)) level).
Proof.
  unfold generateSmileScore.
  destruct (isModelLoaded m && (0 <? length (realLandmarks m))%nat).
  - destruct (calculateRealFacialMetrics rd m) as [sm n].
    eexists; eexists. split; [reflexivity | left; reflexivity].
  - eexists; eexists. split; [reflexivity | right; reflexivity].
Qed.

(** C1: for every level and every record of five finite metrics, the
    score computed from the record by either base-score function, the
    variance and the final clamp, formatted as [generateSmileScore]
    returns it, is a number of [5,79], below the passing threshold 80,
    and so is the score before it is formatted.  For every level, every
    tracker state and every reading, the score [generateSmileScore]
    returns is such a number whenever the metrics it reports are finite,
    as they are without a loaded detector; in every case it is such a
    number or [NaN], never a number from 80 on. *)
Theorem generateSmileScore_never_passes :
  (forall (metrics : SubMetrics) (level : Z) (rnd : Q),
      failingScore
        (toFixed (Js.finalScoreOf
                    (Js.calculateRealisticScore (finiteMetrics metrics) level)
                    rnd))
      /\ failingScore
           (toFixed (Js.finalScoreOf
                       (Js.calculateSimulatedScore (finiteMetrics metrics) level)
                       rnd)))
  /\ (forall (rd : Readings) (level : Z) (m : Mirror) (metrics : SubMetrics),
        subMetrics (generateSmileScore rd level m) = finiteMetrics metrics ->
        failingScore (score (generateSmileScore rd level m)))
  /\ (forall (rd : Readings) (level : Z) (m : Mirror),
        isModelLoaded m = false ->
        failingScore (score (generateSmileScore rd level m)))
  /\ (forall (rd : Readings) (level : Z) (m : Mirror),
        score (generateSmileScore rd level m) = NotNumber
        \/ failingScore (score (generateSmileScore rd level m)))
  /\ (forall (metrics : SubMetrics) (level : Z) (rnd : Q),
        5 <= finalScoreOf (calculateRealisticScore metrics level) rnd <= 79
        /\ 5 <= finalScoreOf (calculateSimulatedScore metrics level) rnd <= 79).
Proof.
  split; [| split; [| split; [| split]]].
  - intros metrics level rnd.
    rewrite calculateRealisticScore_finite, calculateSimulatedScore_finite.
    split; apply finite_score_fails.
  - intros rd level m metrics E.
    destruct (generateSmileScore_base rd level m) as (b & n & S & [B | B]);
      rewrite S, B, E;
      [rewrite calculateRealisticScore_finite
      | rewrite calculateSimulatedScore_finite];
      apply finite_score_fails.
  - intros rd level m L. unfold generateSmileScore. rewrite L. cbn [andb score].
    rewrite calculateSimulatedScore_finite. apply finite_score_fails.
  - intros rd level m.
    destruct (generateSmileScore_base rd level m) as (b & n & S & _).
    rewrite S. apply any_score_fails.
  - intros metrics level rnd.
    split; apply finalScoreOf_range.
Qed.

(** C2: the base score is the weighted sum of the claim, and for levels
    1, 2 and 3 both base-score functions return it clamped into the
    bands [55,75], [40,65] and [25,45]; both ends of the band go down
    as the level goes up. *)
Theorem base_score_weighted_and_banded (metrics : SubMetrics) :
  weightedBase metrics == specBase metrics
  /\ calculateRealisticScore metrics 1 == specClamp 55 75 (specBase metrics)
  /\ calculateRealisticScore metrics 2 == specClamp 40 65 (specBase metrics)
  /\ calculateRealisticScore metrics 3 == specClamp 25 45 (specBase metrics)
  /\ calculateSimulatedScore metrics 1 == specClamp 55 75 (specBase metrics)
  /\ calculateSimulatedScore metrics 2 == specClamp 40 65 (specBase metrics)
  /\ calculateSimulatedScore metrics 3 == specClamp 25 45 (specBase metrics)
  /\ (55 <= calculateRealisticScore metrics 1 <= 75
      /\ 40 <= calculateRealisticScore metrics 2 <= 65
      /\ 25 <= calculateRealisticScore metrics 3 <= 45)
  /\ (25 < 40 /\ 40 < 55 /\ 45 < 65 /\ 65 < 75).
Proof.
  assert (B : weightedBase metrics == specBase metrics).
  { unfold weightedBase, specBase. ring. }
  assert (C : forall lo hi, lo <= hi ->
            Math_max (Math_min (weightedBase metrics) hi) lo
            == specClamp lo hi (specBase metrics)).
  { intros lo hi H.
    destruct (clamp_band (weightedBase metrics) lo hi H) as [E _].
    rewrite E. unfold specClamp.
    destruct (Qlt_le_dec (weightedBase metrics) lo);
      destruct (Qlt_le_dec (specBase metrics) lo); try lra;
      destruct (Qlt_le_dec hi (weightedBase metrics));
      destruct (Qlt_le_dec hi (specBase metrics)); lra. }
  unfold calculateRealisticScore, calculateSimulatedScore.
  repeat split; try (apply C; lra); try exact B; try lra;
    try (apply (clamp_band (weightedBase metrics)); lra).
Qed.

(* ================================================================ *)
(** * Challenge controller *)

(** Assigning other fields leaves the session fields alone. *)
Lemma setTimeout_session (t : Task) (d : Z) (m : Mirror) :
  session (setTimeout t d m) = session m.
Proof. reflexivity. Qed.

Lemma clearInterval_session (id : nat) (m : Mirror) :
  session (clearInterval id m) = session m.
Proof. reflexivity. Qed.

Lemma updateHumanityLevel_session (m : Mirror) :
  session (updateHumanityLevel m) = session m.
Proof.
  unfold updateHumanityLevel.
  destruct (humanityPercentage m <=? 0)%Z; reflexivity.
Qed.

Lemma startFakeAnalysis_session (m : Mirror) :
  session (startFakeAnalysis m) = session m.
Proof.
  unfold startFakeAnalysis, createFacialAnalysisOverlay.
  cbn. destruct (facialOverlay m); reflexivity.
Qed.

Lemma triggerSmileVerification_session (rd : Readings) (m : Mirror) :
  session (triggerSmileVerification rd m) = session m.
Proof.
  unfold triggerSmileVerification. rewrite startFakeAnalysis_session.
  reflexivity.
Qed.

Lemma session_fields (m m' : Mirror) :
  session m' = session m ->
  smileLevel m' = smileLevel m
  /\ maxSmileLevel m' = maxSmileLevel m
  /\ humanityPercentage m' = humanityPercentage m.
Proof. unfold session. intros E. inversion E. auto. Qed.

(** The monadic tracker calls leave the fixed part of the object alone. *)
Lemma preserves_ret {A : Type} (a : A) : preserves (ret a).
Proof. intros m. reflexivity. Qed.

Lemma preserves_throw {A : Type} : preserves (@throw A).
Proof. intros m. reflexivity. Qed.

Lemma preserves_gets {A : Type} (f : Mirror -> A) : preserves (gets f).
Proof. intros m. reflexivity. Qed.

Lemma preserves_run (f : Mirror -> Mirror) :
  (forall m, fixedPart (f m) = fixedPart m) -> preserves (run f).
Proof. intros H m. apply H. Qed.

Lemma preserves_bind {A B : Type} (c : M A) (k : A -> M B) :
  preserves c -> (forall a, preserves (k a)) -> preserves (bind c k).
Proof.
  intros Hc Hk m. unfold bind. specialize (Hc m).
  destruct (c m) as [a m' | m']; cbn in *.
  - rewrite Hk. exact Hc.
  - exact Hc.
Qed.

Lemma preserves_tryCatch {A : Type} (c h : M A) :
  preserves c -> preserves h -> preserves (tryCatch c h).
Proof.
  intros Hc Hh m. unfold tryCatch. specialize (Hc m).
  destruct (c m) as [a m' | m']; cbn in *.
  - exact Hc.
  - rewrite Hh. exact Hc.
Qed.

Lemma createBasicLandmarks_fixed (bb : RawBox) (m : Mirror) :
  fixedPart (createBasicLandmarksFromBoundingBox bb m) = fixedPart m.
Proof. reflexivity. Qed.

Lemma smoothLandmarks_fixed (new : list Landmark) (m : Mirror) :
  fixedPart (smoothLandmarks new m) = fixedPart m.
Proof.
  unfold smoothLandmarks. destruct (smoothedLandmarks m); reflexivity.
Qed.

Lemma updateFaceBoundingBox_fixed (m : Mirror) :
  fixedPart (updateFaceBoundingBox m) = fixedPart m.
Proof.
  unfold updateFaceBoundingBox. destruct (realLandmarks m); reflexivity.
Qed.

Lemma performFallback_fixed (now : Z) (m : Mirror) :
  fixedPart (fst (performFallbackFaceDetection now m)) = fixedPart m.
Proof.
  unfold performFallbackFaceDetection.
  destruct ((videoWidth m =? 0)%Z || (videoHeight m =? 0)%Z); reflexivity.
Qed.

Lemma extractLandmarks_preserves (face : Face) :
  preserves (extractLandmarks face).
Proof.
  unfold extractLandmarks.
  destruct (selectKeypoints face) as [[| k ks] |].
  - destruct (boundingBox face);
      [apply preserves_run; intros; apply createBasicLandmarks_fixed
      | apply preserves_ret].
  - apply preserves_bind; [apply preserves_gets | intros w].
    apply preserves_bind; [apply preserves_gets | intros h].
    destruct (convertKeypoints w h (k :: ks)); [| apply preserves_throw].
    apply preserves_bind; [apply preserves_gets | intros stored].
    destruct stored; apply preserves_run; intros m.
    + reflexivity.
    + apply smoothLandmarks_fixed.
  - destruct (boundingBox face);
      [apply preserves_run; intros; apply createBasicLandmarks_fixed
      | apply preserves_ret].
Qed.

Lemma performContinuous_preserves (det : Detection) :
  preserves (performContinuousFacialDetection det).
Proof.
  unfold performContinuousFacialDetection.
  apply preserves_tryCatch; [| apply preserves_ret].
  apply preserves_bind; [apply preserves_gets | intros [|]];
    [| apply preserves_ret].
  apply preserves_bind.
  - destruct det; [apply preserves_throw | apply preserves_ret].
  - intros [| face rest]; [apply preserves_ret |].
    apply preserves_bind;
      [apply preserves_run; apply updateFaceBoundingBox_fixed | intros _].
    apply preserves_bind; [apply extractLandmarks_preserves | intros _].
    apply preserves_ret.
Qed.

Lemma updateFacialAnalysisOverlay_preserves (now : Z) (det : Detection) :
  preserves (updateFacialAnalysisOverlay now det).
Proof.
  unfold updateFacialAnalysisOverlay.
  apply preserves_bind; [apply preserves_gets | intros hasOverlay].
  apply preserves_bind.
  { destruct hasOverlay; [apply preserves_ret |].
    apply preserves_run. intros m. reflexivity. }
  intros _.
  apply preserves_bind; [apply preserves_gets | intros analyzing].
  destruct (negb analyzing); [apply preserves_ret |].
  apply preserves_bind; [apply performContinuous_preserves | intros detected].
  apply preserves_bind; [apply preserves_gets | intros box].
  assert (F : preserves
                (fallbackDetected <-
                   (fun m => let '(m', b) := performFallbackFaceDetection now m in
                             Ok b m') ;;
                 if fallbackDetected : bool then ret FrameFallback
                 else ret FrameScanning)).
  { apply preserves_bind.
    - intros m. pose proof (performFallback_fixed now m) as H.
      destruct (performFallbackFaceDetection now m) as [m' b]. exact H.
    - intros [|]; apply preserves_ret. }
  destruct detected; [destruct box |]; try exact F. apply preserves_ret.
Qed.

Lemma fixedPart_session (m m' : Mirror) :
  fixedPart m' = fixedPart m -> session m' = session m.
Proof. unfold fixedPart, session. intros E. inversion E. reflexivity. Qed.

Lemma processHumanClaim_cases (m : Mirror) :
  session (processHumanClaim m) = session m \/ levelUp m (processHumanClaim m).
Proof.
  unfold processHumanClaim, levelUp, updateHumanityLevel, setTimeout, setTimer.
  destruct (maxSmileLevel m <=? smileLevel m)%Z; [left; reflexivity |].
  destruct (smileLevel m =? 0)%Z; [left; reflexivity |].
  right. fields.
  destruct (Z.max 0 (100 - (smileLevel m + 1) * 25) <=? 0)%Z; fields; auto.
Qed.

Lemma runTask_cases (rd : Readings) (t : Timer) (m : Mirror) :
  session (runTask rd t m) = session m \/ levelUp m (runTask rd t m).
Proof.
  unfold runTask. destruct (task t) as [ | | | | progress stepIndex].
  - left. reflexivity.
  - right. unfold levelUp.
    destruct (session_fields _ _ (triggerSmileVerification_session rd
      (updateHumanityLevel
         (set_humanityPercentage
            (Z.max 0 (100 - smileLevel (set_smileLevel (smileLevel m + 1) m) * 25))
            (set_smileLevel (smileLevel m + 1) m))))) as (E1 & E2 & E3).
    rewrite E1, E2, E3.
    destruct (session_fields _ _ (updateHumanityLevel_session
      (set_humanityPercentage
         (Z.max 0 (100 - smileLevel (set_smileLevel (smileLevel m + 1) m) * 25))
         (set_smileLevel (smileLevel m + 1) m)))) as (F1 & F2 & F3).
    rewrite F1, F2, F3. fields. auto.
  - left. apply triggerSmileVerification_session.
  - left. reflexivity.
  - left. destruct (Qle_bool 100 (progress + 14.3)); [| reflexivity].
    fields. destruct (analysisTimer m); reflexivity.
Qed.

Lemma fireTimer_cases (rd : Readings) (m : Mirror) :
  session (fireTimer rd m) = session m \/ levelUp m (fireTimer rd m).
Proof.
  unfold fireTimer. destruct (nextTimer (timers m)) as [t |]; [| now left].
  destruct (due t <=? clock m)%Z; [| now left].
  apply (runTask_cases rd t
           (set_timers
              (filter (fun t' => negb (timerId t' =? timerId t)%nat) (timers m))
              m)).
Qed.

Lemma resetMirror_fields (m : Mirror) :
  smileLevel (resetMirror m) = 0%Z
  /\ maxSmileLevel (resetMirror m) = maxSmileLevel m
  /\ humanityPercentage (resetMirror m) = 100%Z
  /\ isAnalyzing (resetMirror m) = false
  /\ currentSmileScoreData (resetMirror m) = currentSmileScoreData m.
Proof.
  unfold resetMirror. fields. destruct (analysisTimer m); fields; auto.
Qed.

Lemma step_cases (m : Mirror) (e : Event) :
  session (step m e) = session m
  \/ levelUp m (step m e)
  \/ (e = EvReset /\ smileLevel (step m e) = 0%Z
      /\ maxSmileLevel (step m e) = maxSmileLevel m
      /\ humanityPercentage (step m e) = 100%Z).
Proof.
  destruct e as [ | | dt | rd | now det]; cbn [step].
  - destruct (processHumanClaim_cases m); auto.
  - right; right. destruct (resetMirror_fields m) as (A & B & C & _). auto.
  - left. reflexivity.
  - destruct (fireTimer_cases rd m); auto.
  - left. apply fixedPart_session. apply updateFacialAnalysisOverlay_preserves.
Qed.

Lemma step_invariant (m : Mirror) (e : Event) :
  sessionInvariant m -> sessionInvariant (step m e).
Proof.
  unfold sessionInvariant. intros (H & L & X).
  destruct (step_cases m e) as [E | [(A & B & C) | (_ & A & B & C)]].
  - destruct (session_fields _ _ E) as (E1 & E2 & E3).
    rewrite E1, E2, E3. auto.
  - rewrite A, B, C. repeat split; lia.
  - rewrite A, B, C. repeat split; lia.
Qed.

Lemma runEvents_invariant (es : list Event) (m : Mirror) :
  sessionInvariant m -> sessionInvariant (runEvents es m).
Proof.
  revert m. induction es as [| e es IH]; intros m H; fields.
  - exact H.
  - apply IH. apply step_invariant. exact H.
Qed.

(** In every reachable state the humanity percentage is
    [max(0, 100 - 25 * level)] and the level is not negative. *)
Lemma reachable_session_invariant (m : Mirror) :
  reachable m -> sessionInvariant m.
Proof.
  intros (loaded & w & h & es & _ & _ & ->).
  apply runEvents_invariant. unfold sessionInvariant. fields. lia.
Qed.

(** The level only goes up, except that the reset returns it to 0. *)
Lemma step_level_monotone (m : Mirror) (e : Event) :
  (smileLevel m <= smileLevel (step m e))%Z
  \/ (e = EvReset /\ smileLevel (step m e) = 0%Z).
Proof.
  destruct (step_cases m e) as [E | [(A & _) | (R & A & _)]].
  - left. destruct (session_fields _ _ E) as (E1 & _). lia.
  - left. lia.
  - right. auto.
Qed.

(** A claim made at the maximum level is ignored, so a claim never takes
    the level past the maximum by itself. *)
Lemma processHumanClaim_level_bound (m : Mirror) :
  (smileLevel m <= maxSmileLevel m ->
   smileLevel (processHumanClaim m) <= maxSmileLevel (processHumanClaim m))%Z.
Proof.
  intros H. unfold processHumanClaim, updateHumanityLevel, setTimeout, setTimer.
  destruct (maxSmileLevel m <=? smileLevel m)%Z eqn:G; [exact H |].
  destruct (smileLevel m =? 0)%Z; [exact H |].
  apply Z.leb_gt in G. fields.
  destruct (Z.max 0 (100 - (smileLevel m + 1) * 25) <=? 0)%Z; fields; lia.
Qed.

(** C3 (as amended): while [isAnalyzing] is true, [processHumanClaim]
    is ignored only at the maximum level, where it returns the state
    as it was.  Below the maximum the flag is not consulted: from a
    level between 1 and the maximum the call adds one to the level and
    queues a further verification, and at level 0 it keeps the level
    and queues the deferred start. *)
Theorem processHumanClaim_guarded_by_level_only (m : Mirror) :
  isAnalyzing m = true ->
  ((maxSmileLevel m <= smileLevel m)%Z -> processHumanClaim m = m)
  /\ ((0 < smileLevel m < maxSmileLevel m)%Z ->
      smileLevel (processHumanClaim m) = (smileLevel m + 1)%Z
      /\ In TaskTrigger (map task (timers (processHumanClaim m))))
  /\ ((smileLevel m = 0 /\ 0 < maxSmileLevel m)%Z ->
      smileLevel (processHumanClaim m) = smileLevel m
      /\ In TaskPromptSmile (map task (timers (processHumanClaim m)))).
Proof.
  intros _. unfold processHumanClaim, updateHumanityLevel, setTimeout, setTimer.
  repeat split.
  - intros H. apply Z.leb_le in H. rewrite H. reflexivity.
  - destruct H as [H0 H1]. apply Z.leb_gt in H1. rewrite H1.
    assert (Z : (smileLevel m =? 0)%Z = false) by (apply Z.eqb_neq; lia).
    rewrite Z. fields.
    destruct (Z.max 0 (100 - (smileLevel m + 1) * 25) <=? 0)%Z; reflexivity.
  - destruct H as [H0 H1]. apply Z.leb_gt in H1. rewrite H1.
    assert (Z : (smileLevel m =? 0)%Z = false) by (apply Z.eqb_neq; lia).
    rewrite Z. fields.
    destruct (Z.max 0 (100 - (smileLevel m + 1) * 25) <=? 0)%Z; fields;
      rewrite map_app; apply in_or_app; right; fields; auto.
  - destruct H as [H0 H1].
    assert (G : (maxSmileLevel m <=? smileLevel m)%Z = false)
      by (apply Z.leb_gt; lia).
    assert (Z : (smileLevel m =? 0)%Z = true) by (apply Z.eqb_eq; lia).
    rewrite G, Z. reflexivity.
  - destruct H as [H0 H1].
    assert (G : (maxSmileLevel m <=? smileLevel m)%Z = false)
      by (apply Z.leb_gt; lia).
    assert (Z : (smileLevel m =? 0)%Z = true) by (apply Z.eqb_eq; lia).
    rewrite G, Z. fields. rewrite map_app. apply in_or_app. right.
    fields. auto.
Qed.

(** C4 (as amended): from any state, [resetMirror] sets the level to 0
    and the humanity percentage to 100 and ends the analysis flag; it
    leaves the stored score record as it was. *)
Theorem resetMirror_restores_session_keeps_score (m : Mirror) :
  smileLevel (resetMirror m) = 0%Z
  /\ humanityPercentage (resetMirror m) = 100%Z
  /\ isAnalyzing (resetMirror m) = false
  /\ currentSmileScoreData (resetMirror m) = currentSmileScoreData m.
Proof.
  destruct (resetMirror_fields m) as (A & _ & B & C & D). auto.
Qed.

(* ================================================================ *)
(** * Tracker: exceptions and the fallback mode *)

Lemma total_ret {A : Type} (a : A) : total (ret a).
Proof. intros m. exists a, m. reflexivity. Qed.

Lemma total_gets {A : Type} (f : Mirror -> A) : total (gets f).
Proof. intros m. exists (f m), m. reflexivity. Qed.

Lemma total_run (f : Mirror -> Mirror) : total (run f).
Proof. intros m. exists tt, (f m). reflexivity. Qed.

Lemma total_bind {A B : Type} (c : M A) (k : A -> M B) :
  total c -> (forall a, total (k a)) -> total (bind c k).
Proof.
  intros Hc Hk m. unfold bind.
  destruct (Hc m) as (a & m' & ->). apply Hk.
Qed.

(** Whatever the body does, a [try] whose handler cannot throw does not
    throw. *)
Lemma total_tryCatch {A : Type} (c h : M A) : total h -> total (tryCatch c h).
Proof.
  intros Hh m. unfold tryCatch.
  destruct (c m) as [a m' | m']; [exists a, m'; reflexivity | apply Hh].
Qed.

Lemma performContinuous_total (det : Detection) :
  total (performContinuousFacialDetection det).
Proof. apply total_tryCatch. apply total_ret. Qed.

Lemma updateFacialAnalysisOverlay_total (now : Z) (det : Detection) :
  total (updateFacialAnalysisOverlay now det).
Proof.
  unfold updateFacialAnalysisOverlay.
  apply total_bind; [apply total_gets | intros hasOverlay].
  apply total_bind;
    [destruct hasOverlay; [apply total_ret | apply total_run] | intros _].
  apply total_bind; [apply total_gets | intros analyzing].
  destruct (negb analyzing); [apply total_ret |].
  apply total_bind; [apply performContinuous_total | intros detected].
  apply total_bind; [apply total_gets | intros box].
  assert (F : total
                (fallbackDetected <-
                   (fun m => let '(m', b) := performFallbackFaceDetection now m in
                             Ok b m') ;;
                 if fallbackDetected : bool then ret FrameFallback
                 else ret FrameScanning)).
  { apply total_bind.
    - intros m. destruct (performFallbackFaceDetection now m) as [m' b].
      exists b, m'. reflexivity.
    - intros [|]; apply total_ret. }
  destruct detected; [destruct box |]; try exact F. apply total_ret.
Qed.

(** A detector that gives nothing leaves the state as it was and
    reports no face. *)
Lemma performContinuous_fails (det : Detection) (m : Mirror) :
  detectorFails det m = true ->
  performContinuousFacialDetection det m = Ok false m.
Proof.
  unfold detectorFails, performContinuousFacialDetection,
    tryCatch, bind, gets, ret, estimateFaces, throw.
  intros H.
  destruct (isModelLoaded m && model m); cbn in H |- *.
  - destruct (0 <? videoWidth m)%Z, (0 <? videoHeight m)%Z; cbn;
      try reflexivity.
    destruct det as [| [| face rest]]; try discriminate; reflexivity.
  - reflexivity.
Qed.

Lemma performFallback_with_video (now : Z) (m : Mirror) :
  (0 < videoWidth m)%Z -> (0 < videoHeight m)%Z ->
  snd (performFallbackFaceDetection now m) = true
  /\ faceBoundingBox (fst (performFallbackFaceDetection now m)) <> None.
Proof.
  intros W H. unfold performFallbackFaceDetection.
  assert (W0 : (videoWidth m =? 0)%Z = false) by (apply Z.eqb_neq; lia).
  assert (H0 : (videoHeight m =? 0)%Z = false) by (apply Z.eqb_neq; lia).
  rewrite W0, H0. cbn [orb fst snd]. split; [reflexivity |].
  unfold createBasicLandmarksFromBoundingBox. fields. discriminate.
Qed.

(** A frame that finds no overlay canvas creates it and goes on. *)
Lemma frame_creates_overlay (now : Z) (det : Detection) (m : Mirror) :
  facialOverlay m = false ->
  updateFacialAnalysisOverlay now det m
  = updateFacialAnalysisOverlay now det (setupFacialOverlayCanvas m).
Proof.
  intros O. unfold updateFacialAnalysisOverlay, bind, gets, run, ret.
  rewrite O. reflexivity.
Qed.

(** One frame with a detector that gives nothing. *)
Lemma frame_falls_back (now : Z) (det : Detection) (m : Mirror) :
  isAnalyzing m = true -> detectorFails det m = true ->
  (0 < videoWidth m)%Z -> (0 < videoHeight m)%Z ->
  exists m', updateFacialAnalysisOverlay now det m = Ok FrameFallback m'
             /\ faceBoundingBox m' <> None.
Proof.
  assert (G : forall m0, facialOverlay m0 = true ->
            isAnalyzing m0 = true -> detectorFails det m0 = true ->
            (0 < videoWidth m0)%Z -> (0 < videoHeight m0)%Z ->
            exists m', updateFacialAnalysisOverlay now det m0
                       = Ok FrameFallback m'
                       /\ faceBoundingBox m' <> None).
  { intros m0 O A F W H.
    destruct (performFallback_with_video now m0 W H) as [S B].
    exists (fst (performFallbackFaceDetection now m0)).
    split; [| exact B].
    unfold updateFacialAnalysisOverlay, bind, gets, ret, run.
    rewrite O, A. cbn [negb].
    rewrite (performContinuous_fails det m0 F).
    destruct (performFallbackFaceDetection now m0) as [m2 b].
    cbn in S |- *. rewrite S. reflexivity. }
  intros A F W H. destruct (facialOverlay m) eqn:O.
  - apply G; assumption.
  - rewrite (frame_creates_overlay now det m O). apply G; try assumption.
    reflexivity.
Qed.

(** The state after a frame keeps the fixed part. *)
Lemma frame_fixed (now : Z) (det : Detection) (m : Mirror) :
  fixedPart (stateOf (updateFacialAnalysisOverlay now det m)) = fixedPart m.
Proof. apply updateFacialAnalysisOverlay_preserves. Qed.

Lemma fixedPart_fields (m m' : Mirror) :
  fixedPart m' = fixedPart m ->
  isAnalyzing m' = isAnalyzing m
  /\ isModelLoaded m' = isModelLoaded m
  /\ model m' = model m
  /\ videoWidth m' = videoWidth m
  /\ videoHeight m' = videoHeight m.
Proof. unfold fixedPart. intros E. inversion E. auto. Qed.

Lemma detectorFails_fixed (frames : list (Z * Detection)) (m m' : Mirror) :
  isModelLoaded m' = isModelLoaded m -> model m' = model m ->
  forallb (fun f => detectorFails (snd f) m') frames
  = forallb (fun f => detectorFails (snd f) m) frames.
Proof.
  intros L Mo. induction frames as [| f rest IH]; [reflexivity |].
  cbn [forallb]. rewrite IH. unfold detectorFails. rewrite L, Mo.
  reflexivity.
Qed.

(** Any run of frames whose detector gives nothing stays in fallback. *)
Lemma frames_stay_in_fallback (frames : list (Z * Detection)) (m : Mirror) :
  isAnalyzing m = true ->
  (0 < videoWidth m)%Z -> (0 < videoHeight m)%Z ->
  forallb (fun f => detectorFails (snd f) m) frames = true ->
  Forall (fun r => exists m', r = Ok FrameFallback m'
                              /\ faceBoundingBox m' <> None)
         (snd (runFrames frames m)).
Proof.
  revert m. induction frames as [| [now det] rest IH]; intros m A W H F.
  - constructor.
  - cbn in F. apply andb_prop in F. destruct F as [F1 F2].
    cbn [runFrames].
    destruct (frame_falls_back now det m A F1 W H) as (m' & E & B).
    pose proof (frame_fixed now det m) as X.
    rewrite E in X |- *. cbn [stateOf] in X |- *.
    destruct (fixedPart_fields _ _ X) as (X1 & X2 & X3 & X4 & X5).
    specialize (IH m').
    destruct (runFrames rest m') as [m'' rs]. cbn [snd] in IH |- *.
    constructor.
    + exists m'. auto.
    + apply IH; try congruence; try lia.
      rewrite <- F2. apply detectorFails_fixed; assumption.
Qed.

Lemma convertKeypoints_readable (w h : Z) (kps : list Keypoint) :
  forallb (fun k => match k with KNull => false | _ => true end) kps = true ->
  exists ps, convertKeypoints w h kps = Some ps.
Proof.
  induction kps as [| k ks IH]; intros R.
  - exists []. reflexivity.
  - cbn in R. apply andb_prop in R. destruct R as [R1 R2].
    destruct (IH R2) as (ps & E). cbn [convertKeypoints]. rewrite E.
    destruct k as [kx ky kz | elems | |]; try discriminate;
      unfold convertKeypoint;
      repeat match goal with
             | |- context [if ?c then _ else _] => destruct c
             end; eexists; reflexivity.
Qed.

(** Reading a readable face does not throw, and leaves the box alone. *)
Lemma extractLandmarks_readable (face : Face) (m : Mirror) :
  readable face = true ->
  exists m', extractLandmarks face m = Ok tt m'
             /\ faceBoundingBox m' = faceBoundingBox m.
Proof.
  unfold readable, extractLandmarks. intros R.
  destruct (selectKeypoints face) as [[| k ks] |].
  - destruct (boundingBox face); eexists; split; reflexivity.
  - unfold bind, gets.
    destruct (convertKeypoints_readable (videoWidth m) (videoHeight m) _ R)
      as (ps & E).
    rewrite E. unfold run, smoothLandmarks.
    destruct (realLandmarks m); [eexists; split; reflexivity |].
    destruct (smoothedLandmarks m); eexists; split; reflexivity.
  - destruct (boundingBox face); eexists; split; reflexivity.
Qed.

(** A frame whose detector returns a readable face, once a box exists. *)
Lemma frame_detects (now : Z) (face : Face) (others : list Face) (m : Mirror) :
  isAnalyzing m = true ->
  isModelLoaded m = true -> model m = true ->
  (0 < videoWidth m)%Z -> (0 < videoHeight m)%Z ->
  faceBoundingBox m <> None ->
  readable face = true ->
  exists m', updateFacialAnalysisOverlay now (DetFaces (face :: others)) m
             = Ok FrameDetected m'.
Proof.
  assert (G : forall m0, facialOverlay m0 = true ->
            isAnalyzing m0 = true ->
            isModelLoaded m0 = true -> model m0 = true ->
            (0 < videoWidth m0)%Z -> (0 < videoHeight m0)%Z ->
            faceBoundingBox m0 <> None ->
            readable face = true ->
            exists m', updateFacialAnalysisOverlay now
                         (DetFaces (face :: others)) m0
                       = Ok FrameDetected m').
  { intros m0 O A L Mo W H B R.
    assert (B1 : faceBoundingBox (updateFaceBoundingBox m0) <> None).
    { unfold updateFaceBoundingBox.
      destruct (realLandmarks m0); [exact B | fields; discriminate]. }
    destruct (extractLandmarks_readable face (updateFaceBoundingBox m0) R)
      as (m2 & E & B2).
    exists m2.
    unfold updateFacialAnalysisOverlay, bind, gets, ret, run.
    rewrite O, A. cbn [negb].
    unfold performContinuousFacialDetection, estimateFaces,
      tryCatch, bind, gets, ret, run.
    rewrite L, Mo.
    assert (W1 : (0 <? videoWidth m0)%Z = true) by (apply Z.ltb_lt; lia).
    assert (H1 : (0 <? videoHeight m0)%Z = true) by (apply Z.ltb_lt; lia).
    rewrite W1, H1. cbv beta iota delta [andb]. rewrite E.
    cbv beta iota.
    rewrite B2. destruct (faceBoundingBox (updateFaceBoundingBox m0));
      [reflexivity | contradiction]. }
  intros A L Mo W H B R. destruct (facialOverlay m) eqn:O.
  - apply G; assumption.
  - rewrite (frame_creates_overlay now _ m O). apply G; try assumption.
    reflexivity.
Qed.

(** C7: a frame of the tracker never ends by an exception, whatever the
    detector does.  While the analysis runs, a frame whose detector is
    missing, throws or returns no face takes the fallback branch (never
    the detected one); with a video of positive size it is a fallback
    frame and leaves a bounding box, and so is every frame of any run
    of such frames; the next frame whose detector returns a readable
    face is a detected frame again. *)
Theorem tracking_survives_detector_failure :
  (forall now det m,
      exists outcome m', updateFacialAnalysisOverlay now det m = Ok outcome m')
  /\ (forall now det m,
        isAnalyzing m = true -> detectorFails det m = true ->
        exists outcome m',
          updateFacialAnalysisOverlay now det m = Ok outcome m'
          /\ (outcome = FrameFallback \/ outcome = FrameScanning))
  /\ (forall frames m,
        isAnalyzing m = true ->
        (0 < videoWidth m)%Z -> (0 < videoHeight m)%Z ->
        forallb (fun f => detectorFails (snd f) m) frames = true ->
        Forall (fun r => exists m', r = Ok FrameFallback m'
                                    /\ faceBoundingBox m' <> None)
               (snd (runFrames frames m)))
  /\ (forall frames now face others m,
        isAnalyzing m = true ->
        isModelLoaded m = true -> model m = true ->
        (0 < videoWidth m)%Z -> (0 < videoHeight m)%Z ->
        frames <> [] ->
        forallb (fun f => detectorFails (snd f) m) frames = true ->
        readable face = true ->
        exists m',
          updateFacialAnalysisOverlay now (DetFaces (face :: others))
            (fst (runFrames frames m))
          = Ok FrameDetected m').
Proof.
  split; [| split; [| split]].
  - intros now det m. apply updateFacialAnalysisOverlay_total.
  - intros now det m A F.
    assert (G : forall m0, facialOverlay m0 = true ->
              isAnalyzing m0 = true -> detectorFails det m0 = true ->
              exists outcome m',
                updateFacialAnalysisOverlay now det m0 = Ok outcome m'
                /\ (outcome = FrameFallback \/ outcome = FrameScanning)).
    { intros m0 O A0 F0.
      unfold updateFacialAnalysisOverlay, bind, gets, ret, run.
      rewrite O, A0. cbn [negb].
      rewrite (performContinuous_fails det m0 F0).
      destruct (performFallbackFaceDetection now m0) as [m2 [|]];
        eexists; eexists; split; try reflexivity; auto. }
    destruct (facialOverlay m) eqn:O.
    + apply G; assumption.
    + rewrite (frame_creates_overlay now det m O). apply G; try assumption.
      reflexivity.
  - apply frames_stay_in_fallback.
  - intros frames now face others m A L Mo W H N F R.
    assert (I : forall fs m0,
               isAnalyzing m0 = true ->
               (0 < videoWidth m0)%Z -> (0 < videoHeight m0)%Z ->
               forallb (fun f => detectorFails (snd f) m0) fs = true ->
               fixedPart (fst (runFrames fs m0)) = fixedPart m0
               /\ (fs <> [] \/ faceBoundingBox m0 <> None ->
                   faceBoundingBox (fst (runFrames fs m0)) <> None)).
    { induction fs as [| [n d] rest IH]; intros m0 A0 W0 H0 F0.
      - cbn. split; [reflexivity |]. intros [X | X]; [congruence | exact X].
      - cbn in F0. apply andb_prop in F0. destruct F0 as [F1 F2].
        cbn [runFrames].
        destruct (frame_falls_back n d m0 A0 F1 W0 H0) as (m' & E & B).
        pose proof (frame_fixed n d m0) as X.
        rewrite E in X |- *. cbn [stateOf] in X |- *.
        destruct (fixedPart_fields _ _ X) as (X1 & X2 & X3 & X4 & X5).
        specialize (IH m').
        destruct (runFrames rest m') as [m'' rs]. cbn [fst] in IH |- *.
        destruct IH as [I1 I2]; try congruence; try lia.
        { rewrite <- F2. apply detectorFails_fixed; assumption. }
        split; [congruence |]. intros _. apply I2. right. exact B. }
    destruct (I frames m A W H F) as [I1 I2].
    destruct (fixedPart_fields _ _ I1) as (X1 & X2 & X3 & X4 & X5).
    apply frame_detects; try congruence; try lia.
    apply I2. left. exact N.
Qed.

(* ================================================================ *)
(** * Tracker: the fallback box *)

(** C9: the box (and the landmarks) a fallback computation leaves depend
    on the timestamp and on the video size only: two computations with
    the same timestamp on objects with the same video size leave the
    same box, whatever else the objects hold. *)
Theorem fallback_box_depends_on_time_and_size_only
        (now : Z) (m1 m2 : Mirror) :
  videoWidth m1 = videoWidth m2 ->
  videoHeight m1 = videoHeight m2 ->
  snd (performFallbackFaceDetection now m1) = true ->
  snd (performFallbackFaceDetection now m2) = true
  /\ faceBoundingBox (fst (performFallbackFaceDetection now m1)) <> None
  /\ faceBoundingBox (fst (performFallbackFaceDetection now m1))
     = faceBoundingBox (fst (performFallbackFaceDetection now m2))
  /\ realLandmarks (fst (performFallbackFaceDetection now m1))
     = realLandmarks (fst (performFallbackFaceDetection now m2)).
Proof.
  intros W H. unfold performFallbackFaceDetection.
  rewrite <- W, <- H.
  destruct ((videoWidth m1 =? 0)%Z || (videoHeight m1 =? 0)%Z);
    cbn [fst snd]; [discriminate |].
  intros _. unfold createBasicLandmarksFromBoundingBox. fields.
  rewrite <- W, <- H. repeat split. discriminate.
Qed.

(* ================================================================ *)
(** * Tracker: smoothing *)

Lemma nth_error_mapi_from {A B : Type} (f : A -> nat -> B)
      (i : nat) (l : list A) (k : nat) :
  nth_error (mapi_from f i l) k
  = option_map (fun a => f a (i + k)%nat) (nth_error l k).
Proof.
  revert i k. induction l as [| a rest IH]; intros i k.
  - destruct k; reflexivity.
  - destruct k as [| k]; cbn.
    + rewrite Nat.add_0_r. reflexivity.
    + rewrite IH. rewrite Nat.add_succ_r. reflexivity.
Qed.

Lemma smoothLandmarks_aligned (new : list Landmark) (m : Mirror) :
  realLandmarks (smoothLandmarks new m)
  = smoothedLandmarks (smoothLandmarks new m).
Proof.
  unfold smoothLandmarks. destruct (smoothedLandmarks m); reflexivity.
Qed.

Lemma smoothLandmarks_first (new : list Landmark) (m : Mirror) :
  smoothedLandmarks m = [] ->
  smoothedLandmarks (smoothLandmarks new m) = new.
Proof. unfold smoothLandmarks. intros ->. reflexivity. Qed.

Lemma smoothLandmarks_nth (new : list Landmark) (m : Mirror)
      (index : nat) (oldPoint newPoint : Landmark) :
  nth_error (smoothedLandmarks m) index = Some oldPoint ->
  nth_error new index = Some newPoint ->
  nth_error (smoothedLandmarks (smoothLandmarks new m)) index
  = Some (smoothPoint oldPoint newPoint).
Proof.
  intros O N. unfold smoothLandmarks.
  destruct (smoothedLandmarks m) as [| p ps] eqn:S.
  - destruct index; discriminate.
  - fields. unfold mapi. rewrite nth_error_mapi_from, N. cbn.
    rewrite O. reflexivity.
Qed.

(** C8 (as amended): with a numeric stored point [(ox, oy, oz)] and a
    numeric raw point [(nx, ny, nz)] at the same index,
    [smoothLandmarks] stores [o + (n - o) * 0.7] in each coordinate:
    the move is 0.7 times the gap between the raw point and the stored
    point.  The first raw frame is stored as it is, so for the first
    two raw frames the stored point moves from the first raw point by
    0.7 times the difference of the two; for a later pair the move
    starts from the stored point, not from the earlier raw point. *)
Theorem smoothing_moves_by_factor :
  landmarkSmoothingFactor = 0.7
  /\ (forall (m : Mirror) (newLandmarks : list Landmark) (index : nat)
             (ox oy oz nx ny nz : Q),
         nth_error (smoothedLandmarks m) index
         = Some (mkLandmark (Num ox) (Num oy) (Num oz)) ->
         nth_error newLandmarks index
         = Some (mkLandmark (Num nx) (Num ny) (Num nz)) ->
         nth_error (smoothedLandmarks (smoothLandmarks newLandmarks m)) index
         = Some (mkLandmark (Num (ox + (nx - ox) * 0.7))
                            (Num (oy + (ny - oy) * 0.7))
                            (Num (oz + (nz - oz) * 0.7)))
         /\ realLandmarks (smoothLandmarks newLandmarks m)
            = smoothedLandmarks (smoothLandmarks newLandmarks m))
  /\ (forall (m : Mirror) (raw1 : list Landmark),
         smoothedLandmarks m = [] ->
         smoothedLandmarks (smoothLandmarks raw1 m) = raw1)
  /\ (forall (m : Mirror) (raw1 raw2 : list Landmark) (index : nat)
             (ax ay az bx by_ bz : Q),
         smoothedLandmarks m = [] ->
         nth_error raw1 index = Some (mkLandmark (Num ax) (Num ay) (Num az)) ->
         nth_error raw2 index = Some (mkLandmark (Num bx) (Num by_) (Num bz)) ->
         nth_error
           (smoothedLandmarks
              (smoothLandmarks raw2 (smoothLandmarks raw1 m))) index
         = Some (mkLandmark (Num (ax + (bx - ax) * 0.7))
                            (Num (ay + (by_ - ay) * 0.7))
                            (Num (az + (bz - az) * 0.7))))
  /\ (forall (m : Mirror) (raw1 raw2 : list Landmark) (index : nat)
             (ox oy oz ax ay az bx by_ bz : Q),
         nth_error (smoothedLandmarks m) index
         = Some (mkLandmark (Num ox) (Num oy) (Num oz)) ->
         nth_error raw1 index = Some (mkLandmark (Num ax) (Num ay) (Num az)) ->
         nth_error raw2 index = Some (mkLandmark (Num bx) (Num by_) (Num bz)) ->
         nth_error
           (smoothedLandmarks
              (smoothLandmarks raw2 (smoothLandmarks raw1 m))) index
         = Some (mkLandmark
                   (Num ((ox + (ax - ox) * 0.7)
                         + (bx - (ox + (ax - ox) * 0.7)) * 0.7))
                   (Num ((oy + (ay - oy) * 0.7)
                         + (by_ - (oy + (ay - oy) * 0.7)) * 0.7))
                   (Num ((oz + (az - oz) * 0.7)
                         + (bz - (oz + (az - oz) * 0.7)) * 0.7)))).
Proof.
  split; [reflexivity | split; [| split; [| split]]].
  - intros m new index ox oy oz nx ny nz O N.
    rewrite (smoothLandmarks_nth new m index _ _ O N).
    split; [reflexivity | apply smoothLandmarks_aligned].
  - intros m raw1 E. apply smoothLandmarks_first. exact E.
  - intros m raw1 raw2 index ax ay az bx by_ bz E R1 R2.
    assert (S1 : nth_error (smoothedLandmarks (smoothLandmarks raw1 m)) index
                 = Some (mkLandmark (Num ax) (Num ay) (Num az)))
      by (rewrite (smoothLandmarks_first raw1 m E); exact R1).
    rewrite (smoothLandmarks_nth raw2 _ index _ _ S1 R2). reflexivity.
  - intros m raw1 raw2 index ox oy oz ax ay az bx by_ bz O R1 R2.
    pose proof (smoothLandmarks_nth raw1 m index _ _ O R1) as S1.
    rewrite (smoothLandmarks_nth raw2 _ index _ _ S1 R2). reflexivity.
Qed.

(* ================================================================ *)
(** * Tracker: the bounding box *)

Lemma Qmin_choice (a b : Q) : Qmin a b = a \/ Qmin a b = b.
Proof.
  unfold Qmin, GenericMinMax.gmin. destruct (a ?= b); auto.
Qed.

Lemma Qmax_choice (a b : Q) : Qmax a b = a \/ Qmax a b = b.
Proof.
  unfold Qmax, GenericMinMax.gmax. destruct (a ?= b); auto.
Qed.

Lemma fold_min_bounds (qs : list Q) (q : Q) :
  fold_left Qmin qs q <= q
  /\ forall x, In x qs -> fold_left Qmin qs q <= x.
Proof.
  revert q. induction qs as [| a rest IH]; intros q; cbn.
  - split; [lra | intros x []].
  - destruct (IH (Qmin q a)) as [B1 B2].
    pose proof (Q.le_min_l q a). pose proof (Q.le_min_r q a).
    split; [lra |]. intros x [<- | I]; [lra | auto].
Qed.

Lemma fold_max_bounds (qs : list Q) (q : Q) :
  q <= fold_left Qmax qs q
  /\ forall x, In x qs -> x <= fold_left Qmax qs q.
Proof.
  revert q. induction qs as [| a rest IH]; intros q; cbn.
  - split; [lra | intros x []].
  - destruct (IH (Qmax q a)) as [B1 B2].
    pose proof (Q.le_max_l q a). pose proof (Q.le_max_r q a).
    split; [lra |]. intros x [<- | I]; [lra | auto].
Qed.

Lemma fold_min_attained (qs : list Q) (q : Q) :
  In (fold_left Qmin qs q) (q :: qs).
Proof.
  revert q. induction qs as [| a rest IH]; intros q; cbn.
  - auto.
  - destruct (IH (Qmin q a)) as [E | I]; [| auto].
    rewrite <- E. destruct (Qmin_choice q a) as [-> | ->]; auto.
Qed.

Lemma fold_max_attained (qs : list Q) (q : Q) :
  In (fold_left Qmax qs q) (q :: qs).
Proof.
  revert q. induction qs as [| a rest IH]; intros q; cbn.
  - auto.
  - destruct (IH (Qmax q a)) as [E | I]; [| auto].
    rewrite <- E. destruct (Qmax_choice q a) as [-> | ->]; auto.
Qed.

Lemma spreadMin_numbers (q : Q) (qs : list Q) :
  spreadMin (Num q) (map Num qs) = Num (fold_left Qmin qs q).
Proof.
  unfold spreadMin. cbn [toNumber]. revert q.
  induction qs as [| a rest IH]; intros q; [reflexivity | apply IH].
Qed.

Lemma spreadMax_numbers (q : Q) (qs : list Q) :
  spreadMax (Num q) (map Num qs) = Num (fold_left Qmax qs q).
Proof.
  unfold spreadMax. cbn [toNumber]. revert q.
  induction qs as [| a rest IH]; intros q; [reflexivity | apply IH].
Qed.

Lemma isNum_numberOf (v : jsval) : isNum v = true -> v = Num (numberOf v).
Proof. destruct v; [reflexivity | discriminate | discriminate]. Qed.

Lemma numericPoint_slots (p : Landmark) :
  numericPoint p = true ->
  l0 p = Num (numberOf (l0 p)) /\ l1 p = Num (numberOf (l1 p))
  /\ l2 p = Num (numberOf (l2 p)).
Proof.
  unfold numericPoint. intros H.
  apply andb_prop in H. destruct H as [H Hz].
  apply andb_prop in H. destruct H as [Hx Hy].
  auto using isNum_numberOf.
Qed.

Lemma numeric_slots_map (slot : Landmark -> jsval) (ls : list Landmark) :
  Forall (fun p => isNum (slot p) = true) ls ->
  map slot ls = map Num (map (fun p => numberOf (slot p)) ls).
Proof.
  induction 1 as [| p rest Hp _ IH]; [reflexivity |].
  cbn. rewrite <- IH, <- (isNum_numberOf _ Hp). reflexivity.
Qed.

(** The min and max of one slot over numeric landmarks: numbers that
    bound the slot of every landmark and are the slot of one. *)
Lemma slot_extents (slot : Landmark -> jsval) (l : Landmark)
      (ls : list Landmark) :
  Forall (fun p => isNum (slot p) = true) (l :: ls) ->
  exists lo hi : Q,
    spreadMin (slot l) (map slot ls) = Num lo
    /\ spreadMax (slot l) (map slot ls) = Num hi
    /\ (forall p, In p (l :: ls) ->
                  exists q, slot p = Num q /\ lo <= q /\ q <= hi)
    /\ (exists p, In p (l :: ls) /\ slot p = Num lo)
    /\ (exists p, In p (l :: ls) /\ slot p = Num hi).
Proof.
  intros F. inversion F as [| ? ? Hl Hls]; subst.
  set (qs := map (fun p => numberOf (slot p)) ls).
  set (q := numberOf (slot l)).
  assert (El : slot l = Num q) by (apply isNum_numberOf; exact Hl).
  assert (Els : map slot ls = map Num qs) by (apply numeric_slots_map, Hls).
  exists (fold_left Qmin qs q), (fold_left Qmax qs q).
  rewrite Els, El, spreadMin_numbers, spreadMax_numbers.
  destruct (fold_min_bounds qs q) as [L1 L2].
  destruct (fold_max_bounds qs q) as [U1 U2].
  rewrite Forall_forall in Hls.
  assert (A : forall r, In r (q :: qs) ->
              exists p, In p (l :: ls) /\ slot p = Num r).
  { intros r [<- | I].
    - exists l. split; [left; reflexivity | exact El].
    - unfold qs in I. apply in_map_iff in I. destruct I as (p & <- & I).
      exists p. split; [right; exact I |].
      apply isNum_numberOf. apply Hls, I. }
  split; [reflexivity | split; [reflexivity | split; [| split]]].
  - intros p [<- | I].
    + exists q. auto.
    + exists (numberOf (slot p)).
      split; [apply isNum_numberOf; apply Hls, I |].
      assert (In (numberOf (slot p)) qs)
        by (unfold qs; apply in_map_iff; exists p; auto).
      auto.
  - apply A, fold_min_attained.
  - apply A, fold_max_attained.
Qed.

Lemma numeric_slot0 (ls : list Landmark) :
  Forall (fun p => numericPoint p = true) ls ->
  Forall (fun p => isNum (l0 p) = true) ls
  /\ Forall (fun p => isNum (l1 p) = true) ls.
Proof.
  intros F. split; eapply Forall_impl; try exact F; intros p H;
    destruct (numericPoint_slots p H) as (X & Y & _);
    [rewrite X | rewrite Y]; reflexivity.
Qed.

Lemma blend_between (old target : Q) :
  Qmin old target <= old + (target - old) * 0.3
  /\ old + (target - old) * 0.3 <= Qmax old target.
Proof.
  destruct (Q.min_spec old target) as [[H1 E1] | [H1 E1]];
    destruct (Q.max_spec old target) as [[H2 E2] | [H2 E2]];
    rewrite E1, E2; split; lra.
Qed.

(** C6 (as amended): [updateFaceBoundingBox], run with stored numeric
    landmarks, computes the box of their extents: centre and size from
    the min and max over x and over y, which bound every landmark and
    are reached by one.  When there was no face bounding box, that box
    becomes the face bounding box.  When there was one, with numeric
    fields, each field [f] becomes [f + (e - f) * 0.3] for the field
    [e] of the extents box, a value between the two.  [faceCenter] is
    set to the centre of the resulting box. *)
Theorem updateFaceBoundingBox_blends_extents
        (m : Mirror) (l : Landmark) (ls : list Landmark) :
  realLandmarks m = l :: ls ->
  Forall (fun p => numericPoint p = true) (l :: ls) ->
  exists minX maxX minY maxY : Q,
    (forall p, In p (l :: ls) ->
               exists px py, l0 p = Num px /\ l1 p = Num py
                             /\ minX <= px /\ px <= maxX
                             /\ minY <= py /\ py <= maxY)
    /\ (exists p, In p (l :: ls) /\ l0 p = Num minX)
    /\ (exists p, In p (l :: ls) /\ l0 p = Num maxX)
    /\ (exists p, In p (l :: ls) /\ l1 p = Num minY)
    /\ (exists p, In p (l :: ls) /\ l1 p = Num maxY)
    /\ extentsBox l ls
       = mkBox (Num ((minX + maxX) / 2)) (Num ((minY + maxY) / 2))
               (Num (maxX - minX)) (Num (maxY - minY))
    /\ (faceBoundingBox m = None ->
        faceBoundingBox (updateFaceBoundingBox m)
        = Some (mkBox (Num ((minX + maxX) / 2)) (Num ((minY + maxY) / 2))
                      (Num (maxX - minX)) (Num (maxY - minY)))
        /\ faceCenter (updateFaceBoundingBox m)
           = (Num ((minX + maxX) / 2), Num ((minY + maxY) / 2)))
    /\ (forall bx by_ bw bh : Q,
          faceBoundingBox m = Some (mkBox (Num bx) (Num by_) (Num bw) (Num bh)) ->
          faceBoundingBox (updateFaceBoundingBox m)
          = Some (mkBox (Num (bx + ((minX + maxX) / 2 - bx) * 0.3))
                        (Num (by_ + ((minY + maxY) / 2 - by_) * 0.3))
                        (Num (bw + ((maxX - minX) - bw) * 0.3))
                        (Num (bh + ((maxY - minY) - bh) * 0.3)))
          /\ faceCenter (updateFaceBoundingBox m)
             = (Num (bx + ((minX + maxX) / 2 - bx) * 0.3),
                Num (by_ + ((minY + maxY) / 2 - by_) * 0.3))
          /\ (Qmin bx ((minX + maxX) / 2)
              <= bx + ((minX + maxX) / 2 - bx) * 0.3
              <= Qmax bx ((minX + maxX) / 2))
          /\ (Qmin by_ ((minY + maxY) / 2)
              <= by_ + ((minY + maxY) / 2 - by_) * 0.3
              <= Qmax by_ ((minY + maxY) / 2))
          /\ (Qmin bw (maxX - minX)
              <= bw + ((maxX - minX) - bw) * 0.3
              <= Qmax bw (maxX - minX))
          /\ (Qmin bh (maxY - minY)
              <= bh + ((maxY - minY) - bh) * 0.3
              <= Qmax bh (maxY - minY))).
Proof.
  intros R F. destruct (numeric_slot0 _ F) as [FX FY].
  destruct (slot_extents l0 l ls FX) as (minX & maxX & EX1 & EX2 & BX & AX1 & AX2).
  destruct (slot_extents l1 l ls FY) as (minY & maxY & EY1 & EY2 & BY & AY1 & AY2).
  assert (E : extentsBox l ls
              = mkBox (Num ((minX + maxX) / 2)) (Num ((minY + maxY) / 2))
                      (Num (maxX - minX)) (Num (maxY - minY))).
  { unfold extentsBox. rewrite EX1, EX2, EY1, EY2. reflexivity. }
  exists minX, maxX, minY, maxY.
  split; [| split; [exact AX1 | split; [exact AX2 | split;
            [exact AY1 | split; [exact AY2 | split; [exact E | split]]]]]].
  - intros p I. destruct (BX p I) as (px & Px & ? & ?).
    destruct (BY p I) as (py & Py & ? & ?).
    exists px, py. repeat split; assumption.
  - intros B. unfold updateFaceBoundingBox. rewrite R, B, E.
    split; reflexivity.
  - intros bx by_ bw bh B. unfold updateFaceBoundingBox. rewrite R, B, E.
    split; [reflexivity | split; [reflexivity |]].
    repeat split; apply blend_between.
Qed.

(* ================================================================ *)
(** * Tracker: stored landmarks are numeric points *)

Lemma keeps_ret {A : Type} (P : Mirror -> Prop) (a : A) : keeps P (ret a).
Proof. intros m H. exact H. Qed.

Lemma keeps_throw {A : Type} (P : Mirror -> Prop) : keeps P (@throw A).
Proof. intros m H. exact H. Qed.

Lemma keeps_gets {A : Type} (P : Mirror -> Prop) (f : Mirror -> A) :
  keeps P (gets f).
Proof. intros m H. exact H. Qed.

Lemma keeps_run (P : Mirror -> Prop) (f : Mirror -> Mirror) :
  (forall m, P m -> P (f m)) -> keeps P (run f).
Proof. intros Hf m H. apply Hf, H. Qed.

Lemma keeps_bind {A B : Type} (P : Mirror -> Prop) (c : M A) (k : A -> M B) :
  keeps P c -> (forall a, keeps P (k a)) -> keeps P (bind c k).
Proof.
  intros Hc Hk m H. unfold bind. specialize (Hc m H).
  destruct (c m) as [a m' | m']; cbn in *; [apply Hk, Hc | exact Hc].
Qed.

Lemma keeps_bind_ret {A B : Type} (P : Mirror -> Prop) (a : A) (k : A -> M B) :
  keeps P (k a) -> keeps P (bind (ret a) k).
Proof. intros Hk m H. apply Hk, H. Qed.

Lemma keeps_bind_throw {A B : Type} (P : Mirror -> Prop) (k : A -> M B) :
  keeps P (bind throw k).
Proof. intros m H. exact H. Qed.

Lemma keeps_tryCatch {A : Type} (P : Mirror -> Prop) (c h : M A) :
  keeps P c -> keeps P h -> keeps P (tryCatch c h).
Proof.
  intros Hc Hh m H. unfold tryCatch. specialize (Hc m H).
  destruct (c m) as [a m' | m']; cbn in *; [exact Hc | apply Hh, Hc].
Qed.

Lemma optionalNumber_orZero (z : jsval) :
  optionalNumber z = true -> isNum (orZero z) = true.
Proof.
  destruct z as [q | |]; try discriminate; intros _; cbn;
    [destruct (Qeq_bool q 0) |]; reflexivity.
Qed.

(** The landmark made from a keypoint that carries x and y. *)
Lemma convertKeypoint_numeric (w h : Z) (k : Keypoint) :
  carriesXY k = true ->
  exists p, convertKeypoint w h k = Some p
            /\ numericPoint p = true
            /\ l2 p = orZero (zOf k)
            /\ (zOf k = Undefined -> l2 p = Num 0).
Proof.
  assert (G : forall x y z,
            isNum z = true ->
            exists p,
              (if jle (Num x) (Num 1) && jle (Num y) (Num 1)
                  && jle (Num 0) (Num x) && jle (Num 0) (Num y)
               then Some (mkLandmark (jmul (Num x) (Num (inject_Z w)))
                                     (jmul (Num y) (Num (inject_Z h))) z)
               else Some (mkLandmark (Num x) (Num y) z)) = Some p
              /\ numericPoint p = true /\ l2 p = z).
  { intros x y z Hz.
    destruct (jle (Num x) (Num 1) && jle (Num y) (Num 1)
              && jle (Num 0) (Num x) && jle (Num 0) (Num y));
      eexists; (split; [reflexivity |]); unfold numericPoint; cbn;
      rewrite Hz; auto. }
  intros C. unfold convertKeypoint.
  destruct k as [kx ky kz | elems | |]; try discriminate.
  - destruct kx as [x | |]; try discriminate.
    destruct ky as [y | |]; try discriminate.
    cbn in C. cbn [defined andb zOf].
    destruct (G x y (orZero kz) (optionalNumber_orZero kz C)) as (p & E & N & Z).
    exists p. rewrite E. repeat split; auto.
    intros ->. exact Z.
  - destruct elems as [| [x | |] [| [y | |] rest]]; try discriminate.
    cbn [nth defined andb zOf].
    assert (Hz : optionalNumber (nth 2 (Num x :: Num y :: rest) Undefined) = true).
    { destruct rest as [| z rest]; [reflexivity | exact C]. }
    destruct (G x y _ (optionalNumber_orZero _ Hz)) as (p & E & N & Z).
    exists p. cbn [nth] in *. rewrite E. repeat split; auto.
    intros U. rewrite Z, U. reflexivity.
Qed.

Lemma convertKeypoints_numeric (w h : Z) (kps : list Keypoint) :
  forallb carriesXY kps = true ->
  exists ps, convertKeypoints w h kps = Some ps
             /\ Forall (fun p => numericPoint p = true) ps.
Proof.
  induction kps as [| k ks IH]; intros C.
  - exists []. split; [reflexivity | constructor].
  - cbn in C. apply andb_prop in C. destruct C as [C1 C2].
    destruct (IH C2) as (ps & E & F).
    destruct (convertKeypoint_numeric w h k C1) as (p & Ep & N & _).
    exists (p :: ps). cbn [convertKeypoints]. rewrite Ep, E.
    split; [reflexivity | constructor; assumption].
Qed.

Lemma smoothPoint_numeric (oldPoint newPoint : Landmark) :
  numericPoint oldPoint = true -> numericPoint newPoint = true ->
  numericPoint (smoothPoint oldPoint newPoint) = true.
Proof.
  intros O N.
  destruct (numericPoint_slots _ O) as (O0 & O1 & O2).
  destruct (numericPoint_slots _ N) as (N0 & N1 & N2).
  unfold smoothPoint, numericPoint. cbn [l0 l1 l2].
  rewrite O0, O1, O2, N0, N1, N2. reflexivity.
Qed.

Lemma mapi_from_Forall {A B : Type} (P : A -> Prop) (Q : B -> Prop)
      (f : A -> nat -> B) (i : nat) (l : list A) :
  (forall a n, P a -> Q (f a n)) ->
  Forall P l -> Forall Q (mapi_from f i l).
Proof.
  intros Hf F. revert i. induction F as [| a rest Ha _ IH]; intros i; cbn.
  - constructor.
  - constructor; [apply Hf, Ha | apply IH].
Qed.

Lemma smoothLandmarks_numeric (new : list Landmark) (m : Mirror) :
  Forall (fun p => numericPoint p = true) new ->
  storedNumeric m -> storedNumeric (smoothLandmarks new m).
Proof.
  intros N [_ S].
  assert (X : Forall (fun p => numericPoint p = true)
                     (smoothedLandmarks (smoothLandmarks new m))).
  { unfold smoothLandmarks. destruct (smoothedLandmarks m) as [| o os] eqn:E.
    - exact N.
    - fields. unfold mapi. apply mapi_from_Forall with (P := fun p => numericPoint p = true);
        [| exact N].
      intros p n Hp.
      destruct (nth_error (o :: os) n) as [q |] eqn:Q.
      + apply smoothPoint_numeric; [| exact Hp].
        rewrite Forall_forall in S. apply S. eapply nth_error_In, Q.
      + apply smoothPoint_numeric; exact Hp. }
  split; [rewrite smoothLandmarks_aligned |]; exact X.
Qed.

Lemma createBasicLandmarks_numeric (bb : RawBox) (m : Mirror) :
  numericBox bb = true ->
  storedNumeric (createBasicLandmarksFromBoundingBox bb m)
  /\ Forall (fun p => l2 p = Num 0)
            (realLandmarks (createBasicLandmarksFromBoundingBox bb m)).
Proof.
  unfold numericBox. intros H.
  apply andb_prop in H. destruct H as [H H4].
  apply andb_prop in H. destruct H as [H H3].
  apply andb_prop in H. destruct H as [H1 H2].
  unfold createBasicLandmarksFromBoundingBox, storedNumeric. fields.
  rewrite (isNum_numberOf _ H1), (isNum_numberOf _ H2),
    (isNum_numberOf _ H3), (isNum_numberOf _ H4).
  repeat split; repeat constructor.
Qed.

Lemma extractLandmarks_numeric (face : Face) (m : Mirror) :
  wellFormedFace face = true -> storedNumeric m ->
  exists m', extractLandmarks face m = Ok tt m' /\ storedNumeric m'.
Proof.
  unfold wellFormedFace, extractLandmarks. intros W S.
  destruct (selectKeypoints face) as [[| k ks] |].
  - destruct (boundingBox face) as [bb |]; eexists;
      (split; [reflexivity |]);
      [apply createBasicLandmarks_numeric, W | exact S].
  - unfold bind, gets.
    destruct (convertKeypoints_numeric (videoWidth m) (videoHeight m) _ W)
      as (ps & E & F).
    rewrite E. unfold run.
    destruct (realLandmarks m); eexists; (split; [reflexivity |]).
    + split; exact F.
    + apply smoothLandmarks_numeric; assumption.
  - destruct (boundingBox face) as [bb |]; eexists;
      (split; [reflexivity |]);
      [apply createBasicLandmarks_numeric, W | exact S].
Qed.

Lemma performFallback_numeric (now : Z) (m : Mirror) :
  storedNumeric m -> storedNumeric (fst (performFallbackFaceDetection now m)).
Proof.
  intros S. unfold performFallbackFaceDetection.
  destruct ((videoWidth m =? 0)%Z || (videoHeight m =? 0)%Z);
    cbn [fst]; [exact S |].
  apply createBasicLandmarks_numeric. reflexivity.
Qed.

Lemma updateFaceBoundingBox_numeric (m : Mirror) :
  storedNumeric m -> storedNumeric (updateFaceBoundingBox m).
Proof.
  unfold updateFaceBoundingBox, storedNumeric.
  destruct (realLandmarks m) eqn:E; [rewrite E; auto |].
  fields. rewrite E. auto.
Qed.

Lemma frame_numeric (now : Z) (det : Detection) :
  wellFormedDetection det = true ->
  keeps storedNumeric (updateFacialAnalysisOverlay now det).
Proof.
  intros W. unfold updateFacialAnalysisOverlay.
  apply keeps_bind; [apply keeps_gets | intros hasOverlay].
  apply keeps_bind.
  { destruct hasOverlay; [apply keeps_ret |].
    apply keeps_run. intros m S. exact S. }
  intros _.
  apply keeps_bind; [apply keeps_gets | intros analyzing].
  destruct (negb analyzing); [apply keeps_ret |].
  apply keeps_bind.
  { unfold performContinuousFacialDetection.
    apply keeps_tryCatch; [| apply keeps_ret].
    apply keeps_bind; [apply keeps_gets | intros [|]]; [| apply keeps_ret].
    destruct det as [| [| face rest]]; cbn [estimateFaces].
    - apply keeps_bind_throw.
    - apply keeps_bind_ret, keeps_ret.
    - apply keeps_bind_ret.
      apply keeps_bind;
        [apply keeps_run; apply updateFaceBoundingBox_numeric | intros _].
      apply keeps_bind; [| intros _; apply keeps_ret].
      intros m S.
      destruct (extractLandmarks_numeric face m W S) as (m' & E & S').
      rewrite E. exact S'. }
  intros detected.
  apply keeps_bind; [apply keeps_gets | intros box].
  assert (F : keeps storedNumeric
                (fallbackDetected <-
                   (fun m => let '(m', b) := performFallbackFaceDetection now m in
                             Ok b m') ;;
                 if fallbackDetected : bool then ret FrameFallback
                 else ret FrameScanning)).
  { apply keeps_bind.
    - intros m S. pose proof (performFallback_numeric now m S) as H.
      destruct (performFallbackFaceDetection now m) as [m' b]. exact H.
    - intros [|]; apply keeps_ret. }
  destruct detected; [destruct box |]; try exact F. apply keeps_ret.
Qed.

Lemma sum_of_squares_nonneg (a b c : Q) : 0 <= a * a + b * b + c * c.
Proof. nra. Qed.

(** The distance of two numeric points is a number. *)
Lemma distance_numeric (p1 p2 : Landmark) :
  numericPoint p1 = true -> numericPoint p2 = true ->
  exists q, distance p1 p2 = Num q.
Proof.
  intros N1 N2.
  destruct (numericPoint_slots _ N1) as (A0 & A1 & A2).
  destruct (numericPoint_slots _ N2) as (B0 & B1 & B2).
  unfold distance. rewrite A0, A1, A2, B0, B1, B2.
  cbn [jsub jmul jadd lift2 jsqrt].
  match goal with
  | |- context [Qlt_le_dec ?s 0] => destruct (Qlt_le_dec s 0) as [Neg | _]
  end.
  - exfalso.
    pose proof (sum_of_squares_nonneg
                  (numberOf (l0 p1) - numberOf (l0 p2))
                  (numberOf (l1 p1) - numberOf (l1 p2))
                  (numberOf (l2 p1) - numberOf (l2 p2))).
    lra.
  - eexists. reflexivity.
Qed.

Lemma runFrames_numeric (frames : list (Z * Detection)) (m : Mirror) :
  forallb (fun f => wellFormedDetection (snd f)) frames = true ->
  storedNumeric m -> storedNumeric (fst (runFrames frames m)).
Proof.
  revert m. induction frames as [| [now det] rest IH]; intros m W S.
  - exact S.
  - cbn in W. apply andb_prop in W. destruct W as [W1 W2].
    cbn [runFrames].
    specialize (IH (stateOf (updateFacialAnalysisOverlay now det m)) W2
                   (frame_numeric now det W1 m S)).
    destruct (runFrames rest (stateOf (updateFacialAnalysisOverlay now det m))).
    exact IH.
Qed.

Lemma smoothLandmarks_poisoned (new : list Landmark) (m : Mirror)
      (index : nat) (oldPoint newPoint : Landmark) :
  nth_error (smoothedLandmarks m) index = Some oldPoint ->
  nth_error new index = Some newPoint ->
  (isNum (l0 oldPoint) = false ->
   l0 (smoothPoint oldPoint newPoint) = NaN)
  /\ (isNum (l1 oldPoint) = false ->
      l1 (smoothPoint oldPoint newPoint) = NaN)
  /\ (isNum (l2 oldPoint) = false ->
      l2 (smoothPoint oldPoint newPoint) = NaN).
Proof.
  intros _ _. unfold smoothPoint. cbn [l0 l1 l2].
  repeat split; intros N;
    [destruct (l0 oldPoint) | destruct (l1 oldPoint) | destruct (l2 oldPoint)];
    try discriminate; reflexivity.
Qed.

(** C10 (as amended): a keypoint that carries x and y, as an object or
    as an array, is converted into a point of three numbers whose z is
    0 when the keypoint has none.  The landmark stored for a numeric
    point is numeric when no landmark is stored at its index, or a
    numeric one is.  Starting from the constructor's state, frames whose
    faces are made of such keypoints (or, without keypoints, carry a
    numeric box), together with fallback frames and smoothing, leave
    only numeric points in the stored landmarks, and [distance] of two
    stored landmarks is then a number.  A stored landmark with a
    coordinate that is not a number makes that coordinate of the
    landmark stored next at its index [NaN], whatever the keypoint. *)
Theorem stored_landmarks_are_numeric_points :
  (forall w h k,
      carriesXY k = true ->
      exists p, convertKeypoint w h k = Some p
                /\ numericPoint p = true
                /\ (zOf k = Undefined -> l2 p = Num 0))
  /\ (forall loaded w h, storedNumeric (construct loaded w h))
  /\ (forall now det m,
        wellFormedDetection det = true -> storedNumeric m ->
        storedNumeric (stateOf (updateFacialAnalysisOverlay now det m)))
  /\ (forall frames m,
        forallb (fun f => wellFormedDetection (snd f)) frames = true ->
        storedNumeric m -> storedNumeric (fst (runFrames frames m)))
  /\ (forall m p1 p2,
        storedNumeric m ->
        In p1 (realLandmarks m) -> In p2 (realLandmarks m) ->
        exists q, distance p1 p2 = Num q)
  /\ (forall (m : Mirror) (newLandmarks : list Landmark) (index : nat)
             (newPoint : Landmark),
        nth_error newLandmarks index = Some newPoint ->
        numericPoint newPoint = true ->
        nth_error (smoothedLandmarks m) index = None
        \/ (exists oldPoint,
               nth_error (smoothedLandmarks m) index = Some oldPoint
               /\ numericPoint oldPoint = true) ->
        exists stored,
          nth_error (smoothedLandmarks (smoothLandmarks newLandmarks m)) index
          = Some stored
          /\ nth_error (realLandmarks (smoothLandmarks newLandmarks m)) index
             = Some stored
          /\ numericPoint stored = true)
  /\ (forall (m : Mirror) (newLandmarks : list Landmark) (index : nat)
             (oldPoint newPoint : Landmark),
        nth_error (smoothedLandmarks m) index = Some oldPoint ->
        nth_error newLandmarks index = Some newPoint ->
        exists stored,
          nth_error (realLandmarks (smoothLandmarks newLandmarks m)) index
          = Some stored
          /\ (isNum (l0 oldPoint) = false -> l0 stored = NaN)
          /\ (isNum (l1 oldPoint) = false -> l1 stored = NaN)
          /\ (isNum (l2 oldPoint) = false -> l2 stored = NaN)).
Proof.
  split; [| split; [| split; [| split; [| split; [| split]]]]].
  - intros w h k C.
    destruct (convertKeypoint_numeric w h k C) as (p & E & N & _ & Z).
    exists p. auto.
  - intros loaded w h. split; constructor.
  - intros now det m W S. apply frame_numeric; assumption.
  - apply runFrames_numeric.
  - intros m p1 p2 [R _] I1 I2. rewrite Forall_forall in R.
    apply distance_numeric; auto.
  - intros m new index p N Np [O | (o & O & No)];
      rewrite smoothLandmarks_aligned.
    + unfold smoothLandmarks.
      destruct (smoothedLandmarks m) as [| q qs] eqn:S.
      * fields. exists p. auto.
      * fields. unfold mapi. rewrite nth_error_mapi_from, N. cbn.
        rewrite O. eexists. split; [reflexivity | split; [reflexivity |]].
        apply smoothPoint_numeric; exact Np.
    + rewrite (smoothLandmarks_nth new m index o p O N).
      eexists. split; [reflexivity | split; [reflexivity |]].
      apply smoothPoint_numeric; assumption.
  - intros m new index o p O N. rewrite smoothLandmarks_aligned.
    rewrite (smoothLandmarks_nth new m index o p O N).
    eexists. split; [reflexivity |].
    exact (smoothLandmarks_poisoned new m index o p O N).
Qed.

(* ================================================================ *)
(** * The two landmark fields hold the same list *)

Lemma frame_aligned (now : Z) (det : Detection) :
  keeps aligned (updateFacialAnalysisOverlay now det).
Proof.
  assert (B : forall bb m, aligned (createBasicLandmarksFromBoundingBox bb m))
    by (intros; reflexivity).
  assert (X : forall face, keeps aligned (extractLandmarks face)).
  { intros face. unfold extractLandmarks.
    destruct (selectKeypoints face) as [[| k ks] |].
    - destruct (boundingBox face);
        [apply keeps_run; intros; apply B | apply keeps_ret].
    - apply keeps_bind; [apply keeps_gets | intros w].
      apply keeps_bind; [apply keeps_gets | intros h].
      destruct (convertKeypoints w h (k :: ks)); [| apply keeps_throw].
      apply keeps_bind; [apply keeps_gets | intros stored].
      destruct stored; apply keeps_run; intros m _.
      + reflexivity.
      + apply smoothLandmarks_aligned.
    - destruct (boundingBox face);
        [apply keeps_run; intros; apply B | apply keeps_ret]. }
  unfold updateFacialAnalysisOverlay.
  apply keeps_bind; [apply keeps_gets | intros hasOverlay].
  apply keeps_bind.
  { destruct hasOverlay; [apply keeps_ret |].
    apply keeps_run. intros m S. exact S. }
  intros _.
  apply keeps_bind; [apply keeps_gets | intros analyzing].
  destruct (negb analyzing); [apply keeps_ret |].
  apply keeps_bind.
  { unfold performContinuousFacialDetection.
    apply keeps_tryCatch; [| apply keeps_ret].
    apply keeps_bind; [apply keeps_gets | intros [|]]; [| apply keeps_ret].
    apply keeps_bind.
    - destruct det; [apply keeps_throw | apply keeps_ret].
    - intros [| face rest]; [apply keeps_ret |].
      apply keeps_bind.
      + apply keeps_run. intros m S. unfold updateFaceBoundingBox.
        destruct (realLandmarks m) eqn:E; [exact S |].
        unfold aligned in *. fields. exact S.
      + intros _. apply keeps_bind; [apply X | intros _; apply keeps_ret]. }
  intros detected.
  apply keeps_bind; [apply keeps_gets | intros box].
  assert (F : keeps aligned
                (fallbackDetected <-
                   (fun m => let '(m', b) := performFallbackFaceDetection now m in
                             Ok b m') ;;
                 if fallbackDetected : bool then ret FrameFallback
                 else ret FrameScanning)).
  { apply keeps_bind.
    - intros m S. unfold performFallbackFaceDetection.
      destruct ((videoWidth m =? 0)%Z || (videoHeight m =? 0)%Z);
        [exact S | reflexivity].
    - intros [|]; apply keeps_ret. }
  destruct detected; [destruct box |]; try exact F. apply keeps_ret.
Qed.

Lemma startFakeAnalysis_landmarks (m : Mirror) :
  realLandmarks (startFakeAnalysis m) = realLandmarks m
  /\ smoothedLandmarks (startFakeAnalysis m) = smoothedLandmarks m.
Proof.
  unfold startFakeAnalysis, createFacialAnalysisOverlay. fields.
  destruct (facialOverlay m); auto.
Qed.

Lemma updateHumanityLevel_landmarks (m : Mirror) :
  realLandmarks (updateHumanityLevel m) = realLandmarks m
  /\ smoothedLandmarks (updateHumanityLevel m) = smoothedLandmarks m.
Proof.
  unfold updateHumanityLevel.
  destruct (humanityPercentage m <=? 0)%Z; auto.
Qed.

Lemma runTask_landmarks (rd : Readings) (t : Timer) (m : Mirror) :
  realLandmarks (runTask rd t m) = realLandmarks m
  /\ smoothedLandmarks (runTask rd t m) = smoothedLandmarks m.
Proof.
  unfold runTask, triggerSmileVerification.
  destruct (task t) as [ | | | | progress stepIndex].
  - auto.
  - match goal with
    | |- context [startFakeAnalysis ?x] =>
        destruct (startFakeAnalysis_landmarks x) as [R S]; rewrite R, S
    end.
    fields.
    match goal with
    | |- context [updateHumanityLevel ?x] =>
        destruct (updateHumanityLevel_landmarks x) as [R' S']; rewrite R', S'
    end.
    auto.
  - match goal with
    | |- context [startFakeAnalysis ?x] =>
        destruct (startFakeAnalysis_landmarks x) as [R S]; rewrite R, S
    end.
    auto.
  - auto.
  - destruct (Qle_bool 100 (progress + 14.3)); [| auto].
    fields. destruct (analysisTimer m); auto.
Qed.

Lemma step_aligned (m : Mirror) (e : Event) :
  aligned m -> aligned (step m e).
Proof.
  unfold aligned. intros A.
  destruct e as [ | | dt | rd | now det]; cbn [step].
  - unfold processHumanClaim, updateHumanityLevel, setTimeout, setTimer.
    destruct (maxSmileLevel m <=? smileLevel m)%Z; [exact A |].
    destruct (smileLevel m =? 0)%Z; [exact A |]. fields.
    destruct (Z.max 0 (100 - (smileLevel m + 1) * 25) <=? 0)%Z; exact A.
  - unfold resetMirror. fields. destruct (analysisTimer m); exact A.
  - exact A.
  - unfold fireTimer. destruct (nextTimer (timers m)) as [t |]; [| exact A].
    destruct (due t <=? clock m)%Z; [| exact A].
    destruct (runTask_landmarks rd t
                (set_timers
                   (filter (fun t' => negb (timerId t' =? timerId t)%nat)
                           (timers m)) m)) as [R S].
    rewrite R, S. exact A.
  - apply frame_aligned. exact A.
Qed.

(** In every reachable state [realLandmarks] and [smoothedLandmarks]
    are the same list: the landmarks the box is computed from are the
    smoothed ones. *)
Lemma reachable_aligned (m : Mirror) : reachable m -> aligned m.
Proof.
  intros (loaded & w & h & es & _ & _ & ->).
  assert (G : forall es m0, aligned m0 -> aligned (runEvents es m0)).
  { induction es0 as [| e es0 IH]; intros m0 A; cbn.
    - exact A.
    - apply IH, step_aligned, A. }
  apply G. reflexivity.
Qed.

End Engine.

(* ================================================================== *)
(** * Concrete runs *)

(** A host whose [Math.sin] and [Math.cos] are the Taylor polynomials of
    degree three and two (exact at 0), and whose [Math.sqrt] is four
    Newton steps from [(x + 1) / 2]. *)
Definition hostSin (x : Q) : Q := x - x * x * x / 6.
Definition hostCos (x : Q) : Q := 1 - x * x / 2.
Definition hostSqrt (x : Q) : Q :=
  let next := fun y => Qred ((y + x / y) / 2) in
  next (next (next (next ((x + 1) / 2)))).

(** Readings with [Math.random()] always 0.5 (no variance). *)
Definition sampleReadings : Readings := mkReadings (fun _ => 0.5).

Definition play := runEvents hostSin hostCos hostSqrt.

(** A first claim, up to the start of its analysis: the two nested
    timeouts. *)
Definition firstClaim : list Event :=
  [EvClaim; EvWait 2500; EvTimer sampleReadings;
   EvWait 1500; EvTimer sampleReadings].

(** A later claim, up to the start of its analysis. *)
Definition laterClaim : list Event :=
  [EvClaim; EvWait 1000; EvTimer sampleReadings].

(** The seven ticks of one analysis. *)
Definition analysis : list Event :=
  concat (repeat [EvWait 1000; EvTimer sampleReadings] 7).

(** Level 1, analysis just started. *)
Definition analysing1 : Mirror := play firstClaim (construct false 640 480).

(** Three full rounds: level 3, the last score on display. *)
Definition afterThreeRounds : Mirror :=
  play (firstClaim ++ analysis ++ laterClaim ++ analysis
       ++ laterClaim ++ analysis)
      (construct false 640 480).

(** Four claims before the first one's timeouts have run. *)
Definition rapidFirstClaims : list Event :=
  [EvClaim; EvClaim; EvClaim; EvClaim; EvWait 2500]
  ++ repeat (EvTimer sampleReadings) 4
  ++ [EvWait 1500]
  ++ repeat (EvTimer sampleReadings) 4.

(** With a detector loaded: level 1, analysis and tracking running. *)
Definition tracking1 : Mirror := play firstClaim (construct true 640 480).

Definition twoPointFace : Face :=
  mkFace (Some [KObject (Num 100) (Num 100) Undefined;
                KArray [Num 200; Num 300]])
         None None None.

(** The tracker after one frame without a face, then one frame with the
    two-point face. *)
Definition afterFallback : Mirror :=
  play [EvFrame 0 (DetFaces [])] tracking1.

Definition afterDetection : Mirror :=
  play [EvFrame 0 (DetFaces []); EvFrame 33 (DetFaces [twoPointFace])]
       tracking1.

(** A hundred frames, 33 ms apart, in which the detector returns nothing. *)
Definition hundredEmptyFrames : list (Z * Detection) :=
  map (fun i => ((33 * Z.of_nat i)%Z, DetFaces [])) (seq 0 100).

(** A state that holds one smoothed landmark. *)
Definition onePoint : Mirror :=
  set_smoothedLandmarks [mkLandmark (Num 10) (Num 20) (Num 0)]
                        (construct true 640 480).

(** C3, counterexample: at level 1 with the analysis running
    ([isAnalyzing] true, its interval queued), a claim changes the level,
    and once the timer it queued has run a second analysis interval is
    queued next to the first. *)
Lemma claim_during_analysis_advances_level :
  isAnalyzing analysing1 = true
  /\ smileLevel analysing1 = 1%Z
  /\ smileLevel (processHumanClaim analysing1) <> smileLevel analysing1
  /\ length (filter isAnalysisTick (timers analysing1)) = 1%nat
  /\ length (filter isAnalysisTick
               (timers (play (laterClaim ++ [EvTimer sampleReadings])
                             analysing1))) = 2%nat.
Proof. vm_compute. repeat split. discriminate. Qed.

Lemma processHumanClaim_guard_witness :
  processHumanClaim afterThreeRounds = afterThreeRounds
  /\ smileLevel (processHumanClaim analysing1) = 2%Z.
Proof.
  split.
  - destruct (processHumanClaim_guarded_by_level_only afterThreeRounds)
      as (H & _).
    + vm_compute. reflexivity.
    + apply H. vm_compute. discriminate.
  - destruct (processHumanClaim_guarded_by_level_only analysing1)
      as (_ & H & _).
    + vm_compute. reflexivity.
    + destruct H as [H _].
      * vm_compute. split; reflexivity.
      * rewrite H. vm_compute. reflexivity.
Defined.

(** C4, counterexample: after three full rounds (level 3, the last score
    stored), [resetMirror] leaves the stored score record in place. *)
Lemma reset_keeps_last_attempt :
  smileLevel afterThreeRounds = 3%Z
  /\ currentSmileScoreData afterThreeRounds <> None
  /\ currentSmileScoreData (resetMirror afterThreeRounds) <> None.
Proof. vm_compute. repeat split; discriminate. Qed.

(** C5, the failing run: four claims made while the level is still 0,
    then the eight timeouts they queued, leave the level at 4, above the
    maximum 3. *)
Lemma rapid_first_claims_pass_max_level :
  reachable hostSin hostCos hostSqrt (play rapidFirstClaims (construct false 640 480))
  /\ smileLevel (play rapidFirstClaims (construct false 640 480)) = 4%Z
  /\ maxSmileLevel (play rapidFirstClaims (construct false 640 480)) = 3%Z
  /\ humanityPercentage (play rapidFirstClaims (construct false 640 480))
     = 0%Z.
Proof.
  split.
  - exists false, 640%Z, 480%Z, rapidFirstClaims.
    repeat split; discriminate.
  - vm_compute. auto.
Qed.

(** C6, counterexample: after a fallback frame the box is 192 wide while
    the landmarks span 76.8, and after the detected frame that follows
    the box is again not the extents box of the smoothed landmarks. *)
Lemma box_diverges_from_landmarks :
  boxFollowsLandmarks afterFallback = false
  /\ boxFollowsLandmarks afterDetection = false
  /\ (exists b l ls,
        faceBoundingBox afterFallback = Some b
        /\ smoothedLandmarks afterFallback = l :: ls
        /\ sameValue (box_width b) (Num 192) = true
        /\ sameValue (box_width (extentsBox l ls)) (Num 76.8) = true).
Proof.
  split; [vm_compute; reflexivity | split; [vm_compute; reflexivity |]].
  eexists; eexists; eexists.
  split; [vm_compute; reflexivity |].
  split; [vm_compute; reflexivity |].
  split; vm_compute; reflexivity.
Qed.

(** The box the fallback frame left. *)
Definition fallbackBox : Box :=
  match faceBoundingBox afterFallback with
  | Some b => b
  | None => mkBox NaN NaN NaN NaN
  end.

Lemma updateFaceBoundingBox_witness :
  exists minX maxX minY maxY : Q,
    extentsBox (hd (mkLandmark NaN NaN NaN) (realLandmarks afterFallback))
               (tl (realLandmarks afterFallback))
    = mkBox (Num ((minX + maxX) / 2)) (Num ((minY + maxY) / 2))
            (Num (maxX - minX)) (Num (maxY - minY))
    /\ faceBoundingBox (updateFaceBoundingBox afterFallback)
       = Some (mkBox
                 (Num (numberOf (box_x fallbackBox)
                       + ((minX + maxX) / 2 - numberOf (box_x fallbackBox))
                         * 0.3))
                 (Num (numberOf (box_y fallbackBox)
                       + ((minY + maxY) / 2 - numberOf (box_y fallbackBox))
                         * 0.3))
                 (Num (numberOf (box_width fallbackBox)
                       + ((maxX - minX) - numberOf (box_width fallbackBox))
                         * 0.3))
                 (Num (numberOf (box_height fallbackBox)
                       + ((maxY - minY) - numberOf (box_height fallbackBox))
                         * 0.3))).
Proof.
  destruct (updateFaceBoundingBox_blends_extents afterFallback
              (hd (mkLandmark NaN NaN NaN) (realLandmarks afterFallback))
              (tl (realLandmarks afterFallback)))
    as (minX & maxX & minY & maxY & _ & _ & _ & _ & _ & E & _ & B).
  - vm_compute. reflexivity.
  - vm_compute. repeat constructor.
  - exists minX, maxX, minY, maxY. split; [exact E |].
    destruct (B (numberOf (box_x fallbackBox)) (numberOf (box_y fallbackBox))
                (numberOf (box_width fallbackBox))
                (numberOf (box_height fallbackBox))) as (N & _).
    + vm_compute. reflexivity.
    + exact N.
Defined.

Lemma hundred_empty_frames_witness :
  Forall (fun r => exists m', r = Ok FrameFallback m'
                              /\ faceBoundingBox m' <> None)
         (snd (runFrames hostSin hostCos hundredEmptyFrames tracking1))
  /\ exists m',
      updateFacialAnalysisOverlay hostSin hostCos 3300
        (DetFaces [twoPointFace])
        (fst (runFrames hostSin hostCos hundredEmptyFrames tracking1))
      = Ok FrameDetected m'.
Proof.
  destruct (tracking_survives_detector_failure hostSin hostCos)
    as (_ & _ & T3 & T4).
  split.
  - apply T3.
    + vm_compute. reflexivity.
    + vm_compute. reflexivity.
    + vm_compute. reflexivity.
    + vm_compute. reflexivity.
  - apply T4.
    + vm_compute. reflexivity.
    + vm_compute. reflexivity.
    + vm_compute. reflexivity.
    + vm_compute. reflexivity.
    + vm_compute. reflexivity.
    + discriminate.
    + vm_compute. reflexivity.
    + vm_compute. reflexivity.
Defined.

(** C8, counterexample: the raw frames 0, 10, 20 (in x) are stored as
    0, 7 and 16.1: the second and the third raw frame differ by 10, and
    the stored point moves by more than 9, not by 7. *)
Lemma later_pair_moves_by_more :
  exists p2 p3 d,
    nth_error
      (smoothedLandmarks
         (smoothLandmarks [mkLandmark (Num 10) (Num 0) (Num 0)]
            (smoothLandmarks [mkLandmark (Num 0) (Num 0) (Num 0)]
                             (construct true 640 480)))) 0
    = Some p2
    /\ nth_error
         (smoothedLandmarks
            (smoothLandmarks [mkLandmark (Num 20) (Num 0) (Num 0)]
               (smoothLandmarks [mkLandmark (Num 10) (Num 0) (Num 0)]
                  (smoothLandmarks [mkLandmark (Num 0) (Num 0) (Num 0)]
                                   (construct true 640 480))))) 0
       = Some p3
    /\ sameValue (l0 p2) (Num 7) = true
    /\ sameValue (l0 p3) (Num 16.1) = true
    /\ jsub (l0 p3) (l0 p2) = Num d
    /\ 9 <= d
    /\ ~ d == (20 - 10) * 0.7.
Proof.
  eexists; eexists; eexists.
  split; [reflexivity |]. split; [reflexivity |].
  split; [vm_compute; reflexivity |]. split; [vm_compute; reflexivity |].
  split; [vm_compute; reflexivity |].
  split.
  - vm_compute. discriminate.
  - intros E. vm_compute in E. discriminate E.
Qed.

Lemma smoothing_witness :
  nth_error
    (smoothedLandmarks
       (smoothLandmarks [mkLandmark (Num 20) (Num 40) (Num 10)] onePoint)) 0
  = Some (mkLandmark (Num (10 + (20 - 10) * 0.7))
                     (Num (20 + (40 - 20) * 0.7))
                     (Num (0 + (10 - 0) * 0.7)))
  /\ nth_error
       (smoothedLandmarks
          (smoothLandmarks [mkLandmark (Num 3) (Num 5) (Num 0)]
             (smoothLandmarks [mkLandmark (Num 1) (Num 1) (Num 0)]
                              (construct true 640 480)))) 0
     = Some (mkLandmark (Num (1 + (3 - 1) * 0.7))
                        (Num (1 + (5 - 1) * 0.7))
                        (Num (0 + (0 - 0) * 0.7))).
Proof.
  destruct smoothing_moves_by_factor as (_ & S1 & _ & S2 & _).
  split.
  - apply (S1 onePoint [mkLandmark (Num 20) (Num 40) (Num 10)] 0%nat
              10 20 0 20 40 10); reflexivity.
  - apply (S2 (construct true 640 480)
              [mkLandmark (Num 1) (Num 1) (Num 0)]
              [mkLandmark (Num 3) (Num 5) (Num 0)]
              0%nat 1 1 0 3 5 0); reflexivity.
Defined.

Lemma fallback_box_witness :
  faceBoundingBox (fst (performFallbackFaceDetection hostSin hostCos 1000 tracking1))
  = faceBoundingBox
      (fst (performFallbackFaceDetection hostSin hostCos 1000 afterDetection))
  /\ faceBoundingBox tracking1 <> faceBoundingBox afterDetection.
Proof.
  split.
  - apply (fallback_box_depends_on_time_and_size_only hostSin hostCos
             1000 tracking1 afterDetection).
    + vm_compute. reflexivity.
    + vm_compute. reflexivity.
    + vm_compute. reflexivity.
  - vm_compute. discriminate.
Defined.

(** An object keypoint that has no x and no y. *)
Definition blankFace : Face :=
  mkFace (Some [KObject Undefined Undefined Undefined]) None None None.

(** The tracker after a frame without a face, a frame whose face has the
    blank keypoint, and a frame with the two-point face. *)
Definition afterBlank : Mirror :=
  play [EvFrame 0 (DetFaces []); EvFrame 33 (DetFaces [blankFace]);
        EvFrame 66 (DetFaces [twoPointFace])]
       tracking1.

(** C10, counterexample: after a frame whose keypoint had no x and no
    y, the landmark stored for the first keypoint of the two-point face,
    which carries x and y, has [NaN] for x and for y, and its distance
    to the second stored landmark is not a number. *)
Lemma blank_keypoint_poisons_later_frames :
  wellFormedFace twoPointFace = true
  /\ (exists p0 p1,
        realLandmarks afterBlank = [p0; p1]
        /\ l0 p0 = NaN /\ l1 p0 = NaN
        /\ numericPoint p1 = true
        /\ distance hostSqrt p0 p1 = NaN).
Proof.
  split; [reflexivity |].
  eexists; eexists. split; [vm_compute; reflexivity |].
  repeat split.
Qed.

Lemma stored_landmarks_witness :
  (exists p, convertKeypoint 640 480 (KArray [Num 200; Num 300]) = Some p
             /\ numericPoint p = true /\ l2 p = Num 0)
  /\ storedNumeric afterDetection
  /\ forall p1 p2,
      In p1 (realLandmarks afterDetection) ->
      In p2 (realLandmarks afterDetection) ->
      exists q, distance hostSqrt p1 p2 = Num q.
Proof.
  destruct (stored_landmarks_are_numeric_points hostSin hostCos hostSqrt)
    as (K & C & F & _ & D & _).
  assert (S : storedNumeric afterDetection).
  { change afterDetection
      with (stateOf (updateFacialAnalysisOverlay hostSin hostCos 33
                       (DetFaces [twoPointFace]) afterFallback)).
    apply F; [reflexivity |].
    change afterFallback
      with (stateOf (updateFacialAnalysisOverlay hostSin hostCos 0
                       (DetFaces []) tracking1)).
    apply F; [reflexivity |].
    split; constructor. }
  split; [| split].
  - destruct (K 640%Z 480%Z (KArray [Num 200; Num 300])) as (p & E & N & Z).
    + reflexivity.
    + exists p. repeat split; try assumption. apply Z. reflexivity.
  - exact S.
  - intros p1 p2 I1 I2. apply (D afterDetection); assumption.
Defined.


(** A face of 468 keypoints none of which has an x or a y. *)
Definition blankMesh : Face :=
  mkFace (Some (repeat (KObject Undefined Undefined Undefined) 468))
         None None None.

(** The tracker, detector loaded, after a frame without a face and a
    frame with the blank mesh. *)
Definition afterBlankMesh : Mirror :=
  play [EvFrame 0 (DetFaces []); EvFrame 33 (DetFaces [blankMesh])]
       tracking1.

(** With a loaded detector and a full mesh whose coordinates cannot be
    read, a state the events reach, the measured metrics are not
    numbers and the score [generateSmileScore] returns is [NaN]: not a
    number of [5,79], and not a pass either. *)
Lemma unreadable_mesh_scores_NaN :
  reachable hostSin hostCos hostSqrt afterBlankMesh
  /\ isModelLoaded afterBlankMesh = true
  /\ length (realLandmarks afterBlankMesh) = 468%nat
  /\ Js.mouthCurvature
       (subMetrics (generateSmileScore hostSqrt sampleReadings 1 afterBlankMesh))
     = NotNumber
  /\ score (generateSmileScore hostSqrt sampleReadings 1 afterBlankMesh)
     = NotNumber.
Proof.
  split.
  - exists true, 640%Z, 480%Z,
      (firstClaim ++ [EvFrame 0 (DetFaces []);
                      EvFrame 33 (DetFaces [blankMesh])]).
    split; [discriminate |]. split; [discriminate |].
    unfold afterBlankMesh, tracking1, play, runEvents.
    rewrite fold_left_app. reflexivity.
  - repeat split; vm_compute; reflexivity.
Qed.

(** The number a metric holds, 0 for an infinity or [NaN]. *)
Definition finitePart (x : jsnum) : Q :=
  match x with
  | Fin q => q
  | _ => 0
  end.

(** A face of 468 keypoints in pixels, no two at the same place. *)
Definition fullMesh : Face :=
  mkFace (Some (map (fun i : nat =>
                       KObject (Num (inject_Z (Z.of_nat i) + 100))
                               (Num (inject_Z (Z.of_nat (i mod 7)) * 10 + 200))
                               Undefined)
                    (seq 0 468)))
         None None None.

(** The tracker, detector loaded, after a frame without a face and a
    frame with the full mesh. *)
Definition afterFullMesh : Mirror :=
  play [EvFrame 0 (DetFaces []); EvFrame 33 (DetFaces [fullMesh])]
       tracking1.

Lemma generateSmileScore_witness :
  isModelLoaded afterFullMesh = true
  /\ length (realLandmarks afterFullMesh) = 468%nat
  /\ failingScore
       (score (generateSmileScore hostSqrt sampleReadings 1 afterFullMesh)).
Proof.
  split; [reflexivity |]. split; [vm_compute; reflexivity |].
  destruct (generateSmileScore_never_passes hostSqrt) as (_ & P & _).
  set (d := subMetrics
              (generateSmileScore hostSqrt sampleReadings 1 afterFullMesh)).
  apply (P sampleReadings 1%Z afterFullMesh
           (mkSubMetrics (finitePart (Js.mouthCurvature d))
                         (finitePart (Js.eyeSymmetry d))
                         (finitePart (Js.smileIntensity d))
                         (finitePart (Js.mouthWidth d))
                         (finitePart (Js.facialTension d)))).
  vm_compute. reflexivity.
Defined.

(* ================================================================== *)
(** * Further properties of the engine *)

(** Reduce field reads of assigned states, leaving arithmetic alone. *)
Ltac readFields :=
  cbn -[Z.add Z.sub Z.mul Z.max Z.min Z.leb Z.ltb Z.eqb Z.opp Z.of_nat
        Qplus Qmult Qminus Qdiv Qle_bool Qeq_bool inject_Z Qmin Qmax].

(** ** Scoring *)

Section Scoring.

Variable Math_sqrt : Q -> Q.

(** [Math.random()] returns a number in [0, 1). *)
Definition unitInterval (random : nat -> Q) : Prop :=
  forall n, 0 <= random n /\ random n < 1.

Lemma Math_min_mono (a a' b : Q) : a <= a' -> Math_min a b <= Math_min a' b.
Proof.
  intros H.
  destruct (Math_min_cases a b) as [[H1 E1] | [H1 E1]];
    destruct (Math_min_cases a' b) as [[H2 E2] | [H2 E2]];
    rewrite E1, E2; lra.
Qed.

Lemma Math_max_mono (a a' b : Q) : a <= a' -> Math_max a b <= Math_max a' b.
Proof.
  intros H.
  destruct (Math_max_cases a b) as [[H1 E1] | [H1 E1]];
    destruct (Math_max_cases a' b) as [[H2 E2] | [H2 E2]];
    rewrite E1, E2; lra.
Qed.

Lemma band_mono (b b' lo hi : Q) :
  b <= b' -> Math_max (Math_min b hi) lo <= Math_max (Math_min b' hi) lo.
Proof. intros H. apply Math_max_mono, Math_min_mono, H. Qed.

(** Rounding to one decimal keeps a positive number between two bounds
    that are themselves tenths. *)
Lemma toFixed1_between (x : Q) (lo hi : Z) :
  0 <= x -> inject_Z lo <= x * 10 -> x * 10 <= inject_Z hi ->
  Qmake lo 10 <= toFixed1 x /\ toFixed1 x <= Qmake hi 10.
Proof.
  intros P Hlo Hhi. unfold toFixed1.
  destruct (Qlt_le_dec x 0) as [Hneg | _]; [lra |].
  assert (L : (lo <= Qfloor (x * 10 + (1 # 2)))%Z).
  { rewrite <- (Qfloor_Z lo). apply Qfloor_resp_le. lra. }
  assert (U : (Qfloor (x * 10 + (1 # 2)) <= hi)%Z).
  { apply Z.lt_succ_r. rewrite Zlt_Qlt.
    apply Qle_lt_trans with (x * 10 + (1 # 2)); [apply Qfloor_le |].
    unfold Z.succ. rewrite inject_Z_plus. change (inject_Z 1) with 1. lra. }
  revert L U. generalize (Qfloor (x * 10 + (1 # 2))). intros z L U.
  unfold Qle; simpl; lia.
Qed.

(** X1: with [Math.random] in [0, 1), each simulated metric lies between
    the two ends the source gives it, and the weighted base score of
    the simulated metrics lies between 47.5 and 78. *)
Theorem simulated_metrics_ranges (random : nat -> Q) :
  unitInterval random ->
  let sm := generateSimulatedMetrics random in
  (40 <= mouthCurvature sm /\ mouthCurvature sm <= 70)
  /\ (60 <= eyeSymmetry sm /\ eyeSymmetry sm <= 85)
  /\ (45 <= smileIntensity sm /\ smileIntensity sm <= 80)
  /\ (70 <= mouthWidth sm /\ mouthWidth sm <= 90)
  /\ (30 <= facialTension sm /\ facialTension sm <= 70)
  /\ (47.5 <= weightedBase sm /\ weightedBase sm <= 78).
Proof.
  intros U.
  destruct (U 0%nat) as [A0 B0]. destruct (U 1%nat) as [A1 B1].
  destruct (U 2%nat) as [A2 B2]. destruct (U 3%nat) as [A3 B3].
  destruct (U 4%nat) as [A4 B4].
  unfold generateSimulatedMetrics, weightedBase. cbn.
  repeat split; lra.
Qed.

Lemma simulated_base_range (random : nat -> Q) :
  unitInterval random ->
  47.5 <= weightedBase (generateSimulatedMetrics random)
  /\ weightedBase (generateSimulatedMetrics random) <= 78.
Proof.
  intros U.
  destruct (U 0%nat) as [A0 B0]. destruct (U 1%nat) as [A1 B1].
  destruct (U 2%nat) as [A2 B2]. destruct (U 3%nat) as [A3 B3].
  destruct (U 4%nat) as [A4 B4].
  unfold generateSimulatedMetrics, weightedBase. cbn. split; lra.
Qed.

Lemma finalScoreOf_unclamped (baseScore rnd : Q) :
  8 <= baseScore -> baseScore <= 76 -> 0 <= rnd -> rnd < 1 ->
  finalScoreOf baseScore rnd == baseScore + (rnd - 0.5) * 6.
Proof.
  intros L U R0 R1. unfold finalScoreOf.
  destruct (Math_min_cases 79 (baseScore + (rnd - 0.5) * 6)) as [[H1 E1] | [H1 E1]];
    destruct (Math_max_cases 5 (Math_min 79 (baseScore + (rnd - 0.5) * 6)))
      as [[H2 E2] | [H2 E2]];
    rewrite E2; rewrite E1 in H2; try rewrite E1; lra.
Qed.

(** X2: without a loaded detector, at level 3 the base score is always
    the band ceiling 45 (the simulated metrics never weigh less than
    47.5), so the score returned lies in [42, 48]. *)
Theorem simulated_level3_score_is_pinned (rd : Readings) (m : Mirror) :
  unitInterval (Math_random rd) ->
  isModelLoaded m = false ->
  calculateSimulatedScore (generateSimulatedMetrics (Math_random rd)) 3 == 45
  /\ exists q,
      score (generateSmileScore Math_sqrt rd 3 m) = Fin q
      /\ 42 <= q /\ q <= 48.
Proof.
  intros U L.
  destruct (simulated_base_range _ U) as [B1 B2].
  assert (E : calculateSimulatedScore
                (generateSimulatedMetrics (Math_random rd)) 3 == 45).
  { unfold calculateSimulatedScore.
    set (b := weightedBase (generateSimulatedMetrics (Math_random rd))) in *.
    destruct (Math_min_cases b 45) as [[H1 E1] | [H1 E1]]; [lra |].
    destruct (Math_max_cases (Math_min b 45) 25) as [[H2 E2] | [H2 E2]];
      rewrite E2; rewrite E1 in H2; [lra | exact E1]. }
  split; [exact E |].
  unfold generateSmileScore. rewrite L. cbn [andb score].
  rewrite calculateSimulatedScore_finite, finalScoreOf_finite. cbn [toFixed].
  eexists. split; [reflexivity |].
  destruct (U 5%nat) as [R0 R1].
  pose proof (finalScoreOf_unclamped
                (calculateSimulatedScore
                   (generateSimulatedMetrics (Math_random rd)) 3)
                (Math_random rd 5%nat)
                ltac:(lra) ltac:(lra) R0 R1) as F.
  match goal with
  | |- context [toFixed1 ?x] =>
      destruct (toFixed1_between x 420 480) as [T1 T2]
  end.
  - lra.
  - change (inject_Z 420) with 420. lra.
  - change (inject_Z 480) with 480. lra.
  - split; lra.
Qed.

(** X3: for the levels 1, 2 and 3 and [Math.random] in [0, 1) the outer
    clamp to [5, 79] never acts: the final score is the banded base
    score plus the variance as computed, and lies between 22 and 78. *)
Theorem final_score_is_base_plus_variance
        (metrics : SubMetrics) (level : Z) (rnd : Q) :
  (1 <= level <= 3)%Z -> 0 <= rnd -> rnd < 1 ->
  (finalScoreOf (calculateRealisticScore metrics level) rnd
   == calculateRealisticScore metrics level + (rnd - 0.5) * 6
   /\ 22 <= finalScoreOf (calculateRealisticScore metrics level) rnd
   /\ finalScoreOf (calculateRealisticScore metrics level) rnd <= 78)
  /\ (finalScoreOf (calculateSimulatedScore metrics level) rnd
      == calculateSimulatedScore metrics level + (rnd - 0.5) * 6
      /\ 22 <= finalScoreOf (calculateSimulatedScore metrics level) rnd
      /\ finalScoreOf (calculateSimulatedScore metrics level) rnd <= 78).
Proof.
  intros L R0 R1.
  assert (C : (level = 1 \/ level = 2 \/ level = 3)%Z) by lia.
  assert (B : 25 <= calculateRealisticScore metrics level
              /\ calculateRealisticScore metrics level <= 75).
  { unfold calculateRealisticScore.
    destruct C as [-> | [-> | ->]];
      match goal with
      | |- context [Math_max (Math_min ?b ?hi) ?lo] =>
          destruct (clamp_band b lo hi) as (_ & X & Y); [lra |]
      end; split; lra. }
  assert (B' : 25 <= calculateSimulatedScore metrics level
               /\ calculateSimulatedScore metrics level <= 75).
  { unfold calculateSimulatedScore.
    destruct C as [-> | [-> | ->]];
      match goal with
      | |- context [Math_max (Math_min ?b ?hi) ?lo] =>
          destruct (clamp_band b lo hi) as (_ & X & Y); [lra |]
      end; split; lra. }
  destruct B as [B1 B2]. destruct B' as [B1' B2'].
  pose proof (finalScoreOf_unclamped (calculateRealisticScore metrics level)
                rnd ltac:(lra) ltac:(lra) R0 R1) as F.
  pose proof (finalScoreOf_unclamped (calculateSimulatedScore metrics level)
                rnd ltac:(lra) ltac:(lra) R0 R1) as F'.
  repeat split; lra.
Qed.

(** X4: at every level the base score does not go down when the four
    positive metrics go up and the facial tension goes down. *)
Theorem base_score_monotone (a b : SubMetrics) (level : Z) :
  mouthCurvature a <= mouthCurvature b ->
  eyeSymmetry a <= eyeSymmetry b ->
  smileIntensity a <= smileIntensity b ->
  mouthWidth a <= mouthWidth b ->
  facialTension b <= facialTension a ->
  calculateRealisticScore a level <= calculateRealisticScore b level
  /\ calculateSimulatedScore a level <= calculateSimulatedScore b level.
Proof.
  intros H1 H2 H3 H4 H5.
  assert (W : weightedBase a <= weightedBase b)
    by (unfold weightedBase; lra).
  unfold calculateRealisticScore, calculateSimulatedScore.
  destruct level as [| [p | p |] |]; try (split; exact W);
    repeat match goal with
           | |- context [match ?p with xI _ => _ | xO _ => _ | xH => _ end] =>
               destruct p
           end;
    try (split; exact W); split; apply band_mono, W.
Qed.

(** X5: with fewer than 468 stored landmarks the score does not depend
    on the object at all: a loaded detector with a partial landmark set
    (such as the six fallback points) scores exactly as no detector. *)
Theorem partial_mesh_scores_as_simulated
        (rd : Readings) (level : Z) (m m' : Mirror) :
  (length (realLandmarks m) < 468)%nat ->
  (length (realLandmarks m') < 468)%nat ->
  generateSmileScore Math_sqrt rd level m
  = generateSmileScore Math_sqrt rd level m'.
Proof.
  intros L L'. unfold generateSmileScore, calculateRealFacialMetrics.
  apply Nat.ltb_lt in L. apply Nat.ltb_lt in L'. rewrite L, L'.
  destruct (isModelLoaded m && (0 <? length (realLandmarks m))%nat);
    destruct (isModelLoaded m' && (0 <? length (realLandmarks m'))%nat);
    reflexivity.
Qed.

End Scoring.

(** ** Challenge controller *)

(** [k] analysis ticks: each a second of waiting and the timer that is
    then due. *)
Definition ticks (rd : Readings) (k : nat) : list Event :=
  concat (repeat [EvWait 1000; EvTimer rd] k).

(** The analysis interval [id] is the only queued timer, due in a second,
    with the given closure state. *)
Definition analysisRunning (m : Mirror) (id : nat) (progress : Q)
           (stepIndex : nat) : Prop :=
  timers m = [mkTimer id (clock m + 1000) (TaskAnalysisTick progress stepIndex)]
  /\ analysisTimer m = Some id
  /\ isTracking m = true.

Section Controller.

Variables Math_sin Math_cos Math_sqrt : Q -> Q.

Local Abbreviation stepH := (step Math_sin Math_cos Math_sqrt).
Local Abbreviation runH := (runEvents Math_sin Math_cos Math_sqrt).

Lemma processHumanClaim_level (m : Mirror) :
  (1 <= smileLevel m)%Z ->
  smileLevel (processHumanClaim m)
  = (if (maxSmileLevel m <=? smileLevel m)%Z
     then smileLevel m else smileLevel m + 1)%Z
  /\ maxSmileLevel (processHumanClaim m) = maxSmileLevel m
  /\ ((maxSmileLevel m <=? smileLevel m)%Z = false ->
      humanityPercentage (processHumanClaim m)
      = Z.max 0 (100 - (smileLevel m + 1) * 25))%Z
  /\ ((maxSmileLevel m <=? smileLevel m)%Z = true ->
      processHumanClaim m = m).
Proof.
  intros P. unfold processHumanClaim, updateHumanityLevel, setTimeout, setTimer.
  destruct (maxSmileLevel m <=? smileLevel m)%Z; [repeat split; discriminate |].
  assert (Z : (smileLevel m =? 0)%Z = false) by (apply Z.eqb_neq; lia).
  rewrite Z. readFields.
  destruct (Z.max 0 (100 - (smileLevel m + 1) * 25) <=? 0)%Z; readFields;
    repeat split; discriminate.
Qed.

(** X6: claims made one after the other from a level between 1 and the
    maximum add one level each until the maximum, where they stop
    counting: after [n] claims the level is [min(level + n, max)], and
    the humanity percentage still is [max(0, 100 - 25 * level)]. *)
Theorem repeated_claims_saturate (n : nat) (m : Mirror) :
  (1 <= smileLevel m <= maxSmileLevel m)%Z ->
  humanityPercentage m = Z.max 0 (100 - 25 * smileLevel m) ->
  smileLevel (Nat.iter n processHumanClaim m)
  = Z.min (smileLevel m + Z.of_nat n) (maxSmileLevel m)
  /\ maxSmileLevel (Nat.iter n processHumanClaim m) = maxSmileLevel m
  /\ humanityPercentage (Nat.iter n processHumanClaim m)
     = Z.max 0 (100 - 25 * smileLevel (Nat.iter n processHumanClaim m)).
Proof.
  intros B H. induction n as [| n (IH1 & IH2 & IH3)].
  - change (Nat.iter 0 processHumanClaim m) with m. repeat split; lia.
  - change (Nat.iter (S n) processHumanClaim m)
      with (processHumanClaim (Nat.iter n processHumanClaim m)).
    set (mn := Nat.iter n processHumanClaim m) in *.
    destruct (processHumanClaim_level mn) as (L & X & Hu & Id); [lia |].
    rewrite L, X.
    destruct (maxSmileLevel mn <=? smileLevel mn)%Z eqn:G.
    + apply Z.leb_le in G. rewrite (Id eq_refl). repeat split; lia.
    + apply Z.leb_gt in G. rewrite (Hu eq_refl). repeat split; lia.
Qed.

Lemma startFakeAnalysis_analyzing (m : Mirror) :
  isAnalyzing (startFakeAnalysis m) = true.
Proof.
  unfold startFakeAnalysis, createFacialAnalysisOverlay. readFields.
  destruct (facialOverlay m); reflexivity.
Qed.

Lemma startFakeAnalysis_scoreData (m : Mirror) :
  currentSmileScoreData (startFakeAnalysis m) = currentSmileScoreData m.
Proof.
  unfold startFakeAnalysis, createFacialAnalysisOverlay. readFields.
  destruct (facialOverlay m); reflexivity.
Qed.

Lemma runTask_analyzing (rd : Readings) (t : Timer) (m : Mirror) :
  isAnalyzing m = true -> isAnalyzing (runTask Math_sqrt rd t m) = true.
Proof.
  intros A. unfold runTask, triggerSmileVerification.
  destruct (task t) as [ | | | | progress stepIndex].
  - exact A.
  - apply startFakeAnalysis_analyzing.
  - apply startFakeAnalysis_analyzing.
  - exact A.
  - destruct (Qle_bool 100 (progress + 14.3)); [| exact A].
    readFields. destruct (analysisTimer m); exact A.
Qed.

Lemma step_analyzing (m : Mirror) (e : Event) :
  isAnalyzing m = true -> e <> EvReset -> isAnalyzing (stepH m e) = true.
Proof.
  intros A N. destruct e as [ | | dt | rd | now det]; cbn [step].
  - unfold processHumanClaim, updateHumanityLevel, setTimeout, setTimer.
    destruct (maxSmileLevel m <=? smileLevel m)%Z; [exact A |].
    destruct (smileLevel m =? 0)%Z; [exact A |]. readFields.
    destruct (Z.max 0 (100 - (smileLevel m + 1) * 25) <=? 0)%Z; exact A.
  - contradiction.
  - exact A.
  - unfold fireTimer. destruct (nextTimer (timers m)) as [t |]; [| exact A].
    destruct (due t <=? clock m)%Z; [| exact A].
    apply runTask_analyzing. exact A.
  - destruct (fixedPart_fields _ _ (frame_fixed Math_sin Math_cos now det m))
      as (X & _).
    rewrite X. exact A.
Qed.

(** X7: the end of an analysis does not clear [isAnalyzing]: once the
    flag is set, no claim, timer, wait or frame clears it; only the
    reset does. *)
Theorem isAnalyzing_cleared_only_by_reset (es : list Event) (m : Mirror) :
  isAnalyzing m = true -> ~ In EvReset es ->
  isAnalyzing (runH es m) = true.
Proof.
  revert m. induction es as [| e es IH]; intros m A N; cbn.
  - exact A.
  - apply IH.
    + apply step_analyzing; [exact A |]. intros ->. apply N. left. reflexivity.
    + intros I. apply N. right. exact I.
Qed.

Lemma runEvents_app (es es' : list Event) (m : Mirror) :
  runH (es ++ es') m = runH es' (runH es m).
Proof. unfold runEvents. apply fold_left_app. Qed.

Lemma ticks_snoc (rd : Readings) (k : nat) (m : Mirror) :
  runH (ticks rd (S k)) m
  = runH [EvWait 1000; EvTimer rd] (runH (ticks rd k) m).
Proof.
  rewrite <- runEvents_app. f_equal. unfold ticks.
  induction k as [| k IH]; [reflexivity |].
  change (concat (repeat [EvWait 1000; EvTimer rd] (S (S k))))
    with ([EvWait 1000; EvTimer rd]
            ++ concat (repeat [EvWait 1000; EvTimer rd] (S k))).
  rewrite IH at 1.
  change (concat (repeat [EvWait 1000; EvTimer rd] (S k)))
    with ([EvWait 1000; EvTimer rd]
            ++ concat (repeat [EvWait 1000; EvTimer rd] k)).
  rewrite app_assoc. reflexivity.
Qed.

(** One tick of a running analysis that has not reached 100. *)
Lemma tick_continues (rd : Readings) (m : Mirror) (id : nat) (p : Q) (s : nat) :
  analysisRunning m id p s ->
  Qle_bool 100 (p + 14.3) = false ->
  let m' := runH [EvWait 1000; EvTimer rd] m in
  analysisRunning m' id (p + 14.3) (if (s <? 3)%nat then S s else s)
  /\ fixedPart m' = fixedPart m
  /\ facialOverlay m' = facialOverlay m
  /\ clock m' = (clock m + 1000)%Z.
Proof.
  intros (T & A & K) G. cbn [runEvents fold_left step].
  unfold fireTimer. readFields. rewrite T. cbn [nextTimer due].
  assert (D : (clock m + 1000 <=? clock m + Z.max 0 1000)%Z = true)
    by (apply Z.leb_le; lia).
  rewrite D. unfold runTask. cbn [task timerId filter].
  rewrite Nat.eqb_refl. cbn [negb app]. rewrite G.
  unfold analysisRunning. readFields.
  repeat split; try assumption.
Qed.

(** The tick that reaches 100. *)
Lemma tick_finishes (rd : Readings) (m : Mirror) (id : nat) (p : Q) (s : nat) :
  analysisRunning m id p s ->
  Qle_bool 100 (p + 14.3) = true ->
  let m' := runH [EvWait 1000; EvTimer rd] m in
  timers m' = []
  /\ isTracking m' = false
  /\ facialOverlay m' = false
  /\ fixedPart m' = fixedPart m
  /\ clock m' = (clock m + 1000)%Z.
Proof.
  intros (T & A & K) G. cbn [runEvents fold_left step].
  unfold fireTimer. readFields. rewrite T. cbn [nextTimer due].
  assert (D : (clock m + 1000 <=? clock m + Z.max 0 1000)%Z = true)
    by (apply Z.leb_le; lia).
  rewrite D. unfold runTask. cbn [task timerId filter].
  rewrite Nat.eqb_refl. cbn [negb app]. rewrite G.
  readFields. rewrite A. unfold clearInterval, stopOverlayUpdates. readFields.
  rewrite Nat.eqb_refl. cbn [negb]. repeat split.
Qed.

Lemma startFakeAnalysis_running (m : Mirror) :
  timers m = [] ->
  analysisRunning (startFakeAnalysis m) (nextTimerId m) 0 0
  /\ fixedPart (startFakeAnalysis m)
     = fixedPart (set_isAnalyzing true m)
  /\ clock (startFakeAnalysis m) = clock m.
Proof.
  intros T. unfold startFakeAnalysis, createFacialAnalysisOverlay,
    analysisRunning, setTimer.
  readFields. destruct (facialOverlay m); readFields; rewrite T;
    (split; [split; [| split] | split]); reflexivity.
Qed.

Lemma fixedPart_all (m m' : Mirror) :
  fixedPart m' = fixedPart m ->
  smileLevel m' = smileLevel m
  /\ maxSmileLevel m' = maxSmileLevel m
  /\ humanityPercentage m' = humanityPercentage m
  /\ currentSmileScoreData m' = currentSmileScoreData m
  /\ isAnalyzing m' = isAnalyzing m.
Proof. unfold fixedPart. intros E. inversion E. auto. Qed.

(** X8: an analysis started with no other timer queued runs for exactly
    seven ticks: after fewer the interval is still queued and tracking
    is on; the seventh tick clears the interval, stops tracking and
    removes the overlay, seven seconds after the start, with the level,
    the percentage and the stored score untouched and [isAnalyzing]
    still set. *)
Theorem analysis_lasts_seven_ticks (rd : Readings) (m : Mirror) :
  timers m = [] ->
  (forall k, (k < 7)%nat ->
             isTracking (runH (ticks rd k) (startFakeAnalysis m)) = true
             /\ length (timers (runH (ticks rd k) (startFakeAnalysis m)))
                = 1%nat)
  /\ timers (runH (ticks rd 7) (startFakeAnalysis m)) = []
  /\ isTracking (runH (ticks rd 7) (startFakeAnalysis m)) = false
  /\ facialOverlay (runH (ticks rd 7) (startFakeAnalysis m)) = false
  /\ isAnalyzing (runH (ticks rd 7) (startFakeAnalysis m)) = true
  /\ clock (runH (ticks rd 7) (startFakeAnalysis m)) = (clock m + 7000)%Z
  /\ session (runH (ticks rd 7) (startFakeAnalysis m)) = session m
  /\ currentSmileScoreData (runH (ticks rd 7) (startFakeAnalysis m))
     = currentSmileScoreData m.
Proof.
  intros T.
  destruct (startFakeAnalysis_running m T) as (R0 & F0 & C0).
  set (a := startFakeAnalysis m) in *.
  destruct (tick_continues rd a _ _ _ R0) as (R1 & F1 & _ & C1);
    [vm_compute; reflexivity |].
  set (a1 := runH [EvWait 1000; EvTimer rd] a) in *.
  destruct (tick_continues rd a1 _ _ _ R1) as (R2 & F2 & _ & C2);
    [vm_compute; reflexivity |].
  set (a2 := runH [EvWait 1000; EvTimer rd] a1) in *.
  destruct (tick_continues rd a2 _ _ _ R2) as (R3 & F3 & _ & C3);
    [vm_compute; reflexivity |].
  set (a3 := runH [EvWait 1000; EvTimer rd] a2) in *.
  destruct (tick_continues rd a3 _ _ _ R3) as (R4 & F4 & _ & C4);
    [vm_compute; reflexivity |].
  set (a4 := runH [EvWait 1000; EvTimer rd] a3) in *.
  destruct (tick_continues rd a4 _ _ _ R4) as (R5 & F5 & _ & C5);
    [vm_compute; reflexivity |].
  set (a5 := runH [EvWait 1000; EvTimer rd] a4) in *.
  destruct (tick_continues rd a5 _ _ _ R5) as (R6 & F6 & _ & C6);
    [vm_compute; reflexivity |].
  set (a6 := runH [EvWait 1000; EvTimer rd] a5) in *.
  destruct (tick_finishes rd a6 _ _ _ R6) as (T7 & K7 & O7 & F7 & C7);
    [vm_compute; reflexivity |].
  set (a7 := runH [EvWait 1000; EvTimer rd] a6) in *.
  assert (E1 : runH (ticks rd 1) a = a1)
    by (rewrite (ticks_snoc rd 0 a); reflexivity).
  assert (E2 : runH (ticks rd 2) a = a2)
    by (rewrite (ticks_snoc rd 1 a), E1; reflexivity).
  assert (E3 : runH (ticks rd 3) a = a3)
    by (rewrite (ticks_snoc rd 2 a), E2; reflexivity).
  assert (E4 : runH (ticks rd 4) a = a4)
    by (rewrite (ticks_snoc rd 3 a), E3; reflexivity).
  assert (E5 : runH (ticks rd 5) a = a5)
    by (rewrite (ticks_snoc rd 4 a), E4; reflexivity).
  assert (E6 : runH (ticks rd 6) a = a6)
    by (rewrite (ticks_snoc rd 5 a), E5; reflexivity).
  assert (E7 : runH (ticks rd 7) a = a7)
    by (rewrite (ticks_snoc rd 6 a), E6; reflexivity).
  split.
  - intros k K.
    assert (Q : forall x id p s, analysisRunning x id p s ->
                isTracking x = true /\ length (timers x) = 1%nat).
    { intros x id p s (X1 & _ & X3). rewrite X1. auto. }
    destruct k as [| [| [| [| [| [| [| k]]]]]]]; [| | | | | | | lia].
    + apply (Q _ _ _ _ R0).
    + rewrite E1. apply (Q _ _ _ _ R1).
    + rewrite E2. apply (Q _ _ _ _ R2).
    + rewrite E3. apply (Q _ _ _ _ R3).
    + rewrite E4. apply (Q _ _ _ _ R4).
    + rewrite E5. apply (Q _ _ _ _ R5).
    + rewrite E6. apply (Q _ _ _ _ R6).
  - rewrite E7.
    assert (F : fixedPart a7 = fixedPart (set_isAnalyzing true m)) by congruence.
    destruct (fixedPart_all _ _ F) as (X1 & X2 & X3 & X4 & X5).
    split; [exact T7 | split; [exact K7 | split; [exact O7 | split;
      [exact X5 | split; [lia | split; [| exact X4]]]]]].
    unfold session. rewrite X1, X2, X3. reflexivity.
Qed.



(** X10: a tick always clears the interval named by [analysisTimer], not
    the interval that is ticking.  An interval whose id is no longer in
    [analysisTimer] (a second analysis has started meanwhile) therefore
    stays queued after each of its ticks, whatever its progress; and
    when its progress reaches 100 it cancels the newer interval and
    stops the tracking. *)
Theorem stale_interval_never_stops
        (rd : Readings) (t : Timer) (progress : Q) (stepIndex : nat)
        (m : Mirror) :
  task t = TaskAnalysisTick progress stepIndex ->
  analysisTimer m <> Some (timerId t) ->
  (exists t', In t' (timers (runTask Math_sqrt rd t m))
              /\ timerId t' = timerId t
              /\ isAnalysisTick t' = true)
  /\ (Qle_bool 100 (progress + 14.3) = true ->
      isTracking (runTask Math_sqrt rd t m) = false
      /\ forall t', In t' (timers (runTask Math_sqrt rd t m)) ->
                    analysisTimer m <> Some (timerId t')).
Proof.
  intros E N. unfold runTask. rewrite E. cbv zeta.
  set (t1 := mkTimer (timerId t) (clock m + 1000)
                     (TaskAnalysisTick (progress + 14.3)
                        (if (stepIndex <? 3)%nat then S stepIndex
                         else stepIndex))).
  destruct (Qle_bool 100 (progress + 14.3)).
  - unfold stopOverlayUpdates, clearInterval. readFields.
    destruct (analysisTimer m) as [id |] eqn:A; readFields.
    + split.
      * exists t1. split; [| split; reflexivity].
        apply filter_In. split; [apply in_or_app; right; left; reflexivity |].
        apply negb_true_iff, Nat.eqb_neq. cbn [timerId t1]. intros X.
        apply N. rewrite X. reflexivity.
      * intros _. split; [reflexivity |]. intros t' I.
        apply filter_In in I. destruct I as [_ I].
        apply negb_true_iff, Nat.eqb_neq in I. intros X. inversion X. auto.
    + split.
      * exists t1. split; [| split; reflexivity].
        apply in_or_app; right; left; reflexivity.
      * intros _. split; [reflexivity |]. intros t' _. discriminate.
  - split; [| discriminate].
    exists t1. split; [| split; reflexivity].
    readFields. apply in_or_app; right; left; reflexivity.
Qed.

(** X11: while the humanity percentage is [max(0, 100 - 25 * level)],
    [updateHumanityLevel] queues the failure page exactly when the level
    is 4 or more: up to the maximum level 3 it changes nothing. *)
Theorem failure_page_needs_level_four (m : Mirror) :
  humanityPercentage m = Z.max 0 (100 - 25 * smileLevel m) ->
  ((smileLevel m <= 3)%Z -> updateHumanityLevel m = m)
  /\ ((4 <= smileLevel m)%Z ->
      timers (updateHumanityLevel m)
      = timers m ++ [mkTimer (nextTimerId m) (clock m + 1000) TaskShowFailure]).
Proof.
  intros H. unfold updateHumanityLevel, setTimeout, setTimer. split; intros L.
  - assert (G : (humanityPercentage m <=? 0)%Z = false)
      by (apply Z.leb_gt; lia).
    rewrite G. reflexivity.
  - assert (G : (humanityPercentage m <=? 0)%Z = true)
      by (apply Z.leb_le; lia).
    rewrite G. reflexivity.
Qed.

(** The score of a stored record, if any, is a number of [5, 79] or
    [NaN], and it is a number when the metrics stored with it are
    finite. *)
Definition storedScoreFails (m : Mirror) : Prop :=
  forall d,
    currentSmileScoreData m = Some d ->
    (score d = NotNumber \/ failingScore (score d))
    /\ (forall metrics,
          subMetrics d = finiteMetrics metrics -> failingScore (score d)).

Lemma generateSmileScore_fails (rd : Readings) (level : Z) (m : Mirror) :
  (score (generateSmileScore Math_sqrt rd level m) = NotNumber
   \/ failingScore (score (generateSmileScore Math_sqrt rd level m)))
  /\ (forall metrics,
        subMetrics (generateSmileScore Math_sqrt rd level m)
        = finiteMetrics metrics ->
        failingScore (score (generateSmileScore Math_sqrt rd level m)))
  /\ (isModelLoaded m = false ->
      failingScore (score (generateSmileScore Math_sqrt rd level m))).
Proof.
  split; [| split].
  - destruct (generateSmileScore_base Math_sqrt rd level m)
      as (b & n & S & _).
    rewrite S. apply any_score_fails.
  - intros metrics E.
    destruct (generateSmileScore_base Math_sqrt rd level m)
      as (b & n & S & [B | B]);
      rewrite S, B, E;
      [rewrite calculateRealisticScore_finite
      | rewrite calculateSimulatedScore_finite];
      apply finite_score_fails.
  - intros L. unfold generateSmileScore. rewrite L. cbn [andb score].
    rewrite calculateSimulatedScore_finite. apply finite_score_fails.
Qed.

(** What an event does to the stored score record: nothing, or a new
    record from [generateSmileScore]. *)
Lemma step_score (m : Mirror) (e : Event) :
  currentSmileScoreData (stepH m e) = currentSmileScoreData m
  \/ exists rd level m0,
      currentSmileScoreData (stepH m e)
      = Some (generateSmileScore Math_sqrt rd level m0)
      /\ isModelLoaded m0 = isModelLoaded m.
Proof.
  destruct e as [ | | dt | rd | now det]; cbn [step].
  - left. unfold processHumanClaim, updateHumanityLevel, setTimeout, setTimer.
    destruct (maxSmileLevel m <=? smileLevel m)%Z; [reflexivity |].
    destruct (smileLevel m =? 0)%Z; [reflexivity |]. readFields.
    destruct (Z.max 0 (100 - (smileLevel m + 1) * 25) <=? 0)%Z; reflexivity.
  - left. destruct (resetMirror_fields m) as (_ & _ & _ & _ & X). exact X.
  - left. reflexivity.
  - unfold fireTimer. destruct (nextTimer (timers m)) as [t |]; [| now left].
    destruct (due t <=? clock m)%Z; [| now left].
    unfold runTask, triggerSmileVerification.
    destruct (task t) as [ | | | | progress stepIndex].
    + left. reflexivity.
    + right. rewrite startFakeAnalysis_scoreData. readFields.
      eexists; eexists; eexists. split; [reflexivity |].
      unfold updateHumanityLevel, setTimeout, setTimer. readFields.
      destruct (Z.max 0 (100 - (smileLevel m + 1) * 25) <=? 0)%Z; reflexivity.
    + right. rewrite startFakeAnalysis_scoreData. readFields.
      eexists; eexists; eexists. split; reflexivity.
    + left. reflexivity.
    + left. destruct (Qle_bool 100 (progress + 14.3)); [| reflexivity].
      readFields. destruct (analysisTimer m); reflexivity.
  - left. destruct (fixedPart_all _ _ (frame_fixed Math_sin Math_cos now det m))
      as (_ & _ & _ & X & _).
    exact X.
Qed.

Lemma step_loaded (m : Mirror) (e : Event) :
  isModelLoaded (stepH m e) = isModelLoaded m.
Proof.
  destruct e as [ | | dt | rd | now det]; cbn [step].
  - unfold processHumanClaim, updateHumanityLevel, setTimeout, setTimer.
    destruct (maxSmileLevel m <=? smileLevel m)%Z; [reflexivity |].
    destruct (smileLevel m =? 0)%Z; [reflexivity |]. readFields.
    destruct (Z.max 0 (100 - (smileLevel m + 1) * 25) <=? 0)%Z; reflexivity.
  - unfold resetMirror. readFields. destruct (analysisTimer m); reflexivity.
  - reflexivity.
  - unfold fireTimer. destruct (nextTimer (timers m)) as [t |]; [| reflexivity].
    destruct (due t <=? clock m)%Z; [| reflexivity].
    unfold runTask, triggerSmileVerification, startFakeAnalysis,
      createFacialAnalysisOverlay, updateHumanityLevel, setTimeout, setTimer.
    destruct (task t) as [ | | | | progress stepIndex]; readFields.
    + reflexivity.
    + destruct (Z.max 0 (100 - (smileLevel m + 1) * 25) <=? 0)%Z; readFields;
        destruct (facialOverlay m); reflexivity.
    + destruct (facialOverlay m); reflexivity.
    + reflexivity.
    + destruct (Qle_bool 100 (progress + 14.3)); [| reflexivity].
      readFields. destruct (analysisTimer m); reflexivity.
  - destruct (fixedPart_fields _ _ (frame_fixed Math_sin Math_cos now det m))
      as (_ & X & _).
    exact X.
Qed.

(** X12: in every reachable state the stored score, if there is one,
    is a number of [5, 79] or [NaN], never a number from 80 on; it is a
    number of [5, 79] whenever the metrics stored with it are finite,
    and always when the detector did not load; and once a score is
    stored no event, the reset included, removes it. *)
Theorem stored_score_stays_and_fails :
  (forall m, reachable Math_sin Math_cos Math_sqrt m -> storedScoreFails m)
  /\ (forall w h es d,
        currentSmileScoreData (runH es (construct false w h)) = Some d ->
        failingScore (score d))
  /\ (forall es m, currentSmileScoreData m <> None ->
                   currentSmileScoreData (runH es m) <> None).
Proof.
  split; [| split].
  - intros m (loaded & w & h & es & _ & _ & ->).
    assert (G : forall es m0, storedScoreFails m0 ->
                              storedScoreFails (runH es m0)).
    { induction es0 as [| e es0 IH]; intros m0 S; [exact S |].
      cbn. apply IH.
      destruct (step_score m0 e) as [E | (rd & level & m1 & E & _)];
        intros d D; rewrite E in D.
      - apply S, D.
      - inversion D.
        destruct (generateSmileScore_fails rd level m1) as (A & B & _).
        split; [exact A | exact B]. }
    apply G. intros d D. discriminate.
  - intros w h es.
    assert (G : forall es m0,
              isModelLoaded m0 = false ->
              (forall d, currentSmileScoreData m0 = Some d ->
                         failingScore (score d)) ->
              forall d, currentSmileScoreData (runH es m0) = Some d ->
                        failingScore (score d)).
    { induction es0 as [| e es0 IH]; intros m0 L S; [exact S |].
      cbn. apply IH; [rewrite step_loaded; exact L |].
      intros d D.
      destruct (step_score m0 e) as [E | (rd & level & m1 & E & L1)];
        rewrite E in D.
      - apply S, D.
      - inversion D.
        destruct (generateSmileScore_fails rd level m1) as (_ & _ & F).
        apply F. rewrite L1. exact L. }
    apply G; [reflexivity |]. intros d D. discriminate.
  - induction es as [| e es IH]; intros m S; [exact S |].
    cbn. apply IH.
    destruct (step_score m e) as [E | (rd & level & m1 & E & _)]; rewrite E;
      [exact S | discriminate].
Qed.

End Controller.

(** ** Landmark tracker *)

Lemma convertKeypoints_length (w h : Z) (kps : list Keypoint)
      (ps : list Landmark) :
  convertKeypoints w h kps = Some ps -> length ps = length kps.
Proof.
  revert ps. induction kps as [| k ks IH]; intros ps E; cbn in E.
  - inversion E. reflexivity.
  - destruct (convertKeypoint w h k) as [p |]; [| discriminate].
    destruct (convertKeypoints w h ks) as [qs |]; [| discriminate].
    inversion E. cbn. rewrite (IH qs eq_refl). reflexivity.
Qed.

Lemma mapi_from_length {A B : Type} (f : A -> nat -> B) (i : nat) (l : list A) :
  length (mapi_from f i l) = length l.
Proof.
  revert i. induction l as [| a rest IH]; intros i; cbn;
    [reflexivity | rewrite IH; reflexivity].
Qed.

Lemma smoothLandmarks_length (new : list Landmark) (m : Mirror) :
  length (smoothedLandmarks (smoothLandmarks new m)) = length new.
Proof.
  unfold smoothLandmarks. destruct (smoothedLandmarks m); readFields;
    [reflexivity | apply mapi_from_length].
Qed.

(** X13: reading a face whose chosen keypoint list can be read stores
    exactly one landmark per keypoint, in both landmark fields, whether
    the frame is the first or is smoothed into stored landmarks of any
    other length; on the first frame the stored landmarks are the
    converted keypoints, in order. *)
Theorem extraction_keeps_count
        (face : Face) (m : Mirror) (k : Keypoint) (ks : list Keypoint) :
  selectKeypoints face = Some (k :: ks) ->
  readable face = true ->
  exists m',
    extractLandmarks face m = Ok tt m'
    /\ length (realLandmarks m') = length (k :: ks)
    /\ realLandmarks m' = smoothedLandmarks m'
    /\ (realLandmarks m = [] ->
        convertKeypoints (videoWidth m) (videoHeight m) (k :: ks)
        = Some (realLandmarks m')).
Proof.
  intros S R. unfold readable in R. rewrite S in R.
  destruct (convertKeypoints_readable (videoWidth m) (videoHeight m) _ R)
    as (ps & E).
  pose proof (convertKeypoints_length _ _ _ _ E) as L.
  unfold extractLandmarks, bind, gets, run. rewrite S, E.
  destruct (realLandmarks m) as [| old olds] eqn:O.
  - eexists. split; [reflexivity |]. readFields. repeat split; auto.
  - eexists. split; [reflexivity |].
    rewrite smoothLandmarks_aligned, smoothLandmarks_length.
    repeat split; [exact L | discriminate].
Qed.

(** A stored point whose three slots are the given numbers, up to the
    fraction that represents them. *)
Definition pointIs (p : Landmark) (x y z : Q) : Prop :=
  exists px py pz,
    p = mkLandmark (Num px) (Num py) (Num pz)
    /\ px == x /\ py == y /\ pz == z.

(** X14: smoothing never overshoots: each coordinate of the stored point
    lies between the old stored value and the new raw value. *)
Theorem smoothing_stays_between
        (m : Mirror) (newLandmarks : list Landmark) (index : nat)
        (ox oy oz nx ny nz : Q) :
  nth_error (smoothedLandmarks m) index
  = Some (mkLandmark (Num ox) (Num oy) (Num oz)) ->
  nth_error newLandmarks index
  = Some (mkLandmark (Num nx) (Num ny) (Num nz)) ->
  exists sx sy sz,
    nth_error (smoothedLandmarks (smoothLandmarks newLandmarks m)) index
    = Some (mkLandmark (Num sx) (Num sy) (Num sz))
    /\ (Qmin ox nx <= sx /\ sx <= Qmax ox nx)
    /\ (Qmin oy ny <= sy /\ sy <= Qmax oy ny)
    /\ (Qmin oz nz <= sz /\ sz <= Qmax oz nz).
Proof.
  intros O N. rewrite (smoothLandmarks_nth _ _ _ _ _ O N).
  assert (B : forall o n, Qmin o n <= o + (n - o) * 0.7
                          /\ o + (n - o) * 0.7 <= Qmax o n).
  { intros o n.
    destruct (Q.min_spec o n) as [[H1 E1] | [H1 E1]];
      destruct (Q.max_spec o n) as [[H2 E2] | [H2 E2]];
      rewrite E1, E2; split; lra. }
  eexists; eexists; eexists. split; [reflexivity |].
  unfold landmarkSmoothingFactor. repeat split; apply B.
Qed.

Lemma smooth_step_between (s r : Q) :
  (Qmin s r <= s + (r - s) * 0.7 /\ s + (r - s) * 0.7 <= Qmax s r)
  /\ Qabs (s + (r - s) * 0.7 - r) <= Qabs (s - r).
Proof.
  split.
  - destruct (Q.min_spec s r) as [[H1 E1] | [H1 E1]];
      destruct (Q.max_spec s r) as [[H2 E2] | [H2 E2]];
      rewrite E1, E2; split; lra.
  - apply Qabs_case; intros A; apply Qabs_case; intros B; lra.
Qed.

Lemma between_trans (o r s t : Q) :
  Qmin o r <= s /\ s <= Qmax o r ->
  Qmin s r <= t /\ t <= Qmax s r ->
  Qmin o r <= t /\ t <= Qmax o r.
Proof.
  intros [S1 S2] [T1 T2].
  destruct (Q.min_spec o r) as [[H1 E1] | [H1 E1]];
    destruct (Q.max_spec o r) as [[H2 E2] | [H2 E2]];
    destruct (Q.min_spec s r) as [[H3 E3] | [H3 E3]];
    destruct (Q.max_spec s r) as [[H4 E4] | [H4 E4]];
    rewrite E1 in *; rewrite E2 in *; rewrite E3 in T1; rewrite E4 in T2;
    split; lra.
Qed.

(** X15: smoothing the same raw frame again and again never moves a
    stored coordinate away from the raw value.  After any number [n] of
    rounds the coordinate lies between the value first stored and the
    raw value, the next round leaves it between its value and the raw
    value, and its distance to the raw value does not grow. *)
Theorem smoothing_approaches_raw
        (n : nat) (m : Mirror) (raw : list Landmark) (index : nat)
        (ox oy oz rx ry rz : Q) :
  nth_error (smoothedLandmarks m) index
  = Some (mkLandmark (Num ox) (Num oy) (Num oz)) ->
  nth_error raw index = Some (mkLandmark (Num rx) (Num ry) (Num rz)) ->
  exists sx sy sz tx ty tz,
    nth_error (smoothedLandmarks (Nat.iter n (smoothLandmarks raw) m)) index
    = Some (mkLandmark (Num sx) (Num sy) (Num sz))
    /\ nth_error
         (smoothedLandmarks (Nat.iter (S n) (smoothLandmarks raw) m)) index
       = Some (mkLandmark (Num tx) (Num ty) (Num tz))
    /\ ((Qmin ox rx <= sx /\ sx <= Qmax ox rx)
        /\ (Qmin oy ry <= sy /\ sy <= Qmax oy ry)
        /\ (Qmin oz rz <= sz /\ sz <= Qmax oz rz))
    /\ ((Qmin sx rx <= tx /\ tx <= Qmax sx rx)
        /\ (Qmin sy ry <= ty /\ ty <= Qmax sy ry)
        /\ (Qmin sz rz <= tz /\ tz <= Qmax sz rz))
    /\ (Qabs (tx - rx) <= Qabs (sx - rx)
        /\ Qabs (ty - ry) <= Qabs (sy - ry)
        /\ Qabs (tz - rz) <= Qabs (sz - rz)).
Proof.
  intros O R.
  assert (G : exists sx sy sz,
            nth_error (smoothedLandmarks (Nat.iter n (smoothLandmarks raw) m))
                      index
            = Some (mkLandmark (Num sx) (Num sy) (Num sz))
            /\ (Qmin ox rx <= sx /\ sx <= Qmax ox rx)
            /\ (Qmin oy ry <= sy /\ sy <= Qmax oy ry)
            /\ (Qmin oz rz <= sz /\ sz <= Qmax oz rz)).
  { induction n as [| n (sx & sy & sz & St & X & Y & Z)].
    - exists ox, oy, oz. split; [exact O |].
      repeat split; try apply Q.le_min_l; apply Q.le_max_l.
    - change (Nat.iter (S n) (smoothLandmarks raw) m)
        with (smoothLandmarks raw (Nat.iter n (smoothLandmarks raw) m)).
      rewrite (smoothLandmarks_nth _ _ _ _ _ St R).
      eexists; eexists; eexists. split; [reflexivity |].
      unfold landmarkSmoothingFactor.
      split; [| split];
        [apply (between_trans ox rx sx) | apply (between_trans oy ry sy)
         | apply (between_trans oz rz sz)];
        try assumption; apply smooth_step_between. }
  destruct G as (sx & sy & sz & St & X & Y & Z).
  exists sx, sy, sz.
  change (Nat.iter (S n) (smoothLandmarks raw) m)
    with (smoothLandmarks raw (Nat.iter n (smoothLandmarks raw) m)).
  rewrite (smoothLandmarks_nth _ _ _ _ _ St R).
  eexists; eexists; eexists. split; [exact St |]. split; [reflexivity |].
  unfold landmarkSmoothingFactor.
  split; [repeat split; tauto |].
  split; repeat split; apply smooth_step_between.
Qed.

(** X16: a raw point with no stored predecessor is taken as it is: on
    the very first frame the whole raw frame is stored unchanged, and
    when the stored frame is shorter than the raw one the extra points
    are stored with their raw values. *)
Theorem smoothing_without_predecessor :
  (forall (m : Mirror) (newLandmarks : list Landmark),
      smoothedLandmarks m = [] ->
      smoothedLandmarks (smoothLandmarks newLandmarks m) = newLandmarks
      /\ realLandmarks (smoothLandmarks newLandmarks m) = newLandmarks)
  /\ (forall (m : Mirror) (newLandmarks : list Landmark) (index : nat)
             (nx ny nz : Q),
        nth_error (smoothedLandmarks m) index = None ->
        nth_error newLandmarks index
        = Some (mkLandmark (Num nx) (Num ny) (Num nz)) ->
        exists p,
          nth_error (smoothedLandmarks (smoothLandmarks newLandmarks m)) index
          = Some p
          /\ pointIs p nx ny nz).
Proof.
  split.
  - intros m new E. unfold smoothLandmarks. rewrite E. split; reflexivity.
  - intros m new index nx ny nz O N. unfold smoothLandmarks.
    destruct (smoothedLandmarks m) as [| o os] eqn:S.
    + readFields. rewrite N. eexists. split; [reflexivity |].
      exists nx, ny, nz. repeat split; reflexivity.
    + readFields. unfold mapi. rewrite nth_error_mapi_from, N. cbn.
      rewrite O. eexists. split; [reflexivity |].
      eexists; eexists; eexists. split; [reflexivity |].
      unfold landmarkSmoothingFactor. repeat split; ring.
Qed.

Section Tracker.

Variables Math_sin Math_cos Math_sqrt : Q -> Q.

Local Abbreviation frame := (updateFacialAnalysisOverlay Math_sin Math_cos).
Local Abbreviation fallback := (performFallbackFaceDetection Math_sin Math_cos).

(** X17: a fallback frame on a video of positive size stores a numeric
    box and six landmarks computed from it, the same in both landmark
    fields.  With [centerX], [centerY], [width] and [height] the fields
    of the box divided by the video size and multiplied by it again, as
    the code computes them, the landmarks are the eyes at
    [centerX -/+ width * 0.2] and [centerY - height * 0.15], the nose at
    the centre, the mouth corners at [centerX -/+ width * 0.15] and
    [centerY + height * 0.2], and the chin at [centerY + height * 0.35],
    all with z = 0.  When the width of the box is not negative the
    points are ordered from left to right as left eye, left mouth
    corner, nose, right mouth corner, right eye; when its height is not
    negative they are ordered from top to bottom as eyes, nose, mouth,
    chin. *)
Theorem fallback_landmarks_layout (now : Z) (m : Mirror) :
  (0 < videoWidth m)%Z -> (0 < videoHeight m)%Z ->
  exists bx by_ bw bh : Q,
    faceBoundingBox (fst (fallback now m))
    = Some (mkBox (Num bx) (Num by_) (Num bw) (Num bh))
    /\ (let centerX := bx / inject_Z (videoWidth m) * inject_Z (videoWidth m) in
        let centerY :=
          by_ / inject_Z (videoHeight m) * inject_Z (videoHeight m) in
        let width := bw / inject_Z (videoWidth m) * inject_Z (videoWidth m) in
        let height :=
          bh / inject_Z (videoHeight m) * inject_Z (videoHeight m) in
        realLandmarks (fst (fallback now m))
        = [mkLandmark (Num (centerX - width * 0.2))
                      (Num (centerY - height * 0.15)) (Num 0);
           mkLandmark (Num (centerX + width * 0.2))
                      (Num (centerY - height * 0.15)) (Num 0);
           mkLandmark (Num centerX) (Num centerY) (Num 0);
           mkLandmark (Num (centerX - width * 0.15))
                      (Num (centerY + height * 0.2)) (Num 0);
           mkLandmark (Num (centerX + width * 0.15))
                      (Num (centerY + height * 0.2)) (Num 0);
           mkLandmark (Num centerX) (Num (centerY + height * 0.35)) (Num 0)]
        /\ smoothedLandmarks (fst (fallback now m))
           = realLandmarks (fst (fallback now m))
        /\ (0 <= bw ->
            centerX - width * 0.2 <= centerX - width * 0.15
            /\ centerX - width * 0.15 <= centerX
            /\ centerX <= centerX + width * 0.15
            /\ centerX + width * 0.15 <= centerX + width * 0.2)
        /\ (0 <= bh ->
            centerY - height * 0.15 <= centerY
            /\ centerY <= centerY + height * 0.2
            /\ centerY + height * 0.2 <= centerY + height * 0.35)).
Proof.
  intros W H.
  assert (W' : 0 < inject_Z (videoWidth m))
    by (unfold Qlt; cbn; lia).
  assert (H' : 0 < inject_Z (videoHeight m))
    by (unfold Qlt; cbn; lia).
  unfold performFallbackFaceDetection.
  rewrite (proj2 (Z.eqb_neq _ _) (not_eq_sym (Z.lt_neq _ _ W))),
    (proj2 (Z.eqb_neq _ _) (not_eq_sym (Z.lt_neq _ _ H))).
  cbn [orb fst]. unfold createBasicLandmarksFromBoundingBox. readFields.
  do 4 eexists.
  split; [reflexivity |]. cbv zeta.
  split; [reflexivity |]. split; [reflexivity |].
  match goal with
  | |- (0 <= ?a -> _) /\ (0 <= ?b -> _) =>
      generalize a, b; intros bw bh
  end.
  assert (Cw : bw / inject_Z (videoWidth m) * inject_Z (videoWidth m) == bw)
    by (field; lra).
  assert (Ch : bh / inject_Z (videoHeight m) * inject_Z (videoHeight m) == bh)
    by (field; lra).
  split; intros P; repeat split; lra.
Qed.

Lemma performContinuous_without_video (det : Detection) (m : Mirror) :
  videoWidth m = 0%Z \/ videoHeight m = 0%Z ->
  performContinuousFacialDetection det m = Ok false m.
Proof.
  intros V.
  unfold performContinuousFacialDetection, tryCatch, bind, gets, ret.
  assert (E : isModelLoaded m && model m && (0 <? videoWidth m)%Z
              && (0 <? videoHeight m)%Z = false).
  { destruct V as [V | V]; rewrite V; cbn [Z.ltb Z.compare];
      rewrite ?andb_false_r; reflexivity. }
  rewrite E. reflexivity.
Qed.

(** X18: while the video has no size, an analysing frame never consults
    the detector and never falls back: whatever the detector would do,
    the frame only shows the scanning effect and leaves the object as it
    was, the overlay canvas it may have had to create apart. *)
Theorem frame_without_video_scans (now : Z) (det : Detection) (m : Mirror) :
  isAnalyzing m = true ->
  videoWidth m = 0%Z \/ videoHeight m = 0%Z ->
  frame now det m = Ok FrameScanning (createFacialAnalysisOverlay m).
Proof.
  assert (G : forall m0, facialOverlay m0 = true -> isAnalyzing m0 = true ->
            videoWidth m0 = 0%Z \/ videoHeight m0 = 0%Z ->
            frame now det m0 = Ok FrameScanning m0).
  { intros m0 O A V.
    unfold updateFacialAnalysisOverlay, bind, gets, ret, run.
    rewrite O, A. cbn [negb].
    rewrite (performContinuous_without_video det m0 V).
    unfold performFallbackFaceDetection.
    assert (E : (videoWidth m0 =? 0)%Z || (videoHeight m0 =? 0)%Z = true).
    { destruct V as [V | V]; rewrite V; cbn [Z.eqb];
        rewrite ?orb_true_r; reflexivity. }
    rewrite E. destruct (faceBoundingBox m0); reflexivity. }
  intros A V. unfold createFacialAnalysisOverlay.
  destruct (facialOverlay m) eqn:O.
  - apply G; assumption.
  - rewrite (frame_creates_overlay Math_sin Math_cos now det m O).
    apply G; [reflexivity | exact A | exact V].
Qed.

Lemma fallback_overwrites_landmarks (now : Z) (a b : list Landmark)
      (m : Mirror) :
  videoWidth m <> 0%Z -> videoHeight m <> 0%Z ->
  fallback now (set_smoothedLandmarks a (set_realLandmarks b m))
  = fallback now m.
Proof.
  intros W H. unfold performFallbackFaceDetection. readFields.
  rewrite (proj2 (Z.eqb_neq _ _) W), (proj2 (Z.eqb_neq _ _) H).
  cbn [orb]. unfold createBasicLandmarksFromBoundingBox. destruct m.
  reflexivity.
Qed.

Lemma extractLandmarks_first (face : Face) (m : Mirror) :
  realLandmarks m = [] ->
  extractLandmarks face m = Raise m
  \/ extractLandmarks face m = Ok tt m
  \/ exists a b,
      extractLandmarks face m
      = Ok tt (set_smoothedLandmarks a (set_realLandmarks b m)).
Proof.
  intros R. unfold extractLandmarks.
  assert (B : match boundingBox face with
              | Some bb => run (createBasicLandmarksFromBoundingBox bb)
              | None => ret tt
              end m = Ok tt m
              \/ exists a b,
                match boundingBox face with
                | Some bb => run (createBasicLandmarksFromBoundingBox bb)
                | None => ret tt
                end m = Ok tt (set_smoothedLandmarks a (set_realLandmarks b m))).
  { destruct (boundingBox face) as [bb |]; [right | left; reflexivity].
    unfold run, createBasicLandmarksFromBoundingBox.
    eexists; eexists; reflexivity. }
  destruct (selectKeypoints face) as [[| k ks] |]; try (right; exact B).
  unfold bind, gets.
  destruct (convertKeypoints (videoWidth m) (videoHeight m) (k :: ks))
    as [ps |]; [| left; reflexivity].
  rewrite R. right. right. exists ps, ps. reflexivity.
Qed.

(** X19: a tracker that holds neither a box nor landmarks never shows
    what the detector found on that frame.  Whatever the detector does,
    the frame ends exactly as if it had returned no face; with a video
    of positive size it is a fallback frame holding the six fallback
    landmarks. *)
Theorem first_frame_ignores_detector (now : Z) (det : Detection) (m : Mirror) :
  faceBoundingBox m = None -> realLandmarks m = [] ->
  frame now det m = frame now (DetFaces []) m
  /\ (isAnalyzing m = true ->
      (0 < videoWidth m)%Z -> (0 < videoHeight m)%Z ->
      exists m', frame now det m = Ok FrameFallback m'
                 /\ length (realLandmarks m') = 6%nat).
Proof.
  assert (G : forall m0, facialOverlay m0 = true ->
            faceBoundingBox m0 = None -> realLandmarks m0 = [] ->
            frame now det m0 = frame now (DetFaces []) m0).
  { intros m0 O B R.
    unfold updateFacialAnalysisOverlay, bind, gets, ret, run.
    rewrite O. destruct (isAnalyzing m0); [| reflexivity]. cbn [negb].
    unfold performContinuousFacialDetection, estimateFaces,
      tryCatch, bind, gets, ret, run, throw.
    destruct (isModelLoaded m0 && model m0); [| reflexivity].
    destruct (0 <? videoWidth m0)%Z eqn:W; [| reflexivity].
    destruct (0 <? videoHeight m0)%Z eqn:H; [| reflexivity].
    cbv beta iota delta [andb].
    apply Z.ltb_lt in W. apply Z.ltb_lt in H.
    destruct det as [| [| face rest]]; try reflexivity.
    assert (U : updateFaceBoundingBox m0 = m0)
      by (unfold updateFaceBoundingBox; rewrite R; reflexivity).
    rewrite U.
    destruct (extractLandmarks_first face m0 R) as [E | [E | (a & b & E)]];
      rewrite E; cbv beta iota; rewrite ?B; try reflexivity.
    readFields. rewrite B.
    rewrite fallback_overwrites_landmarks by lia. reflexivity. }
  intros B R.
  assert (E : frame now det m = frame now (DetFaces []) m).
  { destruct (facialOverlay m) eqn:O.
    - apply G; assumption.
    - rewrite (frame_creates_overlay Math_sin Math_cos now det m O),
        (frame_creates_overlay Math_sin Math_cos now (DetFaces []) m O).
      apply G; [reflexivity | exact B | exact R]. }
  split; [exact E |].
  intros A W H. rewrite E.
  assert (F : forall m0, facialOverlay m0 = true -> isAnalyzing m0 = true ->
            (0 < videoWidth m0)%Z -> (0 < videoHeight m0)%Z ->
            exists m', frame now (DetFaces []) m0 = Ok FrameFallback m'
                       /\ length (realLandmarks m') = 6%nat).
  { intros m0 O A0 W0 H0.
    exists (fst (fallback now m0)).
    unfold updateFacialAnalysisOverlay, bind, gets, ret, run.
    rewrite O, A0. cbn [negb].
    rewrite (performContinuous_fails (DetFaces []) m0)
      by (unfold detectorFails; apply orb_true_r).
    unfold performFallbackFaceDetection.
    rewrite (proj2 (Z.eqb_neq _ _) (not_eq_sym (Z.lt_neq _ _ W0))),
      (proj2 (Z.eqb_neq _ _) (not_eq_sym (Z.lt_neq _ _ H0))).
    cbn [orb fst]. destruct (faceBoundingBox m0); split; reflexivity. }
  destruct (facialOverlay m) eqn:O.
  - apply F; assumption.
  - rewrite (frame_creates_overlay Math_sin Math_cos now _ m O).
    apply F; [reflexivity | exact A | exact W | exact H].
Qed.

(** A tracker that holds landmarks holds a box. *)
Definition boxed (m : Mirror) : Prop :=
  realLandmarks m <> [] -> faceBoundingBox m <> None.

Lemma extractLandmarks_result (face : Face) (m : Mirror) :
  extractLandmarks face m = Raise m
  \/ exists m', extractLandmarks face m = Ok tt m'
                /\ faceBoundingBox m' = faceBoundingBox m.
Proof.
  unfold extractLandmarks.
  destruct (selectKeypoints face) as [[| k ks] |].
  - right. destruct (boundingBox face); eexists; split; reflexivity.
  - unfold bind, gets.
    destruct (convertKeypoints (videoWidth m) (videoHeight m) (k :: ks));
      [right | left; reflexivity].
    unfold run, smoothLandmarks.
    destruct (realLandmarks m); [eexists; split; reflexivity |].
    destruct (smoothedLandmarks m); eexists; split; reflexivity.
  - right. destruct (boundingBox face); eexists; split; reflexivity.
Qed.

Lemma updateFaceBoundingBox_boxed (m : Mirror) :
  boxed (updateFaceBoundingBox m).
Proof.
  unfold boxed, updateFaceBoundingBox.
  destruct (realLandmarks m) eqn:R.
  - rewrite R. intros C. contradiction C. reflexivity.
  - readFields. discriminate.
Qed.

Lemma performContinuous_boxed (det : Detection) (m : Mirror) :
  boxed m ->
  exists b m',
    performContinuousFacialDetection det m = Ok b m'
    /\ (boxed m'
        \/ (b = true /\ (0 < videoWidth m')%Z /\ (0 < videoHeight m')%Z)).
Proof.
  intros T.
  unfold performContinuousFacialDetection, estimateFaces,
    tryCatch, bind, gets, ret, run, throw.
  destruct (isModelLoaded m && model m);
    [| exists false, m; split; [reflexivity | left; exact T]].
  destruct (0 <? videoWidth m)%Z eqn:W;
    [| exists false, m; split; [reflexivity | left; exact T]].
  destruct (0 <? videoHeight m)%Z eqn:H;
    [| exists false, m; split; [reflexivity | left; exact T]].
  cbv beta iota delta [andb].
  destruct det as [| [| face rest]];
    try (exists false, m; split; [reflexivity | left; exact T]).
  pose proof (updateFaceBoundingBox_boxed m) as U.
  pose proof (updateFaceBoundingBox_fixed m) as X.
  destruct (fixedPart_fields _ _ X) as (_ & _ & _ & XW & XH).
  destruct (extractLandmarks_result face (updateFaceBoundingBox m))
    as [E | (m' & E & B)]; rewrite E; cbv beta iota.
  - exists false, (updateFaceBoundingBox m).
    split; [reflexivity | left; exact U].
  - exists true, m'. split; [reflexivity | right].
    pose proof (extractLandmarks_preserves face (updateFaceBoundingBox m)) as Y.
    rewrite E in Y. cbn [stateOf] in Y.
    destruct (fixedPart_fields _ _ Y) as (_ & _ & _ & YW & YH).
    apply Z.ltb_lt in W. apply Z.ltb_lt in H.
    split; [reflexivity | lia].
Qed.

Lemma frame_boxed (now : Z) (det : Detection) (m : Mirror) :
  boxed m -> boxed (stateOf (frame now det m)).
Proof.
  assert (G : forall m0, facialOverlay m0 = true -> boxed m0 ->
            boxed (stateOf (frame now det m0))).
  { intros m0 O T.
    unfold updateFacialAnalysisOverlay, bind, gets, ret, run.
    rewrite O. destruct (isAnalyzing m0); [| exact T]. cbn [negb].
    destruct (performContinuous_boxed det m0 T) as (b & m' & E & D).
    rewrite E.
    assert (F : boxed
                  (stateOf
                     (match (let '(m'0, b0) := fallback now m' in Ok b0 m'0)
                      with
                      | Ok a m1 =>
                          (if a : bool
                           then fun m2 => Ok FrameFallback m2
                           else fun m2 => Ok FrameScanning m2) m1
                      | Raise m1 => Raise m1
                      end))).
    { unfold performFallbackFaceDetection.
      destruct (videoWidth m' =? 0)%Z eqn:W.
      - cbn [orb stateOf]. destruct D as [D | (_ & D & _)]; [exact D |].
        apply Z.eqb_eq in W. lia.
      - destruct (videoHeight m' =? 0)%Z eqn:H.
        + cbn [orb stateOf]. destruct D as [D | (_ & _ & D)]; [exact D |].
          apply Z.eqb_eq in H. lia.
        + cbn [orb stateOf]. unfold boxed, createBasicLandmarksFromBoundingBox.
          readFields. discriminate. }
    destruct b; [| exact F].
    destruct (faceBoundingBox m') eqn:B; [| exact F].
    cbn [stateOf]. unfold boxed. rewrite B. discriminate. }
  intros T. destruct (facialOverlay m) eqn:O.
  - apply G; assumption.
  - rewrite (frame_creates_overlay Math_sin Math_cos now det m O).
    apply G; [reflexivity | exact T].
Qed.

Lemma updateHumanityLevel_box (m : Mirror) :
  faceBoundingBox (updateHumanityLevel m) = faceBoundingBox m.
Proof.
  unfold updateHumanityLevel.
  destruct (humanityPercentage m <=? 0)%Z; reflexivity.
Qed.

Lemma startFakeAnalysis_box (m : Mirror) :
  faceBoundingBox (startFakeAnalysis m) = faceBoundingBox m.
Proof.
  unfold startFakeAnalysis, createFacialAnalysisOverlay. readFields.
  destruct (facialOverlay m); reflexivity.
Qed.

Lemma runTask_box (rd : Readings) (t : Timer) (m : Mirror) :
  faceBoundingBox (runTask Math_sqrt rd t m) = faceBoundingBox m.
Proof.
  unfold runTask, triggerSmileVerification.
  destruct (task t) as [ | | | | progress stepIndex].
  - reflexivity.
  - rewrite startFakeAnalysis_box. readFields.
    rewrite updateHumanityLevel_box. reflexivity.
  - rewrite startFakeAnalysis_box. reflexivity.
  - reflexivity.
  - destruct (Qle_bool 100 (progress + 14.3)); [| reflexivity].
    readFields. destruct (analysisTimer m); reflexivity.
Qed.

Lemma step_boxed (m : Mirror) (e : Event) :
  boxed m -> boxed (step Math_sin Math_cos Math_sqrt m e).
Proof.
  unfold boxed. intros T.
  destruct e as [ | | dt | rd | now det]; cbn [step].
  - unfold processHumanClaim, updateHumanityLevel, setTimeout, setTimer.
    destruct (maxSmileLevel m <=? smileLevel m)%Z; [exact T |].
    destruct (smileLevel m =? 0)%Z; [exact T |]. readFields.
    destruct (Z.max 0 (100 - (smileLevel m + 1) * 25) <=? 0)%Z; exact T.
  - unfold resetMirror. readFields. destruct (analysisTimer m); exact T.
  - exact T.
  - unfold fireTimer. destruct (nextTimer (timers m)) as [t |]; [| exact T].
    destruct (due t <=? clock m)%Z; [| exact T].
    rewrite runTask_box.
    destruct (runTask_landmarks Math_sqrt rd t
                (set_timers
                   (filter (fun t' => negb (timerId t' =? timerId t)%nat)
                           (timers m)) m)) as [R _].
    rewrite R. exact T.
  - apply frame_boxed. exact T.
Qed.

(** X20: in every state the object can reach, stored landmarks come
    with a stored bounding box: no run of claims, resets, timers and
    frames, whatever the detector returns or throws, leaves landmarks
    to draw without a box to draw them in. *)
Theorem reachable_landmarks_have_box (m : Mirror) :
  reachable Math_sin Math_cos Math_sqrt m ->
  realLandmarks m <> [] -> faceBoundingBox m <> None.
Proof.
  intros (loaded & w & h & es & _ & _ & ->).
  assert (G : forall es m0, boxed m0 ->
            boxed (runEvents Math_sin Math_cos Math_sqrt es m0)).
  { induction es0 as [| e es0 IH]; intros m0 T; cbn.
    - exact T.
    - apply IH, step_boxed, T. }
  apply G. intros C. contradiction C. reflexivity.
Qed.

(** The fields of the controller and of the host's timer queue. *)
Definition controllerPart (m : Mirror)
  : option nat * bool * bool * Z * list Timer * nat :=
  (analysisTimer m, isTracking m, failureOverlay m, clock m, timers m,
   nextTimerId m).

Lemma extractLandmarks_controller
      (c : option nat * bool * bool * Z * list Timer * nat) (face : Face) :
  keeps (fun m => controllerPart m = c) (extractLandmarks face).
Proof.
  assert (B : forall bb,
            keeps (fun m => controllerPart m = c)
                  (run (createBasicLandmarksFromBoundingBox bb))).
  { intros bb. apply keeps_run. intros m S. exact S. }
  unfold extractLandmarks.
  destruct (selectKeypoints face) as [[| k ks] |].
  - destruct (boundingBox face); [apply B | apply keeps_ret].
  - apply keeps_bind; [apply keeps_gets | intros w].
    apply keeps_bind; [apply keeps_gets | intros h].
    destruct (convertKeypoints w h (k :: ks)); [| apply keeps_throw].
    apply keeps_bind; [apply keeps_gets | intros stored].
    destruct stored; apply keeps_run; intros m S; [exact S |].
    unfold smoothLandmarks. destruct (smoothedLandmarks m); exact S.
  - destruct (boundingBox face); [apply B | apply keeps_ret].
Qed.

Lemma frame_controller (now : Z) (det : Detection) (m : Mirror) :
  controllerPart (stateOf (frame now det m)) = controllerPart m.
Proof.
  generalize (eq_refl (controllerPart m)).
  generalize (controllerPart m) at 2 3. intros c.
  revert m. change (keeps (fun m => controllerPart m = c) (frame now det)).
  unfold updateFacialAnalysisOverlay.
  apply keeps_bind; [apply keeps_gets | intros hasOverlay].
  apply keeps_bind.
  { destruct hasOverlay; [apply keeps_ret |].
    apply keeps_run. intros m S. exact S. }
  intros _.
  apply keeps_bind; [apply keeps_gets | intros analyzing].
  destruct (negb analyzing); [apply keeps_ret |].
  apply keeps_bind.
  { unfold performContinuousFacialDetection.
    apply keeps_tryCatch; [| apply keeps_ret].
    apply keeps_bind; [apply keeps_gets | intros [|]]; [| apply keeps_ret].
    apply keeps_bind.
    - destruct det; [apply keeps_throw | apply keeps_ret].
    - intros [| face rest]; [apply keeps_ret |].
      apply keeps_bind.
      + apply keeps_run. intros m S. unfold updateFaceBoundingBox.
        destruct (realLandmarks m); [exact S |].
        destruct (faceBoundingBox m); exact S.
      + intros _. apply keeps_bind;
          [apply extractLandmarks_controller | intros _; apply keeps_ret]. }
  intros detected.
  apply keeps_bind; [apply keeps_gets | intros box].
  assert (F : keeps (fun m => controllerPart m = c)
                (fallbackDetected <-
                   (fun m => let '(m', b) := fallback now m in Ok b m') ;;
                 if fallbackDetected : bool then ret FrameFallback
                 else ret FrameScanning)).
  { apply keeps_bind.
    - intros m S. unfold performFallbackFaceDetection.
      destruct ((videoWidth m =? 0)%Z || (videoHeight m =? 0)%Z); exact S.
    - intros [|]; apply keeps_ret. }
  destruct detected; [destruct box |]; try exact F. apply keeps_ret.
Qed.

(** X24: an animation frame writes tracker fields only.  Whatever the
    detector does and however the frame ends, the session fields, the
    stored score, the analysis flag, the detector and the video size are
    as before, and so are the controller's timer handle, the tracking
    flag, the failure page, the clock and the timer queue: a frame
    schedules nothing and cancels nothing. *)
Theorem frame_writes_tracker_fields_only
        (now : Z) (det : Detection) (m : Mirror) :
  fixedPart (stateOf (frame now det m)) = fixedPart m
  /\ controllerPart (stateOf (frame now det m)) = controllerPart m.
Proof.
  split; [apply updateFacialAnalysisOverlay_preserves | apply frame_controller].
Qed.

End Tracker.

(** ** Coordinates that are not numbers, and keypoint formats *)

Lemma fold_lift2_NaN (f : Q -> Q -> Q) (vs : list jsval) :
  fold_left (lift2 f) vs NaN = NaN.
Proof. induction vs as [| v vs IH]; [reflexivity | exact IH]. Qed.

Lemma lift2_not_number (f : Q -> Q -> Q) (a b : jsval) :
  isNum a = false \/ isNum b = false -> lift2 f a b = NaN.
Proof.
  intros [H | H]; destruct a, b; try discriminate; reflexivity.
Qed.

Lemma fold_lift2_poisoned (f : Q -> Q -> Q) (vs : list jsval) (acc v : jsval) :
  In v vs -> isNum v = false -> fold_left (lift2 f) vs acc = NaN.
Proof.
  revert acc. induction vs as [| u vs IH]; intros acc I N; [contradiction |].
  destruct I as [-> | I]; cbn [fold_left].
  - rewrite (lift2_not_number f acc v) by (right; exact N).
    apply fold_lift2_NaN.
  - apply IH; assumption.
Qed.

Lemma spread_poisoned (f : Q -> Q -> Q) (slot : Landmark -> jsval)
      (l : Landmark) (ls : list Landmark) (p : Landmark) :
  In p (l :: ls) -> isNum (slot p) = false ->
  fold_left (lift2 f) (map slot ls) (toNumber (slot l)) = NaN.
Proof.
  intros [-> | I] N.
  - destruct (slot p); try discriminate; apply fold_lift2_NaN.
  - apply (fold_lift2_poisoned f _ _ (slot p)); [| exact N].
    apply in_map. exact I.
Qed.

(** X21: one landmark whose x is not a number makes the centre x and the
    width of the extents box [NaN]; and a stored box whose x is not a
    number keeps it so through any number of box updates, whatever the
    landmarks are by then. *)
Theorem unreadable_coordinate_poisons_box :
  (forall (l : Landmark) (ls : list Landmark) (p : Landmark),
      In p (l :: ls) -> isNum (l0 p) = false ->
      box_x (extentsBox l ls) = NaN /\ box_width (extentsBox l ls) = NaN)
  /\ (forall (n : nat) (m : Mirror) (b : Box),
        realLandmarks m <> [] ->
        faceBoundingBox m = Some b -> isNum (box_x b) = false ->
        exists b',
          faceBoundingBox (Nat.iter n updateFaceBoundingBox m) = Some b'
          /\ isNum (box_x b') = false).
Proof.
  split.
  - intros l ls p I N. unfold extentsBox, spreadMin, spreadMax, jmin, jmax.
    rewrite (spread_poisoned Qmin l0 l ls p I N),
      (spread_poisoned Qmax l0 l ls p I N).
    split; reflexivity.
  - intros n m b R B N.
    assert (G : realLandmarks (Nat.iter n updateFaceBoundingBox m)
                = realLandmarks m
                /\ exists b',
                  faceBoundingBox (Nat.iter n updateFaceBoundingBox m) = Some b'
                  /\ isNum (box_x b') = false).
    { induction n as [| n (L & b' & B' & N')].
      - split; [reflexivity | exists b; split; assumption].
      - change (Nat.iter (S n) updateFaceBoundingBox m)
          with (updateFaceBoundingBox (Nat.iter n updateFaceBoundingBox m)).
        revert L B'. generalize (Nat.iter n updateFaceBoundingBox m).
        intros m' L B'. unfold updateFaceBoundingBox.
        destruct (realLandmarks m') as [| l ls] eqn:R';
          [contradiction R; rewrite <- L; reflexivity |].
        rewrite B'. readFields. split; [rewrite <- L; exact R' |].
        eexists. split; [reflexivity |]. cbn [box_x blendBox].
        unfold jadd. rewrite lift2_not_number by (left; exact N').
        reflexivity. }
    exact (proj2 G).
Qed.

(** The landmark lies in the frame of the given size. *)
Definition inFrame (w h : Z) (p : Landmark) : Prop :=
  exists px py,
    l0 p = Num px /\ l1 p = Num py
    /\ 0 <= px /\ px <= inject_Z w /\ 0 <= py /\ py <= inject_Z h.

(** The keypoint, an object or an array, has numbers for x and y that
    lie in the frame, in pixels or as fractions of the frame. *)
Definition keypointInFrame (w h : Z) (k : Keypoint) : Prop :=
  exists x y,
    ((exists z, k = KObject (Num x) (Num y) z)
     \/ (exists rest, k = KArray (Num x :: Num y :: rest)))
    /\ 0 <= x /\ x <= inject_Z w /\ 0 <= y /\ y <= inject_Z h.

(** [x <= 1 && y <= 1 && x >= 0 && y >= 0] *)
Definition inUnitSquare (x y : Q) : bool :=
  Qle_bool x 1 && Qle_bool y 1 && Qle_bool 0 x && Qle_bool 0 y.

Lemma convertKeypoint_object (w h : Z) (x y : Q) (z : jsval) :
  convertKeypoint w h (KObject (Num x) (Num y) z)
  = Some (if inUnitSquare x y
          then mkLandmark (Num (x * inject_Z w)) (Num (y * inject_Z h))
                          (orZero z)
          else mkLandmark (Num x) (Num y) (orZero z)).
Proof.
  unfold convertKeypoint, inUnitSquare. cbn [defined andb jle jmul lift2].
  destruct (Qle_bool x 1 && Qle_bool y 1 && Qle_bool 0 x && Qle_bool 0 y);
    reflexivity.
Qed.

Lemma convertKeypoint_array (w h : Z) (x y : Q) (rest : list jsval) :
  convertKeypoint w h (KArray (Num x :: Num y :: rest))
  = Some (if inUnitSquare x y
          then mkLandmark (Num (x * inject_Z w)) (Num (y * inject_Z h))
                          (orZero (nth 0 rest Undefined))
          else mkLandmark (Num x) (Num y) (orZero (nth 0 rest Undefined))).
Proof.
  unfold convertKeypoint, inUnitSquare.
  cbn [nth defined andb jle jmul lift2].
  destruct (Qle_bool x 1 && Qle_bool y 1 && Qle_bool 0 x && Qle_bool 0 y);
    reflexivity.
Qed.

Lemma scaled_inFrame (w h : Z) (x y : Q) (z : jsval) :
  (1 <= w)%Z -> (1 <= h)%Z ->
  0 <= x -> x <= inject_Z w -> 0 <= y -> y <= inject_Z h ->
  inFrame w h
    (if inUnitSquare x y
     then mkLandmark (Num (x * inject_Z w)) (Num (y * inject_Z h)) z
     else mkLandmark (Num x) (Num y) z).
Proof.
  intros W H X0 X1 Y0 Y1.
  assert (W' : 1 <= inject_Z w) by (unfold Qle; cbn; lia).
  assert (H' : 1 <= inject_Z h) by (unfold Qle; cbn; lia).
  unfold inUnitSquare.
  destruct (Qle_bool x 1) eqn:A; cbn [andb];
    [destruct (Qle_bool y 1) eqn:B; cbn [andb] |].
  - rewrite (proj2 (Qle_bool_iff 0 x) X0), (proj2 (Qle_bool_iff 0 y) Y0).
    cbn [andb]. apply Qle_bool_iff in A. apply Qle_bool_iff in B.
    eexists; eexists. split; [reflexivity |]. split; [reflexivity |].
    repeat split; nra.
  - exists x, y. repeat split; assumption.
  - exists x, y. repeat split; assumption.
Qed.

Lemma convertKeypoint_inFrame (w h : Z) (k : Keypoint) :
  (1 <= w)%Z -> (1 <= h)%Z -> keypointInFrame w h k ->
  exists p, convertKeypoint w h k = Some p /\ inFrame w h p.
Proof.
  intros W H (x & y & [(z & ->) | (rest & ->)] & X0 & X1 & Y0 & Y1).
  - rewrite convertKeypoint_object. eexists. split; [reflexivity |].
    apply scaled_inFrame; assumption.
  - rewrite convertKeypoint_array. eexists. split; [reflexivity |].
    apply scaled_inFrame; assumption.
Qed.

Lemma convertKeypoints_inFrame (w h : Z) (kps : list Keypoint) :
  (1 <= w)%Z -> (1 <= h)%Z -> Forall (keypointInFrame w h) kps ->
  exists ps, convertKeypoints w h kps = Some ps /\ Forall (inFrame w h) ps.
Proof.
  intros W H F. induction F as [| k ks K _ (ps & E & P)].
  - exists []. split; [reflexivity | constructor].
  - destruct (convertKeypoint_inFrame w h k W H K) as (p & Ep & Ip).
    exists (p :: ps). cbn [convertKeypoints]. rewrite Ep, E.
    split; [reflexivity | constructor; assumption].
Qed.

Lemma smoothPoint_inFrame (w h : Z) (oldPoint newPoint : Landmark) :
  inFrame w h oldPoint -> inFrame w h newPoint ->
  inFrame w h (smoothPoint oldPoint newPoint).
Proof.
  intros (ox & oy & O0 & O1 & ? & ? & ? & ?) (nx & ny & N0 & N1 & ? & ? & ? & ?).
  unfold smoothPoint, inFrame. cbn [l0 l1]. rewrite O0, O1, N0, N1.
  eexists; eexists. split; [reflexivity |]. split; [reflexivity |].
  unfold landmarkSmoothingFactor. repeat split; lra.
Qed.

Lemma smoothLandmarks_inFrame (w h : Z) (new : list Landmark) (m : Mirror) :
  Forall (inFrame w h) new -> Forall (inFrame w h) (smoothedLandmarks m) ->
  Forall (inFrame w h) (smoothedLandmarks (smoothLandmarks new m)).
Proof.
  intros N O. unfold smoothLandmarks.
  destruct (smoothedLandmarks m) as [| o os] eqn:S; readFields; [exact N |].
  unfold mapi. apply (mapi_from_Forall (inFrame w h)); [| exact N].
  intros p index P.
  destruct (nth_error (o :: os) index) as [q |] eqn:E.
  - apply smoothPoint_inFrame; [| exact P].
    apply nth_error_In in E. revert q E. apply Forall_forall. exact O.
  - apply smoothPoint_inFrame; exact P.
Qed.

(** X23: [extractLandmarks] keeps the landmarks in the frame.  A keypoint
    [{x, y, z?}] or [[x, y, z?]] with numbers for x and y is stored, on
    a first frame, with x and y multiplied by the video size when both
    lie in [0, 1], and with x and y as they are otherwise.  On a video
    of at least one pixel each way, when every keypoint of the face
    lies in the frame, in pixels or as fractions, and so does every
    landmark stored so far, the landmarks stored after the call all lie
    in the frame. *)
Theorem extraction_keeps_landmarks_in_frame :
  (forall (w h : Z) (x y : Q) (z : jsval),
      convertKeypoint w h (KObject (Num x) (Num y) z)
      = Some (if Qle_bool x 1 && Qle_bool y 1 && Qle_bool 0 x && Qle_bool 0 y
              then mkLandmark (Num (x * inject_Z w)) (Num (y * inject_Z h))
                              (orZero z)
              else mkLandmark (Num x) (Num y) (orZero z)))
  /\ (forall (face : Face) (m : Mirror) (k : Keypoint) (ks : list Keypoint)
             (ps : list Landmark),
        selectKeypoints face = Some (k :: ks) ->
        realLandmarks m = [] ->
        convertKeypoints (videoWidth m) (videoHeight m) (k :: ks) = Some ps ->
        extractLandmarks face m
        = Ok tt (set_smoothedLandmarks ps (set_realLandmarks ps m)))
  /\ (forall (face : Face) (m : Mirror) (k : Keypoint) (ks : list Keypoint),
        (1 <= videoWidth m)%Z -> (1 <= videoHeight m)%Z ->
        selectKeypoints face = Some (k :: ks) ->
        Forall (keypointInFrame (videoWidth m) (videoHeight m)) (k :: ks) ->
        Forall (inFrame (videoWidth m) (videoHeight m)) (smoothedLandmarks m) ->
        exists m',
          extractLandmarks face m = Ok tt m'
          /\ length (realLandmarks m') = length (k :: ks)
          /\ Forall (inFrame (videoWidth m) (videoHeight m)) (realLandmarks m')
          /\ Forall (inFrame (videoWidth m) (videoHeight m))
                    (smoothedLandmarks m')).
Proof.
  split; [| split].
  - intros w h x y z. apply convertKeypoint_object.
  - intros face m k ks ps S R E. unfold extractLandmarks, bind, gets, run.
    rewrite S, E, R. reflexivity.
  - intros face m k ks W H S K O.
    destruct (convertKeypoints_inFrame _ _ _ W H K) as (ps & E & P).
    pose proof (convertKeypoints_length _ _ _ _ E) as L.
    unfold extractLandmarks, bind, gets, run. rewrite S, E.
    destruct (realLandmarks m) as [| old olds] eqn:R.
    + eexists. split; [reflexivity |]. readFields. auto.
    + eexists. split; [reflexivity |].
      rewrite smoothLandmarks_aligned, smoothLandmarks_length.
      split; [exact L |].
      split; apply smoothLandmarks_inFrame; assumption.
Qed.

(** ** Trigger phrase *)

Module Speech.

Import String.StringSyntax.
#[local] Delimit Scope string_scope with string.

(** [transcript.includes(phrase)] *)
Fixpoint includes (transcript phrase : String.string) : bool :=
  String.prefix phrase transcript
  || match transcript with
     | String.EmptyString => false
     | String.String _ rest => includes rest phrase
     end.

Definition humanPhrases : list String.string :=
  [ "i am human"%string;
    "i am a human"%string;
    "i am the human"%string;
    "i am human being"%string;
    "i am a human being"%string;
    "i am the human being"%string;
    "i am human person"%string;
    "i am a human person"%string;
    "i am the human person"%string ].

(** [detectHumanPhrase(transcript)] *)
Definition detectHumanPhrase (transcript : String.string) : bool :=
  existsb (fun phrase => includes transcript phrase) humanPhrases.

(** The transcript holds the phrase somewhere. *)
Definition holds (transcript phrase : String.string) : Prop :=
  exists before after,
    transcript = String.append before (String.append phrase after).

Lemma prefix_spec (p t : String.string) :
  String.prefix p t = true <-> exists after, t = String.append p after.
Proof.
  revert t. induction p as [| a p IH]; intros t.
  - split; [intros _; exists t; reflexivity | intros _; destruct t; reflexivity].
  - destruct t as [| b t]; cbn [String.prefix String.append].
    + split; [discriminate | intros (after & E); discriminate E].
    + destruct (Ascii.ascii_dec a b) as [-> | N].
      * split.
        -- intros P. apply (IH t) in P. destruct P as (after & E).
           exists after. rewrite E. reflexivity.
        -- intros (after & E). apply (IH t). exists after.
           inversion E. reflexivity.
      * split; [discriminate |]. intros (after & E). inversion E as [[Eab Et]].
        contradiction (N (eq_sym Eab)).
Qed.

Lemma append_assoc (a b c : String.string) :
  String.append (String.append a b) c = String.append a (String.append b c).
Proof.
  induction a as [| x a IH]; cbn; [reflexivity | rewrite IH; reflexivity].
Qed.

Lemma includes_spec (t p : String.string) :
  includes t p = true <-> holds t p.
Proof.
  split.
  - induction t as [| c t IH]; cbn [includes]; intros H;
      apply orb_prop in H; destruct H as [H | H]; try discriminate.
    + apply prefix_spec in H. destruct H as (after & E).
      exists String.EmptyString, after. exact E.
    + apply prefix_spec in H. destruct H as (after & E).
      exists String.EmptyString, after. exact E.
    + destruct (IH H) as (before & after & E).
      exists (String.String c before), after. rewrite E. reflexivity.
  - intros (before & after & ->).
    induction before as [| c before IH].
    + assert (P : String.prefix p (String.append p after) = true)
        by (apply prefix_spec; exists after; reflexivity).
      cbn [String.append]. destruct (String.append p after);
        cbn [includes]; rewrite P; reflexivity.
    + cbn [String.append includes]. rewrite IH. apply orb_true_r.
Qed.

Lemma holds_shorter (t p q : String.string) :
  holds t (String.append p q) -> holds t p.
Proof.
  intros (before & after & E). exists before, (String.append q after).
  rewrite E, append_assoc. reflexivity.
Qed.

(** X25: of the nine phrases [detectHumanPhrase] looks for, the first
    three decide: a transcript is accepted exactly when it holds
    [i am human], [i am a human] or [i am the human] somewhere; the
    six longer phrases never add a transcript. *)
Theorem detectHumanPhrase_three_phrases (transcript : String.string) :
  detectHumanPhrase transcript = true
  <-> holds transcript "i am human"%string
      \/ holds transcript "i am a human"%string
      \/ holds transcript "i am the human"%string.
Proof.
  unfold detectHumanPhrase, humanPhrases. cbn [existsb].
  rewrite !orb_true_iff, !includes_spec.
  split.
  - intros [H | [H | [H | [H | [H | [H | [H | [H | [H | H]]]]]]]]];
      try discriminate; auto.
    + left. apply (holds_shorter _ _ " being"%string). exact H.
    + right. left. apply (holds_shorter _ _ " being"%string). exact H.
    + right. right. apply (holds_shorter _ _ " being"%string). exact H.
    + left. apply (holds_shorter _ _ " person"%string). exact H.
    + right. left. apply (holds_shorter _ _ " person"%string). exact H.
    + right. right. apply (holds_shorter _ _ " person"%string). exact H.
  - intros [H | [H | H]]; auto.
Qed.

(** ** Speech errors and the fallback controls *)

(** The [error] strings [handleSpeechError] tells apart. *)
Inductive SpeechError : Type :=
| Aborted
| NoSpeech
| AudioCapture
| NotAllowed
| Network
| ServiceNotAllowed
| OtherError.            (* any other string: 'restart-failed', 'start-failed', ... *)

(** The callbacks the listener hands to [setTimeout]. *)
Inductive Callback : Type :=
| RestartRecognition              (* handleSpeechError, after retryDelay; onend, after 500 ms *)
| FallbackToAlternativeMethods.   (* handleSpeechError, after 2000 ms *)

(** The fields of [this] the listener reads or writes, the number of
    times [enableFallbackControls] has added its key and click listeners
    to the page, and the callbacks that wait in the host's queue. *)
Record Listener : Type := mkListener {
  isListening : bool;
  fallbackActive : bool;
  retryCount : Z;
  maxRetries : Z;
  fallbackControls : nat;
  scheduled : list Callback
}.

(** The listener once [setupSpeechRecognition] has started recognition. *)
Definition listening : Listener := mkListener true false 0 5 0 [].

Definition schedule (c : Callback) (l : Listener) : Listener :=
  mkListener (isListening l) (fallbackActive l) (retryCount l) (maxRetries l)
             (fallbackControls l) (scheduled l ++ [c]).

(** [enableFallbackControls()]: one more key listener on the document and
    one more click listener on the video. *)
Definition enableFallbackControls (l : Listener) : Listener :=
  mkListener (isListening l) (fallbackActive l) (retryCount l) (maxRetries l)
             (S (fallbackControls l)) (scheduled l).

(** [fallbackToAlternativeMethods()] *)
Definition fallbackToAlternativeMethods (l : Listener) : Listener :=
  enableFallbackControls
    (mkListener false true 0 (maxRetries l) (fallbackControls l) (scheduled l)).

Definition shouldRestart (error : SpeechError) : bool :=
  match error with
  | Aborted | NoSpeech | OtherError => true
  | AudioCapture | NotAllowed | Network | ServiceNotAllowed => false
  end.

(** [handleSpeechError(error)] *)
Definition handleSpeechError (error : SpeechError) (l : Listener) : Listener :=
  if shouldRestart error && isListening l then
    let l1 :=
      mkListener (isListening l) (fallbackActive l) (retryCount l + 1)
                 (maxRetries l) (fallbackControls l) (scheduled l) in
    if (retryCount l1 <=? maxRetries l1)%Z
    then schedule RestartRecognition l1
    else fallbackToAlternativeMethods l1
  else schedule FallbackToAlternativeMethods l.

(** The body of a queued callback; [startThrows] tells whether
    [recognition.start()] throws when the callback calls it. *)
Definition runCallback (c : Callback) (startThrows : bool) (l : Listener)
  : Listener :=
  match c with
  | RestartRecognition =>
      if isListening l
      then if startThrows then handleSpeechError OtherError l else l
      else l
  | FallbackToAlternativeMethods => fallbackToAlternativeMethods l
  end.

(** What can happen to the listener: recognition reports an error,
    recognition ends, one of the queued callbacks runs (the host takes
    them by their due times; here any of them may be next). *)
Inductive SpeechEvent : Type :=
| SpError (error : SpeechError)
| SpEnd
| SpCallback (index : nat) (startThrows : bool).

Definition speechStep (l : Listener) (e : SpeechEvent) : Listener :=
  match e with
  | SpError error => handleSpeechError error l
  | SpEnd => if isListening l then schedule RestartRecognition l else l
  | SpCallback index startThrows =>
      match nth_error (scheduled l) index with
      | None => l
      | Some c =>
          runCallback c startThrows
            (mkListener (isListening l) (fallbackActive l) (retryCount l)
                        (maxRetries l) (fallbackControls l)
                        (firstn index (scheduled l)
                         ++ skipn (S index) (scheduled l)))
      end
  end.

Definition speechRun (es : list SpeechEvent) (l : Listener) : Listener :=
  fold_left speechStep es l.

(** No error of the run is one of the four that give up at once. *)
Definition restartableOnly (e : SpeechEvent) : bool :=
  match e with
  | SpError error => shouldRestart error
  | _ => true
  end.

(** A key press (space or h) on the page: every key listener that
    [enableFallbackControls] has added calls [processHumanClaim]. *)
Definition keydown (l : Listener) (m : Mirror) : Mirror :=
  Nat.iter (fallbackControls l) processHumanClaim m.

Definition onlyRestarts (l : Listener) : Prop :=
  Forall (fun c => c = RestartRecognition) (scheduled l).

Ltac listenerFields :=
  cbn [isListening fallbackActive retryCount maxRetries fallbackControls
       scheduled schedule enableFallbackControls fallbackToAlternativeMethods].

Lemma Forall_without {A : Type} (P : A -> Prop) (index : nat) (l : list A) :
  Forall P l -> Forall P (firstn index l ++ skipn (S index) l).
Proof.
  revert index. induction l as [| a l IH]; intros [| index] F; cbn.
  - constructor.
  - constructor.
  - inversion F; assumption.
  - inversion F; subst. constructor; [assumption | apply IH; assumption].
Qed.

Lemma onlyRestarts_schedule (l : Listener) :
  onlyRestarts l -> onlyRestarts (schedule RestartRecognition l).
Proof.
  unfold onlyRestarts. listenerFields. intros F. apply Forall_app.
  split; [exact F | constructor; [reflexivity | constructor]].
Qed.

Lemma handleSpeechError_listening (error : SpeechError) (l : Listener) :
  isListening l = true -> onlyRestarts l -> shouldRestart error = true ->
  (retryCount l < maxRetries l)%Z
  /\ handleSpeechError error l
     = schedule RestartRecognition
         (mkListener true (fallbackActive l) (retryCount l + 1)
                     (maxRetries l) (fallbackControls l) (scheduled l))
  \/ (maxRetries l <= retryCount l)%Z
     /\ handleSpeechError error l
        = mkListener false true 0 (maxRetries l) (S (fallbackControls l))
                     (scheduled l).
Proof.
  intros L R S. unfold handleSpeechError. rewrite S, L. cbn [andb].
  listenerFields.
  destruct (retryCount l + 1 <=? maxRetries l)%Z eqn:C.
  - left. apply Z.leb_le in C. split; [lia | reflexivity].
  - right. apply Z.leb_gt in C. split; [lia | reflexivity].
Qed.

(** The listener listens, within its retry budget, with nothing but
    restarts queued. *)
Definition attentive (l0 l : Listener) : Prop :=
  isListening l = true /\ onlyRestarts l
  /\ (retryCount l0 <= retryCount l <= maxRetries l0)%Z
  /\ maxRetries l = maxRetries l0
  /\ fallbackControls l = fallbackControls l0
  /\ fallbackActive l = fallbackActive l0.

(** The listener has given up on speech. *)
Definition fallen (l0 l : Listener) : Prop :=
  isListening l = false /\ fallbackActive l = true /\ retryCount l = 0%Z
  /\ (fallbackControls l0 < fallbackControls l)%nat.

Lemma speechStep_attentive (l0 l : Listener) (e : SpeechEvent) :
  attentive l0 l -> restartableOnly e = true ->
  attentive l0 (speechStep l e) \/ fallen l0 (speechStep l e).
Proof.
  intros (L & R & B & Mx & C & A) Ok.
  assert (H : forall l1, isListening l1 = true -> onlyRestarts l1 ->
            retryCount l1 = retryCount l -> maxRetries l1 = maxRetries l ->
            fallbackControls l1 = fallbackControls l ->
            fallbackActive l1 = fallbackActive l ->
            forall error, shouldRestart error = true ->
            attentive l0 (handleSpeechError error l1)
            \/ fallen l0 (handleSpeechError error l1)).
  { intros l1 L1 R1 E1 E2 E3 E4 error S.
    destruct (handleSpeechError_listening error l1 L1 R1 S)
      as [[Lt ->] | [Ge ->]].
    - left. unfold attentive. listenerFields.
      split; [reflexivity |].
      split; [apply (onlyRestarts_schedule
                       (mkListener true (fallbackActive l1) (retryCount l1 + 1)
                                   (maxRetries l1) (fallbackControls l1)
                                   (scheduled l1))); exact R1 |].
      repeat split; try congruence; lia.
    - right. unfold fallen. listenerFields. repeat split. lia. }
  destruct e as [error | | index startThrows]; cbn [speechStep].
  - apply H; auto.
  - rewrite L. left. unfold attentive. listenerFields.
    split; [exact L |]. split; [apply onlyRestarts_schedule; exact R |].
    repeat split; try assumption; lia.
  - destruct (nth_error (scheduled l) index) as [c |] eqn:Q.
    + assert (R' : Forall (fun c => c = RestartRecognition)
                     (firstn index (scheduled l)
                      ++ skipn (S index) (scheduled l))).
      { apply Forall_without. exact R. }
      assert (Cc : c = RestartRecognition).
      { apply nth_error_In in Q. revert c Q. apply Forall_forall. exact R. }
      subst c. cbn [runCallback]. listenerFields. rewrite L.
      destruct startThrows.
      * apply H; auto.
      * left. unfold attentive, onlyRestarts. listenerFields.
        repeat split; try assumption; lia.
    + left. unfold attentive. repeat split; try assumption; lia.
Qed.

Lemma speechStep_fallen (l0 l : Listener) (e : SpeechEvent) :
  fallen l0 l -> fallen l0 (speechStep l e).
Proof.
  intros (L & A & R & C). unfold fallen.
  destruct e as [error | | index startThrows]; cbn [speechStep].
  - unfold handleSpeechError. rewrite L, andb_false_r. listenerFields. auto.
  - rewrite L. auto.
  - destruct (nth_error (scheduled l) index) as [[|] |]; [| | auto];
      cbn [runCallback]; listenerFields; [rewrite L; listenerFields; auto |].
    repeat split. lia.
Qed.

(** X26: the retry budget of the listener is never refilled while it
    listens.  Through any run of restartable errors, recognition ends
    and queued restarts, successful or not, the retry count only goes
    up and stays within [maxRetries] while nothing but restarts is
    queued; or the listener has given up for good: it no longer listens,
    the fallback is active, the count is back at 0 and fallback
    controls have been added. *)
Theorem retry_budget_is_not_refilled (es : list SpeechEvent) (l : Listener) :
  isListening l = true ->
  Forall (fun c => c = RestartRecognition) (scheduled l) ->
  (0 <= retryCount l <= maxRetries l)%Z ->
  forallb restartableOnly es = true ->
  (isListening (speechRun es l) = true
   /\ (retryCount l <= retryCount (speechRun es l) <= maxRetries l)%Z
   /\ fallbackControls (speechRun es l) = fallbackControls l
   /\ fallbackActive (speechRun es l) = fallbackActive l)
  \/ (isListening (speechRun es l) = false
      /\ fallbackActive (speechRun es l) = true
      /\ retryCount (speechRun es l) = 0%Z
      /\ (fallbackControls l < fallbackControls (speechRun es l))%nat).
Proof.
  intros L R B Ok.
  assert (G : forall es l1, forallb restartableOnly es = true ->
            attentive l l1 \/ fallen l l1 ->
            attentive l (speechRun es l1) \/ fallen l (speechRun es l1)).
  { induction es0 as [| e es0 IH]; intros l1 O S; [exact S |].
    cbn in O. apply andb_prop in O. destruct O as [O1 O2].
    cbn [speechRun fold_left]. apply (IH _ O2).
    destruct S as [S | S].
    - apply speechStep_attentive; assumption.
    - right. apply speechStep_fallen. exact S. }
  destruct (G es l Ok) as [(L' & _ & B' & _ & C' & A') | F].
  - left. unfold attentive. repeat split; auto; lia.
  - left. auto.
  - right. exact F.
Qed.

(** X27: restartable errors reported one after the other use up the
    budget one by one: while there are no more of them than retries
    left, each adds one to the count and queues one restart; the next
    one switches the listener to the fallback, resets the count and
    adds the fallback controls. *)
Theorem last_retry_then_fallback (errors : list SpeechError) (l : Listener) :
  isListening l = true ->
  Forall (fun c => c = RestartRecognition) (scheduled l) ->
  forallb shouldRestart errors = true ->
  (retryCount l + Z.of_nat (length errors) <= maxRetries l)%Z ->
  speechRun (map SpError errors) l
  = mkListener true (fallbackActive l)
               (retryCount l + Z.of_nat (length errors)) (maxRetries l)
               (fallbackControls l)
               (scheduled l ++ repeat RestartRecognition (length errors))
  /\ ((retryCount l + Z.of_nat (length errors))%Z = maxRetries l ->
      forall error, shouldRestart error = true ->
      speechRun (map SpError (errors ++ [error])) l
      = mkListener false true 0 (maxRetries l) (S (fallbackControls l))
                   (scheduled l ++ repeat RestartRecognition (length errors))).
Proof.
  intros L R Ok B.
  assert (G : speechRun (map SpError errors) l
              = mkListener true (fallbackActive l)
                  (retryCount l + Z.of_nat (length errors)) (maxRetries l)
                  (fallbackControls l)
                  (scheduled l ++ repeat RestartRecognition (length errors))).
  { revert l L R B. induction errors as [| e errors IH]; intros l L R B.
    - cbn. rewrite Z.add_0_r, app_nil_r. destruct l. cbn in L. subst.
      reflexivity.
    - cbn in Ok. apply andb_prop in Ok. destruct Ok as [O1 O2].
      cbn [map speechRun fold_left speechStep].
      change (fold_left speechStep (map SpError errors) ?x)
        with (speechRun (map SpError errors) x).
      cbn [length] in B. rewrite Nat2Z.inj_succ in B.
      destruct (handleSpeechError_listening e l L R O1) as [[Lt ->] | [Ge _]];
        [| lia].
      rewrite (IH O2); listenerFields.
      + rewrite <- app_assoc. cbn [length repeat app].
        rewrite Nat2Z.inj_succ. f_equal. lia.
      + reflexivity.
      + apply (onlyRestarts_schedule
                 (mkListener true (fallbackActive l) (retryCount l + 1)
                             (maxRetries l) (fallbackControls l)
                             (scheduled l))). exact R.
      + lia. }
  split; [exact G |].
  intros Full error S. rewrite map_app. unfold speechRun in *.
  rewrite fold_left_app, G. cbn [map fold_left speechStep].
  assert (R' : onlyRestarts
                 (mkListener true (fallbackActive l)
                    (retryCount l + Z.of_nat (length errors)) (maxRetries l)
                    (fallbackControls l)
                    (scheduled l ++ repeat RestartRecognition (length errors)))).
  { unfold onlyRestarts. listenerFields. apply Forall_app.
    split; [exact R |]. apply Forall_forall. intros c I.
    apply repeat_spec in I. exact I. }
  match type of R' with
  | onlyRestarts ?x =>
      destruct (handleSpeechError_listening error x eq_refl R' S)
        as [[Lt _] | [_ E]]
  end.
  - cbn in Lt. lia.
  - rewrite E. reflexivity.
Qed.

(** X28: once the listener has stopped listening, every error of any
    kind queues one more fallback switch, and each switch that runs adds
    the fallback controls once more; the page then answers one key
    press with that many more calls of [processHumanClaim].  The
    switches are run oldest first. *)
Theorem fallback_controls_accumulate
        (errors : list SpeechError) (l : Listener) (m : Mirror) :
  isListening l = false -> scheduled l = [] ->
  fallbackControls
    (speechRun (map SpError errors
                ++ repeat (SpCallback 0 false) (length errors)) l)
  = (fallbackControls l + length errors)%nat
  /\ keydown
       (speechRun (map SpError errors
                   ++ repeat (SpCallback 0 false) (length errors)) l) m
     = Nat.iter (length errors) processHumanClaim (keydown l m).
Proof.
  intros L Q.
  assert (E : forall errs l1, isListening l1 = false ->
            speechRun (map SpError errs) l1
            = mkListener false (fallbackActive l1) (retryCount l1)
                (maxRetries l1) (fallbackControls l1)
                (scheduled l1
                 ++ repeat FallbackToAlternativeMethods (length errs))).
  { induction errs as [| e errs IH]; intros l1 L1.
    - cbn. rewrite app_nil_r. destruct l1. cbn in L1. subst. reflexivity.
    - cbn [map speechRun fold_left speechStep].
      change (fold_left speechStep (map SpError errs) ?x)
        with (speechRun (map SpError errs) x).
      unfold handleSpeechError. rewrite L1, andb_false_r.
      rewrite IH by exact L1. listenerFields.
      rewrite <- app_assoc. reflexivity. }
  assert (C : forall n l1, isListening l1 = false ->
            scheduled l1 = repeat FallbackToAlternativeMethods n ->
            fallbackControls (speechRun (repeat (SpCallback 0 false) n) l1)
            = (fallbackControls l1 + n)%nat).
  { induction n as [| n IH]; intros l1 L1 Q1.
    - cbn. lia.
    - cbn [repeat speechRun fold_left speechStep].
      change (fold_left speechStep (repeat (SpCallback 0 false) n) ?x)
        with (speechRun (repeat (SpCallback 0 false) n) x).
      rewrite Q1. cbn [repeat nth_error firstn skipn app runCallback].
      rewrite IH; listenerFields; [lia | reflexivity | reflexivity]. }
  assert (F : fallbackControls
                (speechRun (map SpError errors
                            ++ repeat (SpCallback 0 false) (length errors)) l)
              = (fallbackControls l + length errors)%nat).
  { unfold speechRun. rewrite fold_left_app.
    change (fold_left speechStep (map SpError errors) l)
      with (speechRun (map SpError errors) l).
    change (fold_left speechStep (repeat (SpCallback 0 false) ?n) ?x)
      with (speechRun (repeat (SpCallback 0 false) n) x).
    rewrite (E errors l L), Q. cbn [app].
    rewrite C; listenerFields; reflexivity. }
  split; [exact F |].
  unfold keydown. rewrite F, Nat.add_comm. apply Nat.iter_add.
Qed.

(** The listener after one switch to the fallback. *)
Definition fallenBack : Listener := fallbackToAlternativeMethods listening.

Lemma trigger_phrase_witness :
  detectHumanPhrase "well i am a human being"%string = true.
Proof.
  apply (proj2 (detectHumanPhrase_three_phrases
                  "well i am a human being"%string)).
  right. left. exists "well "%string, " being"%string. reflexivity.
Defined.

Lemma retry_budget_witness :
  isListening
    (speechRun [SpError NoSpeech; SpCallback 0 false; SpEnd; SpError Aborted]
               listening) = true
  /\ (0 <= retryCount
             (speechRun [SpError NoSpeech; SpCallback 0 false; SpEnd;
                         SpError Aborted] listening) <= 5)%Z.
Proof.
  destruct (retry_budget_is_not_refilled
              [SpError NoSpeech; SpCallback 0 false; SpEnd; SpError Aborted]
              listening) as [(L & B & _) | (L & _)].
  - reflexivity.
  - constructor.
  - cbn. lia.
  - reflexivity.
  - split; [exact L | exact B].
  - vm_compute in L. discriminate L.
Defined.

Lemma sixth_error_witness :
  speechRun (map SpError ([NoSpeech; Aborted; NoSpeech; OtherError; NoSpeech]
                          ++ [NoSpeech])) listening
  = mkListener false true 0 5 1 (repeat RestartRecognition 5).
Proof.
  destruct (last_retry_then_fallback
              [NoSpeech; Aborted; NoSpeech; OtherError; NoSpeech] listening)
    as (_ & F).
  - reflexivity.
  - constructor.
  - reflexivity.
  - cbn. lia.
  - apply (F eq_refl NoSpeech eq_refl).
Defined.

Lemma controls_accumulate_witness :
  fallbackControls
    (speechRun (map SpError [Network; NoSpeech]
                ++ repeat (SpCallback 0 false) 2) fallenBack) = 3%nat
  /\ keydown
       (speechRun (map SpError [Network; NoSpeech]
                   ++ repeat (SpCallback 0 false) 2) fallenBack) analysing1
     = Nat.iter 2 processHumanClaim (keydown fallenBack analysing1).
Proof.
  apply (fallback_controls_accumulate [Network; NoSpeech] fallenBack
           analysing1); reflexivity.
Defined.

End Speech.

(** ** The earlier revision of the controller *)

(** In the earlier revision of the file the first claim is handled like
    the later ones, and the analysis interval counts in steps of 25;
    the scoring functions and the tracker are the same. *)
Module Earlier.

Section Revision.

Variables Math_sin Math_cos Math_sqrt : Q -> Q.

(** [processHumanClaim()] *)
Definition processHumanClaim (m : Mirror) : Mirror :=
  if (maxSmileLevel m <=? smileLevel m)%Z then m
  else
    let m1 := set_smileLevel (smileLevel m + 1) m in
    let m2 :=
      set_humanityPercentage (Z.max 0 (100 - smileLevel m1 * 25)) m1 in
    let m3 := updateHumanityLevel m2 in
    setTimeout TaskTrigger 1000 m3.

(** The body of a timer callback of this revision, which queues no
    [TaskPromptSmile] and no [TaskStartMeasuring]. *)
Definition runTask (rd : Readings) (t : Timer) (m : Mirror) : Mirror :=
  match task t with
  | TaskPromptSmile => m
  | TaskStartMeasuring => m
  | TaskTrigger => triggerSmileVerification Math_sqrt rd m
  | TaskShowFailure => set_failureOverlay true m
  | TaskAnalysisTick progress stepIndex =>
      let progress' := progress + 25 in
      let stepIndex' :=
        if (stepIndex <? 3)%nat then S stepIndex else stepIndex in
      let m1 :=
        set_timers
          (timers m ++ [mkTimer (timerId t) (clock m + 1000)
                                (TaskAnalysisTick progress' stepIndex')])
          m in
      if Qle_bool 100 progress' then
        let m2 :=
          match analysisTimer m1 with
          | Some id => clearInterval id m1
          | None => m1
          end in
        stopOverlayUpdates m2
      else m1
  end.

Definition fireTimer (rd : Readings) (m : Mirror) : Mirror :=
  match nextTimer (timers m) with
  | Some t =>
      if (due t <=? clock m)%Z
      then runTask rd t
             (set_timers
                (filter (fun t' => negb (timerId t' =? timerId t)%nat)
                        (timers m))
                m)
      else m
  | None => m
  end.

Definition step (m : Mirror) (e : Event) : Mirror :=
  match e with
  | EvClaim => processHumanClaim m
  | EvReset => resetMirror m
  | EvWait dt => set_clock (clock m + Z.max 0 dt) m
  | EvTimer rd => fireTimer rd m
  | EvFrame now det => stateOf (updateFacialAnalysisOverlay Math_sin Math_cos now det m)
  end.

Definition runEvents (es : list Event) (m : Mirror) : Mirror :=
  fold_left step es m.

Definition reachable (m : Mirror) : Prop :=
  exists loaded w h es,
    (0 <= w)%Z /\ (0 <= h)%Z /\ m = runEvents es (construct loaded w h).

(** The level is within its bound, the percentage follows it, and the
    failure page is neither shown nor queued. *)
Definition safe (m : Mirror) : Prop :=
  maxSmileLevel m = 3%Z
  /\ (0 <= smileLevel m <= 3)%Z
  /\ humanityPercentage m = Z.max 0 (100 - smileLevel m * 25)
  /\ failureOverlay m = false
  /\ Forall (fun t => task t <> TaskShowFailure) (timers m).

Lemma nextTimer_In (queue : list Timer) (t : Timer) :
  nextTimer queue = Some t -> In t queue.
Proof.
  revert t. induction queue as [| a queue IH]; intros t E; [discriminate |].
  cbn [nextTimer] in E. destruct (nextTimer queue) as [t' |].
  - destruct (due t' <? due a)%Z; inversion E; subst.
    + right. apply IH. reflexivity.
    + left. reflexivity.
  - inversion E. left. reflexivity.
Qed.

Lemma Forall_filter {A : Type} (P : A -> Prop) (f : A -> bool) (l : list A) :
  Forall P l -> Forall P (filter f l).
Proof.
  intros F. apply Forall_forall. intros x I. apply filter_In in I.
  destruct I as [I _]. revert x I. apply Forall_forall. exact F.
Qed.

Lemma Forall_snoc {A : Type} (P : A -> Prop) (l : list A) (a : A) :
  Forall P l -> P a -> Forall P (l ++ [a]).
Proof.
  intros F H. apply Forall_app. split; [exact F |].
  constructor; [exact H | constructor].
Qed.

Lemma startFakeAnalysis_safe (m : Mirror) : safe m -> safe (startFakeAnalysis m).
Proof.
  intros (Mx & B & H & F & T).
  unfold safe, startFakeAnalysis, createFacialAnalysisOverlay, setTimer.
  readFields. destruct (facialOverlay m); readFields;
    (split; [exact Mx |]; split; [exact B |]; split; [exact H |];
     split; [exact F |]; apply Forall_snoc; [exact T | discriminate]).
Qed.

Lemma step_safe (m : Mirror) (e : Event) : safe m -> safe (step m e).
Proof.
  intros Sf. pose proof Sf as (Mx & B & H & F & T).
  destruct e as [ | | dt | rd | now det]; cbn [step].
  - unfold processHumanClaim, updateHumanityLevel, setTimeout, setTimer.
    destruct (maxSmileLevel m <=? smileLevel m)%Z eqn:G; [exact Sf |].
    apply Z.leb_gt in G. readFields.
    assert (P : (Z.max 0 (100 - (smileLevel m + 1) * 25) <=? 0)%Z = false)
      by (apply Z.leb_gt; lia).
    rewrite P. unfold safe. readFields.
    split; [exact Mx |]. split; [lia |]. split; [reflexivity |].
    split; [exact F |]. apply Forall_snoc; [exact T | discriminate].
  - unfold resetMirror, stopOverlayUpdates, clearInterval, safe. readFields.
    destruct (analysisTimer m); readFields;
      (split; [exact Mx |]; split; [lia |]; split; [reflexivity |];
       split; [reflexivity |]); [apply Forall_filter |]; exact T.
  - exact Sf.
  - unfold fireTimer. destruct (nextTimer (timers m)) as [t |] eqn:N;
      [| exact Sf].
    destruct (due t <=? clock m)%Z; [| exact Sf].
    apply nextTimer_In in N.
    assert (Tt : task t <> TaskShowFailure)
      by (revert t N; apply Forall_forall; exact T).
    assert (S' : safe (set_timers
                         (filter (fun t' => negb (timerId t' =? timerId t)%nat)
                                 (timers m)) m)).
    { unfold safe. readFields. repeat split; try assumption; try lia.
      apply Forall_filter. exact T. }
    revert S'.
    generalize (set_timers
                  (filter (fun t' => negb (timerId t' =? timerId t)%nat)
                          (timers m)) m).
    intros m' S'. pose proof S' as (Mx' & B' & H' & F' & T').
    unfold runTask. destruct (task t) as [ | | | | progress stepIndex].
    + exact S'.
    + exact S'.
    + unfold triggerSmileVerification. apply startFakeAnalysis_safe.
      unfold safe. readFields. repeat split; try assumption; lia.
    + contradiction Tt. reflexivity.
    + assert (T1 : Forall (fun t0 => task t0 <> TaskShowFailure)
                     (timers m'
                      ++ [mkTimer (timerId t) (clock m' + 1000)
                            (TaskAnalysisTick (progress + 25)
                               (if (stepIndex <? 3)%nat
                                then S stepIndex else stepIndex))]))
        by (apply Forall_snoc; [exact T' | discriminate]).
      destruct (Qle_bool 100 (progress + 25)).
      * unfold stopOverlayUpdates, clearInterval, safe. readFields.
        destruct (analysisTimer m'); readFields;
          (split; [exact Mx' |]; split; [exact B' |]; split; [exact H' |];
           split; [exact F' |]); [apply Forall_filter |]; exact T1.
      * unfold safe. readFields. repeat split; try assumption; lia.
  - pose proof (frame_fixed Math_sin Math_cos now det m) as X.
    pose proof (frame_controller Math_sin Math_cos now det m) as C.
    revert X C.
    generalize (stateOf (updateFacialAnalysisOverlay Math_sin Math_cos now det m)).
    intros m' X C. unfold fixedPart in X. unfold controllerPart in C.
    inversion X. inversion C. unfold safe. repeat split; try congruence; lia.
Qed.

(** X29: in the earlier revision, where every claim is counted when it
    is made, no run of claims, resets, timers and frames takes the
    level above 3 or the humanity percentage below 25, so the failure
    page is never queued and never shown. *)
Theorem earlier_revision_never_fails (m : Mirror) :
  reachable m ->
  (0 <= smileLevel m <= 3)%Z
  /\ (25 <= humanityPercentage m <= 100)%Z
  /\ Forall (fun t => task t <> TaskShowFailure) (timers m)
  /\ failureOverlay m = false.
Proof.
  intros (loaded & w & h & es & _ & _ & ->).
  assert (G : forall es m0, safe m0 -> safe (runEvents es m0)).
  { induction es0 as [| e es0 IH]; intros m0 S; cbn.
    - exact S.
    - apply IH, step_safe, S. }
  destruct (G es (construct loaded w h)) as (Mx & B & H & F & T).
  - unfold safe, construct. readFields.
    repeat split; try reflexivity; try lia. constructor.
  - repeat split; try assumption; lia.
Qed.

End Revision.

Lemma earlier_four_claims_witness :
  (0 <= smileLevel
          (runEvents hostSin hostCos hostSqrt [EvClaim; EvClaim; EvClaim; EvClaim]
                     (construct false 640 480)) <= 3)%Z
  /\ failureOverlay
       (runEvents hostSin hostCos hostSqrt [EvClaim; EvClaim; EvClaim; EvClaim]
                  (construct false 640 480)) = false.
Proof.
  destruct (earlier_revision_never_fails hostSin hostCos hostSqrt
              (runEvents hostSin hostCos hostSqrt [EvClaim; EvClaim; EvClaim; EvClaim]
                         (construct false 640 480))) as (L & _ & _ & F).
  - exists false, 640%Z, 480%Z, [EvClaim; EvClaim; EvClaim; EvClaim].
    split; [discriminate |]. split; [discriminate |]. reflexivity.
  - split; [exact L | exact F].
Defined.

End Earlier.

(** ** The code-reading revision of the challenge *)

(** In this revision the claim is answered by a hidden eight-digit code
    drawn in seven-segment digits, and humanity goes down by 20 a
    level, up to level 5. *)
Module Captcha.

Import Ascii.AsciiSyntax.
#[local] Delimit Scope char_scope with char.

(** The timeouts the controller queues. *)
Inductive Pending : Type :=
| TriggerReverseCAPTCHA       (* processHumanClaim, 1000 ms *)
| ShowFailurePage.            (* updateHumanityLevel, 1000 ms *)

Record Verifier : Type := mkVerifier {
  captchaLevel : Z;
  maxCaptchaLevel : Z;
  humanityPercentage : Z;
  pending : list Pending
}.

(** The state the constructor leaves. *)
Definition construct : Verifier := mkVerifier 0 5 100 [].

(** [updateHumanityLevel()] *)
Definition updateHumanityLevel (v : Verifier) : Verifier :=
  if (humanityPercentage v <=? 0)%Z
  then mkVerifier (captchaLevel v) (maxCaptchaLevel v) (humanityPercentage v)
                  (pending v ++ [ShowFailurePage])
  else v.

(** [processHumanClaim()] *)
Definition processHumanClaim (v : Verifier) : Verifier :=
  if (maxCaptchaLevel v <=? captchaLevel v)%Z then v
  else
    let level := (captchaLevel v + 1)%Z in
    let v1 :=
      mkVerifier level (maxCaptchaLevel v) (Z.max 0 (100 - level * 20))
                 (pending v) in
    let v2 := updateHumanityLevel v1 in
    mkVerifier (captchaLevel v2) (maxCaptchaLevel v2) (humanityPercentage v2)
               (pending v2 ++ [TriggerReverseCAPTCHA]).

Definition isFailure (p : Pending) : bool :=
  match p with
  | ShowFailurePage => true
  | TriggerReverseCAPTCHA => false
  end.

(** How many times the failure page is queued. *)
Definition failuresQueued (v : Verifier) : nat :=
  length (filter isFailure (pending v)).

(** [getSevenSegmentPattern(digit)] *)
Definition getSevenSegmentPattern (digit : Ascii.ascii) : list nat :=
  match digit with
  | "0"%char => [1; 1; 1; 0; 1; 1; 1]
  | "1"%char => [0; 0; 1; 0; 0; 1; 0]
  | "2"%char => [1; 0; 1; 1; 1; 0; 1]
  | "3"%char => [1; 0; 1; 1; 0; 1; 1]
  | "4"%char => [0; 1; 1; 1; 0; 1; 0]
  | "5"%char => [1; 1; 0; 1; 0; 1; 1]
  | "6"%char => [1; 1; 0; 1; 1; 1; 1]
  | "7"%char => [1; 0; 1; 0; 0; 1; 0]
  | "8"%char => [1; 1; 1; 1; 1; 1; 1]
  | "9"%char => [1; 1; 1; 1; 0; 1; 1]
  | _ => [0; 0; 0; 0; 0; 0; 0]
  end%nat.

(** [Math.floor(r * 10).toString()] for a draw [r]: one character when
    the floor is a digit. *)
Definition digitOf (r : Q) : Ascii.ascii :=
  Ascii.ascii_of_nat (48 + Z.to_nat (Qfloor (r * 10))).

(** [generateRandomCode()], with the successive results of
    [Math.random()]. *)
Definition generateRandomCode (random : nat -> Q) : list Ascii.ascii :=
  map (fun i => digitOf (random i)) (seq 0 8).

Definition isDigit (c : Ascii.ascii) : Prop :=
  In c [ "0"; "1"; "2"; "3"; "4"; "5"; "6"; "7"; "8"; "9" ]%char.

Lemma digitOf_digit (r : Q) : 0 <= r -> r < 1 -> isDigit (digitOf r).
Proof.
  intros Lo Hi. unfold digitOf.
  assert (L : (0 <= Qfloor (r * 10))%Z).
  { rewrite <- (Qfloor_Z 0). apply Qfloor_resp_le.
    change (inject_Z 0) with 0. lra. }
  assert (U : (Qfloor (r * 10) < 10)%Z).
  { pose proof (Qfloor_le (r * 10)) as F.
    assert (G : inject_Z (Qfloor (r * 10)) < 10) by lra.
    revert G. generalize (Qfloor (r * 10)). intros z G.
    unfold Qlt in G. cbn in G. lia. }
  revert L U. generalize (Qfloor (r * 10)). intros z L U.
  assert (C : (z = 0 \/ z = 1 \/ z = 2 \/ z = 3 \/ z = 4 \/ z = 5 \/ z = 6
               \/ z = 7 \/ z = 8 \/ z = 9)%Z) by lia.
  unfold isDigit.
  destruct C as [-> | [-> | [-> | [-> | [-> | [-> | [-> | [-> | [-> | ->]]]]]]]]];
    cbn; tauto.
Qed.

Lemma pattern_reads_back (c c' : Ascii.ascii) :
  isDigit c -> isDigit c' ->
  getSevenSegmentPattern c = getSevenSegmentPattern c' -> c = c'.
Proof.
  unfold isDigit. cbn [In]. intros D D' E.
  repeat (destruct D as [<- | D]; [| try contradiction]);
    repeat (destruct D' as [<- | D']; [| try contradiction]);
    try reflexivity; discriminate E.
Qed.

(** X22: [generateRandomCode] returns eight decimal digits, whatever
    [Math.random] returns in [0, 1), and the seven-segment patterns of a
    code tell it apart from every other code of digits: no digit has
    the blank pattern of a character that is not a digit, and two codes
    with the same patterns are the same code. *)
Theorem generated_code_reads_back (random : nat -> Q) :
  unitInterval random ->
  length (generateRandomCode random) = 8%nat
  /\ Forall isDigit (generateRandomCode random)
  /\ Forall (fun c => getSevenSegmentPattern c <> [0; 0; 0; 0; 0; 0; 0]%nat)
            (generateRandomCode random)
  /\ forall code,
      Forall isDigit code ->
      map getSevenSegmentPattern code
      = map getSevenSegmentPattern (generateRandomCode random) ->
      code = generateRandomCode random.
Proof.
  intros U.
  assert (D : Forall isDigit (generateRandomCode random)).
  { unfold generateRandomCode. apply Forall_map. apply Forall_forall.
    intros i _. destruct (U i). apply digitOf_digit; assumption. }
  split; [reflexivity |]. split; [exact D |]. split.
  - revert D. apply Forall_impl. intros c Dc. unfold isDigit in Dc.
    cbn [In] in Dc.
    repeat (destruct Dc as [<- | Dc]; [discriminate |]). contradiction.
  - revert D. generalize (generateRandomCode random). intros code'.
    intros D' code. revert code' D'.
    induction code as [| c code IH]; intros [| c' code'] D' D E;
      try discriminate E; [reflexivity |].
    inversion D; inversion D'; subst. cbn [map] in E. inversion E.
    f_equal; [apply pattern_reads_back; assumption | apply IH; assumption].
Qed.

Lemma processHumanClaim_below (v : Verifier) :
  maxCaptchaLevel v = 5%Z -> (0 <= captchaLevel v < 5)%Z ->
  processHumanClaim v
  = mkVerifier (captchaLevel v + 1) 5 (Z.max 0 (100 - (captchaLevel v + 1) * 20))
               (pending v
                ++ (if (captchaLevel v =? 4)%Z then [ShowFailurePage] else [])
                ++ [TriggerReverseCAPTCHA]).
Proof.
  intros Mx B. unfold processHumanClaim, updateHumanityLevel. rewrite Mx.
  assert (G : (5 <=? captchaLevel v)%Z = false) by (apply Z.leb_gt; lia).
  rewrite G. cbn [humanityPercentage captchaLevel maxCaptchaLevel pending].
  destruct (captchaLevel v =? 4)%Z eqn:E.
  - apply Z.eqb_eq in E.
    assert (P : (Z.max 0 (100 - (captchaLevel v + 1) * 20) <=? 0)%Z = true)
      by (apply Z.leb_le; lia).
    rewrite P. cbn [humanityPercentage captchaLevel maxCaptchaLevel pending].
    rewrite <- app_assoc. reflexivity.
  - apply Z.eqb_neq in E.
    assert (P : (Z.max 0 (100 - (captchaLevel v + 1) * 20) <=? 0)%Z = false)
      by (apply Z.leb_gt; lia).
    rewrite P. reflexivity.
Qed.

(** X30: in the code-reading revision, claims made one after the other
    raise the level by one each up to 5, where they stop counting; the
    humanity percentage stays [max(0, 100 - 20 * level)]; and the
    failure page is queued once, by the claim that reaches level 5,
    and by no other. *)
Theorem captcha_claims_saturate (n : nat) (v : Verifier) :
  maxCaptchaLevel v = 5%Z -> (0 <= captchaLevel v <= 5)%Z ->
  captchaLevel (Nat.iter n processHumanClaim v)
  = Z.min (captchaLevel v + Z.of_nat n) 5
  /\ (n <> 0%nat -> (captchaLevel v < 5)%Z ->
      humanityPercentage (Nat.iter n processHumanClaim v)
      = Z.max 0 (100 - 20 * captchaLevel (Nat.iter n processHumanClaim v)))
  /\ failuresQueued (Nat.iter n processHumanClaim v)
     = (failuresQueued v
        + if ((captchaLevel v <? 5) && (5 <=? captchaLevel v + Z.of_nat n))%Z
          then 1 else 0)%nat.
Proof.
  intros Mx B.
  assert (G : captchaLevel (Nat.iter n processHumanClaim v)
              = Z.min (captchaLevel v + Z.of_nat n) 5
              /\ maxCaptchaLevel (Nat.iter n processHumanClaim v) = 5%Z
              /\ (n <> 0%nat -> (captchaLevel v < 5)%Z ->
                  humanityPercentage (Nat.iter n processHumanClaim v)
                  = Z.max 0 (100 - 20 * captchaLevel
                                          (Nat.iter n processHumanClaim v)))
              /\ failuresQueued (Nat.iter n processHumanClaim v)
                 = (failuresQueued v
                    + if ((captchaLevel v <? 5)
                          && (5 <=? captchaLevel v + Z.of_nat n))%Z
                      then 1 else 0)%nat).
  { induction n as [| n (L & Mx' & H & F)].
    - change (Nat.iter 0 processHumanClaim v) with v.
      split; [lia |]. split; [exact Mx |].
      split; [intros C; contradiction C; reflexivity |].
      destruct (captchaLevel v <? 5)%Z eqn:C; cbn [andb]; [| lia].
      apply Z.ltb_lt in C.
      assert (P : (5 <=? captchaLevel v + Z.of_nat 0)%Z = false)
        by (apply Z.leb_gt; lia).
      rewrite P. lia.
    - change (Nat.iter (S n) processHumanClaim v)
        with (processHumanClaim (Nat.iter n processHumanClaim v)).
      revert L Mx' H F. generalize (Nat.iter n processHumanClaim v).
      intros vn L Mx' H F. rewrite Nat2Z.inj_succ.
      destruct (Z_lt_le_dec (captchaLevel vn) 5) as [Lt | Ge].
      + rewrite (processHumanClaim_below vn Mx') by lia.
        cbn [captchaLevel maxCaptchaLevel humanityPercentage].
        split; [lia |]. split; [reflexivity |].
        split; [intros _ _; f_equal; lia |].
        unfold failuresQueued in *. cbn [pending].
        rewrite !filter_app, !length_app, F.
        assert (C1 : (captchaLevel v <? 5)%Z = true) by (apply Z.ltb_lt; lia).
        rewrite C1. cbn [andb].
        assert (C2 : (5 <=? captchaLevel v + Z.of_nat n)%Z = false)
          by (apply Z.leb_gt; lia).
        rewrite C2.
        destruct (captchaLevel vn =? 4)%Z eqn:E.
        * apply Z.eqb_eq in E.
          assert (C3 : (5 <=? captchaLevel v + Z.succ (Z.of_nat n))%Z = true)
            by (apply Z.leb_le; lia).
          rewrite C3. cbn. lia.
        * apply Z.eqb_neq in E.
          assert (C3 : (5 <=? captchaLevel v + Z.succ (Z.of_nat n))%Z = false)
            by (apply Z.leb_gt; lia).
          rewrite C3. cbn. lia.
      + assert (Id : processHumanClaim vn = vn).
        { unfold processHumanClaim. rewrite Mx'.
          assert (P : (5 <=? captchaLevel vn)%Z = true)
            by (apply Z.leb_le; lia).
          rewrite P. reflexivity. }
        rewrite Id. split; [lia |]. split; [exact Mx' |].
        split.
        * intros _ Lt. apply H; [| exact Lt]. intros ->.
          change (Z.of_nat 0) with 0%Z in L. lia.
        * rewrite F.
          destruct (captchaLevel v <? 5)%Z eqn:C1; cbn [andb];
            [| reflexivity].
          apply Z.ltb_lt in C1.
          assert (C2 : (5 <=? captchaLevel v + Z.of_nat n)%Z = true)
            by (apply Z.leb_le; lia).
          assert (C3 : (5 <=? captchaLevel v + Z.succ (Z.of_nat n))%Z = true)
            by (apply Z.leb_le; lia).
          rewrite C2, C3. reflexivity. }
  destruct G as (L & _ & H & F). auto.
Qed.

Lemma generated_code_witness :
  length (generateRandomCode (fun _ => 0.5)) = 8%nat
  /\ Forall isDigit (generateRandomCode (fun _ => 0.5)).
Proof.
  destruct (generated_code_reads_back (fun _ => 0.5)) as (L & D & _).
  - intros n. split; lra.
  - split; [exact L | exact D].
Defined.

Lemma seven_claims_witness :
  captchaLevel (Nat.iter 7 processHumanClaim construct) = 5%Z
  /\ failuresQueued (Nat.iter 7 processHumanClaim construct) = 1%nat.
Proof.
  destruct (captcha_claims_saturate 7 construct) as (L & _ & F).
  - reflexivity.
  - cbn. lia.
  - split; [exact L | exact F].
Defined.

End Captcha.

(* ================================================================== *)
(** * Concrete runs of the further properties *)


(** An analysing object whose video has no size yet. *)
Definition noVideo : Mirror := play firstClaim (construct true 0 0).

(** An interval that is not the one [analysisTimer] names. *)
Definition staleTick : Timer := mkTimer 7 0 (TaskAnalysisTick 90 3).

Lemma half_is_unit : unitInterval (fun _ => 0.5).
Proof. intros n. split; lra. Qed.

Lemma simulated_metrics_witness :
  47.5 <= weightedBase (generateSimulatedMetrics (fun _ => 0.5))
  /\ weightedBase (generateSimulatedMetrics (fun _ => 0.5)) <= 78.
Proof.
  pose proof (simulated_metrics_ranges (fun _ => 0.5) half_is_unit) as P.
  cbv zeta in P. destruct P as (_ & _ & _ & _ & _ & W). exact W.
Defined.

Lemma simulated_level3_witness :
  calculateSimulatedScore
    (generateSimulatedMetrics (Math_random sampleReadings)) 3 == 45
  /\ exists q,
      score (generateSmileScore hostSqrt sampleReadings 3
               (construct false 640 480)) = Fin q
      /\ 42 <= q /\ q <= 48.
Proof.
  apply (simulated_level3_score_is_pinned hostSqrt sampleReadings
           (construct false 640 480)).
  - exact half_is_unit.
  - reflexivity.
Defined.

Lemma final_score_witness :
  finalScoreOf (calculateRealisticScore (mkSubMetrics 60 70 50 80 40) 2) 0.5
  == calculateRealisticScore (mkSubMetrics 60 70 50 80 40) 2 + (0.5 - 0.5) * 6.
Proof.
  destruct (final_score_is_base_plus_variance
              (mkSubMetrics 60 70 50 80 40) 2 0.5) as ((E & _) & _).
  - lia.
  - lra.
  - lra.
  - exact E.
Defined.

Lemma base_score_monotone_witness :
  calculateRealisticScore (mkSubMetrics 60 70 50 80 40) 1
  <= calculateRealisticScore (mkSubMetrics 70 70 50 80 30) 1.
Proof.
  destruct (base_score_monotone (mkSubMetrics 60 70 50 80 40)
              (mkSubMetrics 70 70 50 80 30) 1) as (R & _);
    cbn; try lra. exact R.
Defined.

Lemma partial_mesh_witness :
  generateSmileScore hostSqrt sampleReadings 1 afterFallback
  = generateSmileScore hostSqrt sampleReadings 1 (construct false 640 480).
Proof.
  apply (partial_mesh_scores_as_simulated hostSqrt sampleReadings 1 afterFallback
           (construct false 640 480)).
  - apply Nat.ltb_lt. vm_compute. reflexivity.
  - apply Nat.ltb_lt. vm_compute. reflexivity.
Defined.

Lemma repeated_claims_witness :
  smileLevel (Nat.iter 5 processHumanClaim analysing1)
  = Z.min (smileLevel analysing1 + Z.of_nat 5) (maxSmileLevel analysing1).
Proof.
  destruct (repeated_claims_saturate 5 analysing1) as (L & _).
  - vm_compute. split; discriminate.
  - vm_compute. reflexivity.
  - exact L.
Defined.

Lemma analysis_flag_witness :
  isAnalyzing (runEvents hostSin hostCos hostSqrt (laterClaim ++ analysis) analysing1)
  = true.
Proof.
  apply (isAnalyzing_cleared_only_by_reset hostSin hostCos hostSqrt).
  - vm_compute. reflexivity.
  - unfold laterClaim, analysis. cbn [repeat concat app In].
    intros I. repeat (destruct I as [I | I]; [discriminate I |]). exact I.
Defined.

Lemma seven_ticks_witness :
  timers (runEvents hostSin hostCos hostSqrt (ticks sampleReadings 7)
            (startFakeAnalysis (construct false 640 480))) = []
  /\ isTracking (runEvents hostSin hostCos hostSqrt (ticks sampleReadings 7)
                   (startFakeAnalysis (construct false 640 480))) = false.
Proof.
  destruct (analysis_lasts_seven_ticks hostSin hostCos hostSqrt sampleReadings
              (construct false 640 480)) as (_ & T & K & _).
  - reflexivity.
  - split; [exact T | exact K].
Defined.


Lemma stale_interval_witness :
  exists t', In t' (timers (runTask hostSqrt sampleReadings staleTick analysing1))
             /\ timerId t' = timerId staleTick
             /\ isAnalysisTick t' = true.
Proof.
  destruct (stale_interval_never_stops hostSqrt sampleReadings staleTick 90 3
              analysing1) as (S & _).
  - reflexivity.
  - vm_compute. discriminate.
  - exact S.
Defined.

Lemma level_three_witness :
  updateHumanityLevel afterThreeRounds = afterThreeRounds.
Proof.
  destruct (failure_page_needs_level_four afterThreeRounds) as (K & _).
  - vm_compute. reflexivity.
  - apply K. vm_compute. discriminate.
Defined.

Lemma stored_score_witness : storedScoreFails afterThreeRounds.
Proof.
  destruct (stored_score_stays_and_fails hostSin hostCos hostSqrt) as (R & _).
  apply R.
  exists false, 640%Z, 480%Z,
    (firstClaim ++ analysis ++ laterClaim ++ analysis ++ laterClaim ++ analysis).
  split; [discriminate |]. split; [discriminate |]. reflexivity.
Defined.

Lemma extraction_witness :
  exists m',
    extractLandmarks twoPointFace afterFallback = Ok tt m'
    /\ length (realLandmarks m') = 2%nat.
Proof.
  destruct (extraction_keeps_count twoPointFace afterFallback
              (KObject (Num 100) (Num 100) Undefined)
              [KArray [Num 200; Num 300]]) as (m' & E & L & _).
  - reflexivity.
  - reflexivity.
  - exists m'. split; [exact E | exact L].
Defined.

Lemma no_overshoot_witness :
  exists sx sy sz,
    nth_error
      (smoothedLandmarks
         (smoothLandmarks [mkLandmark (Num 20) (Num 40) (Num 10)] onePoint)) 0
    = Some (mkLandmark (Num sx) (Num sy) (Num sz))
    /\ (Qmin 10 20 <= sx /\ sx <= Qmax 10 20).
Proof.
  destruct (smoothing_stays_between onePoint
              [mkLandmark (Num 20) (Num 40) (Num 10)] 0%nat
              10 20 0 20 40 10) as (sx & sy & sz & E & X & _).
  - reflexivity.
  - reflexivity.
  - exists sx, sy, sz. split; [exact E | exact X].
Defined.

Lemma approach_witness :
  exists sx tx,
    l0 (nth 0 (smoothedLandmarks
                 (Nat.iter 3
                    (smoothLandmarks [mkLandmark (Num 20) (Num 40) (Num 10)])
                    onePoint))
            (mkLandmark Undefined Undefined Undefined)) = Num sx
    /\ l0 (nth 0 (smoothedLandmarks
                    (Nat.iter 4
                       (smoothLandmarks [mkLandmark (Num 20) (Num 40) (Num 10)])
                       onePoint))
               (mkLandmark Undefined Undefined Undefined)) = Num tx
    /\ Qmin 10 20 <= sx /\ sx <= Qmax 10 20
    /\ Qabs (tx - 20) <= Qabs (sx - 20).
Proof.
  destruct (smoothing_approaches_raw 3 onePoint
              [mkLandmark (Num 20) (Num 40) (Num 10)] 0%nat
              10 20 0 20 40 10)
    as (sx & sy & sz & tx & ty & tz & S & T & ((X1 & X2) & _) & _ & (A & _)).
  - reflexivity.
  - reflexivity.
  - exists sx, tx.
    rewrite (nth_error_nth _ _ _ S), (nth_error_nth _ _ _ T).
    repeat split; assumption.
Defined.

Lemma first_frame_stored_witness :
  smoothedLandmarks
    (smoothLandmarks [mkLandmark (Num 20) (Num 40) (Num 10)]
                     (construct true 640 480))
  = [mkLandmark (Num 20) (Num 40) (Num 10)].
Proof.
  destruct smoothing_without_predecessor as (F & _).
  destruct (F (construct true 640 480)
              [mkLandmark (Num 20) (Num 40) (Num 10)]) as (S & _).
  - reflexivity.
  - exact S.
Defined.

Lemma fallback_layout_witness :
  exists bx by_ bw bh : Q,
    faceBoundingBox
      (fst (performFallbackFaceDetection hostSin hostCos 1000 tracking1))
    = Some (mkBox (Num bx) (Num by_) (Num bw) (Num bh))
    /\ nth_error
         (realLandmarks
            (fst (performFallbackFaceDetection hostSin hostCos 1000 tracking1)))
         2
       = Some (mkLandmark (Num (bx / 640 * 640)) (Num (by_ / 480 * 480))
                          (Num 0))
    /\ (0 <= bw ->
        bx / 640 * 640 - bw / 640 * 640 * 0.2
        <= bx / 640 * 640 - bw / 640 * 640 * 0.15).
Proof.
  destruct (fallback_landmarks_layout hostSin hostCos 1000 tracking1)
    as (bx & by_ & bw & bh & B & R & _ & X & _).
  - vm_compute. reflexivity.
  - vm_compute. reflexivity.
  - exists bx, by_, bw, bh.
    split; [exact B |]. split.
    + rewrite R. reflexivity.
    + intros W. destruct (X W) as (A1 & _). exact A1.
Defined.

Lemma no_video_witness :
  updateFacialAnalysisOverlay hostSin hostCos 0 DetThrows noVideo
  = Ok FrameScanning (createFacialAnalysisOverlay noVideo).
Proof.
  apply (frame_without_video_scans hostSin hostCos 0 DetThrows noVideo).
  - vm_compute. reflexivity.
  - left. vm_compute. reflexivity.
Defined.

Lemma first_frame_witness :
  updateFacialAnalysisOverlay hostSin hostCos 0 (DetFaces [twoPointFace])
    tracking1
  = updateFacialAnalysisOverlay hostSin hostCos 0 (DetFaces []) tracking1.
Proof.
  destruct (first_frame_ignores_detector hostSin hostCos 0
              (DetFaces [twoPointFace]) tracking1) as (E & _).
  - vm_compute. reflexivity.
  - vm_compute. reflexivity.
  - exact E.
Defined.

Lemma landmarks_with_box_witness : faceBoundingBox afterDetection <> None.
Proof.
  apply (reachable_landmarks_have_box hostSin hostCos hostSqrt afterDetection).
  - exists true, 640%Z, 480%Z,
      (firstClaim ++ [EvFrame 0 (DetFaces []);
                      EvFrame 33 (DetFaces [twoPointFace])]).
    split; [discriminate |]. split; [discriminate |].
    unfold afterDetection, tracking1, play, runEvents.
    rewrite fold_left_app. reflexivity.
  - vm_compute. discriminate.
Defined.

Lemma poisoned_box_witness :
  box_x (extentsBox (mkLandmark (Num 1) (Num 2) (Num 0))
                    [mkLandmark Undefined Undefined (Num 0)]) = NaN.
Proof.
  destruct unreadable_coordinate_poisons_box as (P & _).
  destruct (P (mkLandmark (Num 1) (Num 2) (Num 0))
              [mkLandmark Undefined Undefined (Num 0)]
              (mkLandmark Undefined Undefined (Num 0))) as (X & _).
  - right. left. reflexivity.
  - reflexivity.
  - exact X.
Defined.

Lemma frame_invariant_witness :
  exists m',
    extractLandmarks twoPointFace afterDetection = Ok tt m'
    /\ Forall (inFrame 640 480) (smoothedLandmarks m').
Proof.
  destruct extraction_keeps_landmarks_in_frame as (_ & _ & P).
  destruct (P twoPointFace afterDetection
              (KObject (Num 100) (Num 100) Undefined)
              [KArray [Num 200; Num 300]]) as (m' & E & _ & _ & F).
  - vm_compute. discriminate.
  - vm_compute. discriminate.
  - reflexivity.
  - constructor; [| constructor; [| constructor]].
    + exists 100, 100. split; [left; exists Undefined; reflexivity |].
      repeat split; unfold Qle; cbn; lia.
    + exists 200, 300. split; [right; exists []; reflexivity |].
      repeat split; unfold Qle; cbn; lia.
  - vm_compute smoothedLandmarks.
    repeat constructor;
      (eexists; eexists; split; [reflexivity |]; split; [reflexivity |];
       repeat split; unfold Qle; cbn; lia).
  - exists m'. split; [exact E | exact F].
Defined.
